(** * DESI emission-line fitting: model selection and parameter aggregation

    A shallow embedding of [fit_lines.py], [emline_params.py] and
    [emline_fitting.py].

    Conventions of the embedding.
    - A Python float is a rational number ([Q]); equality of values is [==].
      Division follows [Qdiv]: [x / 0 == 0].  The one place where the source
      produces NaN on purpose ([np.where(~cond, np.nan, arr)] followed by
      [np.nanmean] / [np.nanstd]) is modelled with the type [npfloat].
    - A Python exception ([IndexError] of [model['name']], [ValueError] of
      [max] on an empty array, [NameError] of an unbound local) is [None].
    - An astropy compound model built with [+] is the list of its leaves in
      order; a single model is a one-element list.
    - The Levenberg-Marquardt optimiser, [exp], [sqrt] and the helper modules
      that are not part of the sources at hand are parameters, bundled in the
      classes below. *)

From Stdlib Require Import QArith ZArith List String Bool Lia Lqa.
From Stdlib Require Import Qminmax Qreduction Qabs Qround Qcanon Sorted.
Import ListNotations.
Open Scope Q_scope.

(** ** Exceptions as [option] *)

Definition bind {A B : Type} (m : option A) (k : A -> option B) : option B :=
  match m with
  | Some a => k a
  | None => None
  end.

Notation "'do' x <- m ; k" := (bind m (fun x => k))
  (at level 10, x name, m at level 100, k at level 200).
Notation "'do' ' p <- m ; k" := (bind m (fun x => match x with p => k end))
  (at level 10, p pattern, m at level 100, k at level 200).

(** ** Comparisons on floats *)

Definition Qltb (x y : Q) : bool := negb (Qle_bool y x).
Definition Qgeb (x y : Q) : bool := Qle_bool y x.
Definition Qgtb (x y : Q) : bool := Qltb y x.

(** ** numpy *)

Module np.

(** [np.max(a)] and the builtin [max(a)]: [ValueError] on an empty array. *)
Fixpoint max (a : list Q) : option Q :=
  match a with
  | [] => None
  | x :: a' =>
      match max a' with
      | None => Some x
      | Some m => Some (Qmax x m)
      end
  end.

(** [a[mask(lam)]]: boolean-mask selection, the mask computed from [lam]. *)
Definition select (keep : Q -> bool) (lam a : list Q) : list Q :=
  map snd (filter (fun xy => keep (fst xy)) (combine lam a)).

Definition sum (a : list Q) : Q := fold_right Qplus 0 a.

(** [np.isclose(x, 0.0)] with the default tolerances:
    [|x - 0| <= atol + rtol * |0|], [atol = 1e-8]. *)
Definition atol : Q := 1 # 100000000.
Definition isclose0 (x : Q) : bool := Qle_bool (Qabs (x - 0)) atol.

(** [np.all(np.isclose(a, 0.0))]. *)
Definition all_isclose0 (a : list Q) : bool := forallb isclose0 a.

End np.

(** ** The numeric back end: functions of numpy that have no rational value *)

Class Numerics : Type := {
  np_exp : Q -> Q;          (* np.exp *)
  np_sqrt : Q -> Q;         (* np.sqrt *)
  sqrt_2pi : Q              (* np.sqrt(2*np.pi) *)
}.

(** ** astropy.modeling: models *)

Inductive Submodel : Type :=
| Const1D (amplitude : Q) (name : string)
| Gaussian1D (amplitude mean stddev : Q) (name : string).

(** A compound model: the leaves of the [+] tree, left to right. *)
Definition CompoundModel : Type := list Submodel.

Definition name_of (s : Submodel) : string :=
  match s with
  | Const1D _ n => n
  | Gaussian1D _ _ _ n => n
  end.

Definition n_submodels (m : CompoundModel) : Z := Z.of_nat (List.length m).

Definition submodel_names (m : CompoundModel) : list string := map name_of m.

(** [model[name]]: [IndexError] when no leaf has that name. *)
Fixpoint getitem (m : CompoundModel) (name : string) : option Submodel :=
  match m with
  | [] => None
  | s :: m' => if String.eqb (name_of s) name then Some s else getitem m' name
  end.

(** The parameters of a Gaussian leaf; reading [.mean] or [.stddev] of a
    constant raises [AttributeError]. *)
Record GaussPars : Type := mkGaussPars { amplitude : Q; mean : Q; stddev : Q }.

Definition as_gauss (s : Submodel) : option GaussPars :=
  match s with
  | Const1D _ _ => None
  | Gaussian1D a mu sd _ => Some (mkGaussPars a mu sd)
  end.

(** [model[name]] read as a Gaussian. *)
Definition gaussian (m : CompoundModel) (name : string) : option GaussPars :=
  do s <- getitem m name; as_gauss s.

(** [model[name].amplitude.value] for any leaf. *)
Definition amplitude_of (s : Submodel) : Q :=
  match s with
  | Const1D a _ => a
  | Gaussian1D a _ _ _ => a
  end.

Definition has_component (m : CompoundModel) (name : string) : bool :=
  match getitem m name with
  | Some _ => true
  | None => false
  end.

Section Evaluate.
Context {num : Numerics}.

(** [Const1D.evaluate] and [Gaussian1D.evaluate]:
    [amplitude * exp(-0.5 * (x - mean)**2 / stddev**2)]. *)
Definition evaluate1 (s : Submodel) (x : Q) : Q :=
  match s with
  | Const1D a _ => a
  | Gaussian1D a mu sd _ =>
      a * np_exp (- (1 # 2) * ((x - mu) * (x - mu)) / (sd * sd))
  end.

(** [model(lam)]: the sum of the leaves at every wavelength. *)
Definition evaluate (m : CompoundModel) (lam : list Q) : list Q :=
  map (fun x => np.sum (map (fun s => evaluate1 s x) m)) lam.
End Evaluate.

(** ** astropy.modeling: constraints and the fitter *)

Definition Bounds : Type := (option Q * option Q)%type.

Definition Tie : Type := CompoundModel -> option Q.

(** The constraints of the parameters of one leaf: [bounds], [tied] and
    [fixed].  A tie is a closure over the model under construction. *)
Record Constraints : Type := mkConstraints {
  amplitude_bounds : Bounds;
  stddev_bounds : Bounds;
  amplitude_tied : option Tie;
  mean_tied : option Tie;
  stddev_tied : option Tie;
  stddev_fixed : bool
}.

Definition unconstrained : Constraints :=
  mkConstraints (None, None) (None, None) None None None false.

(** [bounds = {'amplitude' : a, 'stddev' : s}]. *)
Definition with_bounds (a s : Bounds) : Constraints :=
  mkConstraints a s None None None false.

Definition set_stddev_bounds (b : Bounds) (c : Constraints) : Constraints :=
  mkConstraints (amplitude_bounds c) b (amplitude_tied c) (mean_tied c)
                (stddev_tied c) (stddev_fixed c).
Definition set_amplitude_tied (t : Tie) (c : Constraints) : Constraints :=
  mkConstraints (amplitude_bounds c) (stddev_bounds c) (Some t) (mean_tied c)
                (stddev_tied c) (stddev_fixed c).
Definition set_mean_tied (t : Tie) (c : Constraints) : Constraints :=
  mkConstraints (amplitude_bounds c) (stddev_bounds c) (amplitude_tied c) (Some t)
                (stddev_tied c) (stddev_fixed c).
Definition set_stddev_tied (t : Tie) (c : Constraints) : Constraints :=
  mkConstraints (amplitude_bounds c) (stddev_bounds c) (amplitude_tied c) (mean_tied c)
                (Some t) (stddev_fixed c).
Definition set_stddev_fixed (c : Constraints) : Constraints :=
  mkConstraints (amplitude_bounds c) (stddev_bounds c) (amplitude_tied c) (mean_tied c)
                (stddev_tied c) true.

(** A model handed to the fitter: leaves with their constraints. *)
Definition InitModel : Type := list (Submodel * Constraints).

Definition clip (b : Bounds) (v : Q) : Q :=
  let v := match fst b with Some lo => Qmax v lo | None => v end in
  match snd b with Some hi => Qmin v hi | None => v end.

(** The optimiser: for the model, the data and the weights it is given, the
    value it settles on for the parameters of each leaf, by leaf name.  Only
    the values of free parameters are read. *)
Class Optimizer : Type := {
  leastsq : InitModel -> list Q -> list Q -> list Q -> string -> GaussPars
}.

Module fitting.

Definition is_tied (t : option Tie) : bool :=
  match t with Some _ => true | None => false end.

(** A free parameter takes the optimiser's value, clipped to its bounds; a
    tied or fixed parameter keeps its initial value at this stage. *)
Definition set_free (fps : string -> GaussPars) (sc : Submodel * Constraints)
  : Submodel :=
  let '(s, c) := sc in
  match s with
  | Const1D a n => Const1D (amplitude (fps n)) n
  | Gaussian1D a mu sd n =>
      Gaussian1D
        (if is_tied (amplitude_tied c) then a
         else clip (amplitude_bounds c) (amplitude (fps n)))
        (if is_tied (mean_tied c) then mu else mean (fps n))
        (if is_tied (stddev_tied c) || stddev_fixed c then sd
         else clip (stddev_bounds c) (stddev (fps n)))
        n
  end.

Inductive ParamName : Type := p_amplitude | p_mean | p_stddev.

Definition set_param (p : ParamName) (v : Q) (s : Submodel) : Submodel :=
  match s with
  | Const1D a n => Const1D a n
  | Gaussian1D a mu sd n =>
      match p with
      | p_amplitude => Gaussian1D v mu sd n
      | p_mean => Gaussian1D a v sd n
      | p_stddev => Gaussian1D a mu v n
      end
  end.

Fixpoint update (i : nat) (f : Submodel -> Submodel) (m : CompoundModel)
  : CompoundModel :=
  match m, i with
  | [], _ => []
  | s :: m', O => f s :: m'
  | s :: m', S i' => s :: update i' f m'
  end.

(** One tied parameter: the tie is evaluated on the current model and its
    value stored in the model. *)
Definition apply_tie (i : nat) (p : ParamName) (t : option Tie)
           (m : CompoundModel) : option CompoundModel :=
  match t with
  | None => Some m
  | Some tie => do v <- tie m; Some (update i (set_param p v) m)
  end.

(** The ties of the leaves from position [i] on, in parameter order
    (amplitude, mean, stddev of each leaf in turn). *)
Fixpoint apply_ties (i : nat) (cs : list Constraints) (m : CompoundModel)
  : option CompoundModel :=
  match cs with
  | [] => Some m
  | c :: cs' =>
      do m1 <- apply_tie i p_amplitude (amplitude_tied c) m;
      do m2 <- apply_tie i p_mean (mean_tied c) m1;
      do m3 <- apply_tie i p_stddev (stddev_tied c) m2;
      apply_ties (S i) cs' m3
  end.

(** [fitter_to_model_params]: free parameters first, then the ties. *)
Definition fitter_to_model_params (g_init : InitModel) (fps : string -> GaussPars)
  : option CompoundModel :=
  apply_ties 0 (map snd g_init) (map (set_free fps) g_init).

(** [fitting.LevMarLSQFitter()(g_init, lam, flam, weights = w, maxiter = 1000)]. *)
Definition LevMarLSQFitter {opt : Optimizer} (g_init : InitModel)
           (lam flam weights : list Q) : option CompoundModel :=
  fitter_to_model_params g_init (leastsq g_init lam flam weights).

End fitting.

(** ** measure_fits *)

Module mfit.

(** Speed of light in km/s. *)
Definition c_kms : Q := 299792.458.

(** Modelled from the spec: [measure_fits.lamspace_to_velspace] is not among
    the sources; the velocity dispersion of a Gaussian width is
    [sigma_kms = stddev_lambda / mean_lambda * speed_of_light]. *)
Definition lamspace_to_velspace (del_lam lam_ref : Q) : Q :=
  del_lam / lam_ref * c_kms.

(** Modelled from the spec: [measure_fits.velspace_to_lamspace], the inverse
    of the above. *)
Definition velspace_to_lamspace (vel lam_ref : Q) : Q :=
  vel / c_kms * lam_ref.

(** Modelled from the spec: [measure_fits.calculate_red_chi2] is
    [sum((observed - model)^2 * inverse_variance) / (n_points - n_free_params)]. *)
Definition calculate_red_chi2 (data model ivar : list Q) (n_free_params : Z) : Q :=
  let res := map (fun dm => (fst dm - snd dm) * (fst dm - snd dm))
                 (combine data model) in
  let chi2 := np.sum (map (fun ri => fst ri * snd ri) (combine res ivar)) in
  chi2 / inject_Z (Z.of_nat (List.length data) - n_free_params).

Section Flux.
Context {num : Numerics}.

(** Modelled from the spec: [measure_fits.compute_emline_flux] without
    errors is [amplitude * stddev * sqrt(2 pi)]. *)
Definition compute_emline_flux (amp std : Q) : Q :=
  amp * std * sqrt_2pi.

(** Modelled from the spec: with errors, the flux error adds the relative
    errors of amplitude and width in quadrature. *)
Definition compute_emline_flux_err (amp std amp_err std_err : Q) : Q * Q :=
  let flux := compute_emline_flux amp std in
  (flux,
   flux * np_sqrt ((amp_err / amp) * (amp_err / amp)
                   + (std_err / std) * (std_err / std))).

(** Modelled from the spec: with errors, the error of the velocity
    dispersion adds the relative errors of width and centre in quadrature. *)
Definition lamspace_to_velspace_err (del_lam lam_ref del_lam_err lam_ref_err : Q)
  : Q * Q :=
  let sigma := lamspace_to_velspace del_lam lam_ref in
  (sigma,
   sigma * np_sqrt ((del_lam_err / del_lam) * (del_lam_err / del_lam)
                    + (lam_ref_err / lam_ref) * (lam_ref_err / lam_ref))).
End Flux.

End mfit.

(** The velocity dispersion of a named Gaussian of a model:
    [mfit.lamspace_to_velspace(m[name].stddev.value, m[name].mean.value)]. *)
Definition sigma_of (m : CompoundModel) (name : string) : option Q :=
  do g <- gaussian m name;
  Some (mfit.lamspace_to_velspace (stddev g) (mean g)).


Open Scope string_scope.
Open Scope list_scope.
Open Scope Q_scope.

(** Building blocks of the fitting functions. *)

(** [Gaussian1D(amplitude = a, mean = mu, stddev = sd, name = n, bounds = ...)]. *)
Definition gaussian_init (a mu sd : Q) (n : string) (amp_b std_b : Bounds)
  : Submodel * Constraints :=
  (Gaussian1D a mu sd n, with_bounds amp_b std_b).

(** [g.amplitude.tied = t], [g.mean.tied = t], [g.stddev.tied = t],
    [g.stddev.fixed = True], [g.stddev.bounds = b]. *)
Definition tie_amplitude (t : Tie) (g : Submodel * Constraints) :=
  (fst g, set_amplitude_tied t (snd g)).
Definition tie_mean (t : Tie) (g : Submodel * Constraints) :=
  (fst g, set_mean_tied t (snd g)).
Definition tie_stddev (t : Tie) (g : Submodel * Constraints) :=
  (fst g, set_stddev_tied t (snd g)).
Definition fix_stddev (g : Submodel * Constraints) :=
  (fst g, set_stddev_fixed (snd g)).
Definition bound_stddev (b : Bounds) (g : Submodel * Constraints) :=
  (fst g, set_stddev_bounds b (snd g)).

Definition lower (lo : Q) : Bounds := (Some lo, None).
Definition no_bounds : Bounds := (None, None).

(** ** fit_lines.fit_sii_lines *)

Module fit_sii_lines.
Section Fits.
Context {num : Numerics} {opt : Optimizer}.

Definition fit_one_component (lam_sii flam_sii ivar_sii : list Q) (fit_cont : bool)
  : option (CompoundModel * Q) :=
  (* Initial estimate of amplitudes *)
  do amp_sii <- np.max flam_sii;
  let g_sii6716 := gaussian_init amp_sii 6718.294 2.9 "sii6716" (lower 0) (lower 0.8) in
  let g_sii6731 := gaussian_init amp_sii 6732.673 2.9 "sii6731" (lower 0) (lower 0.8) in
  (* Tie means of the two gaussians *)
  let tie_mean_sii : Tie := fun model =>
    do g <- gaussian model "sii6716"; Some (mean g + 14.329) in
  let g_sii6731 := tie_mean tie_mean_sii g_sii6731 in
  (* Tie standard deviations of the two gaussians *)
  let tie_std_sii : Tie := fun model =>
    do g <- gaussian model "sii6716";
    do h <- gaussian model "sii6731";
    Some (stddev g * (mean h / mean g)) in
  let g_sii6731 := tie_stddev tie_std_sii g_sii6731 in
  if fit_cont then
    let cont := (Const1D 0 "sii_cont", unconstrained) in
    let g_init := [cont; g_sii6716; g_sii6731] in
    do gfit_1comp <- fitting.LevMarLSQFitter g_init lam_sii flam_sii
                       (map np_sqrt ivar_sii);
    let rchi2_1comp :=
      mfit.calculate_red_chi2 flam_sii (evaluate gfit_1comp lam_sii) ivar_sii 5 in
    Some (gfit_1comp, rchi2_1comp)
  else
    let g_init := [g_sii6716; g_sii6731] in
    do gfit_1comp <- fitting.LevMarLSQFitter g_init lam_sii flam_sii
                       (map np_sqrt ivar_sii);
    let rchi2_1comp :=
      mfit.calculate_red_chi2 flam_sii (evaluate gfit_1comp lam_sii) ivar_sii 4 in
    Some (gfit_1comp, rchi2_1comp).

Definition fit_two_components (lam_sii flam_sii ivar_sii : list Q) (fit_cont : bool)
  : option (CompoundModel * Q) :=
  do amp_sii <- np.max flam_sii;
  let g_sii6716 :=
    gaussian_init (amp_sii / 3) 6718.294 2.9 "sii6716" (lower 0) (lower 0.8) in
  let g_sii6731 :=
    gaussian_init (amp_sii / 3) 6732.673 2.9 "sii6731" (lower 0) (lower 0.8) in
  let g_sii6716_out :=
    gaussian_init (amp_sii / 6) 6718.294 4.0 "sii6716_out" (lower 0) (lower 1.6) in
  let g_sii6731_out :=
    gaussian_init (amp_sii / 6) 6732.673 4.0 "sii6731_out" (lower 0) (lower 1.6) in
  (* Tie means of the main gaussian components *)
  let tie_mean_sii : Tie := fun model =>
    do g <- gaussian model "sii6716"; Some (mean g + 14.379) in
  let g_sii6731 := tie_mean tie_mean_sii g_sii6731 in
  (* Tie standard deviations of the main gaussian components *)
  let tie_std_sii : Tie := fun model =>
    do g <- gaussian model "sii6716";
    do h <- gaussian model "sii6731";
    Some (stddev g * (mean h / mean g)) in
  let g_sii6731 := tie_stddev tie_std_sii g_sii6731 in
  (* Tie means of the outflow components *)
  let tie_mean_sii_out : Tie := fun model =>
    do g <- gaussian model "sii6716_out"; Some (mean g + 14.379) in
  let g_sii6731_out := tie_mean tie_mean_sii_out g_sii6731_out in
  (* Tie standard deviations of the outflow components *)
  let tie_std_sii_out : Tie := fun model =>
    do g <- gaussian model "sii6716_out";
    do h <- gaussian model "sii6731_out";
    Some (stddev g * (mean h / mean g)) in
  let g_sii6731_out := tie_stddev tie_std_sii_out g_sii6731_out in
  (* Tie amplitudes of all the four components *)
  let tie_amp_sii : Tie := fun model =>
    do g <- gaussian model "sii6716";
    do h <- gaussian model "sii6731";
    do o <- gaussian model "sii6716_out";
    Some ((amplitude h / amplitude g) * amplitude o) in
  let g_sii6731_out := tie_amplitude tie_amp_sii g_sii6731_out in
  if fit_cont then
    let cont := (Const1D 0 "sii_cont", unconstrained) in
    let g_init := [cont; g_sii6716; g_sii6731; g_sii6716_out; g_sii6731_out] in
    do gfit_2comp <- fitting.LevMarLSQFitter g_init lam_sii flam_sii
                       (map np_sqrt ivar_sii);
    let rchi2_2comp :=
      mfit.calculate_red_chi2 flam_sii (evaluate gfit_2comp lam_sii) ivar_sii 8 in
    Some (gfit_2comp, rchi2_2comp)
  else
    let g_init := [g_sii6716; g_sii6731; g_sii6716_out; g_sii6731_out] in
    do gfit_2comp <- fitting.LevMarLSQFitter g_init lam_sii flam_sii
                       (map np_sqrt ivar_sii);
    let rchi2_2comp :=
      mfit.calculate_red_chi2 flam_sii (evaluate gfit_2comp lam_sii) ivar_sii 7 in
    Some (gfit_2comp, rchi2_2comp).

End Fits.
End fit_sii_lines.

(** ** fit_lines.fit_oiii_lines *)

Module fit_oiii_lines.
Section Fits.
Context {num : Numerics} {opt : Optimizer}.

Definition in_4959 (x : Q) : bool := Qgeb x 4959 && Qle_bool x 4961.
Definition in_5007 (x : Q) : bool := Qgeb x 5007 && Qle_bool x 5009.

Definition fit_one_component (lam_oiii flam_oiii ivar_oiii : list Q) (fit_cont : bool)
  : option (CompoundModel * Q) :=
  (* Find initial estimates of amplitudes *)
  do amp_oiii4959 <- np.max (np.select in_4959 lam_oiii flam_oiii);
  do amp_oiii5007 <- np.max (np.select in_5007 lam_oiii flam_oiii);
  let g_oiii4959 :=
    gaussian_init amp_oiii4959 4960.295 1.0 "oiii4959" (lower 0) (lower 0.6) in
  let g_oiii5007 :=
    gaussian_init amp_oiii5007 5008.239 1.0 "oiii5007" (lower 0) (lower 0.6) in
  (* Tie Means of the two gaussians *)
  let tie_mean_oiii : Tie := fun model =>
    do g <- gaussian model "oiii4959"; Some (mean g + 47.934) in
  let g_oiii5007 := tie_mean tie_mean_oiii g_oiii5007 in
  (* Tie Amplitudes of the two gaussians *)
  let tie_amp_oiii : Tie := fun model =>
    do g <- gaussian model "oiii4959"; Some (amplitude g * 2.98) in
  let g_oiii5007 := tie_amplitude tie_amp_oiii g_oiii5007 in
  (* Tie standard deviations in velocity space *)
  let tie_std_oiii : Tie := fun model =>
    do g <- gaussian model "oiii4959";
    do h <- gaussian model "oiii5007";
    Some (stddev g * (mean h / mean g)) in
  let g_oiii5007 := tie_stddev tie_std_oiii g_oiii5007 in
  if fit_cont then
    let cont := (Const1D 0 "oiii_cont", unconstrained) in
    let g_init := [cont; g_oiii4959; g_oiii5007] in
    do gfit_1comp <- fitting.LevMarLSQFitter g_init lam_oiii flam_oiii
                       (map np_sqrt ivar_oiii);
    let rchi2_1comp :=
      mfit.calculate_red_chi2 flam_oiii (evaluate gfit_1comp lam_oiii) ivar_oiii 4 in
    Some (gfit_1comp, rchi2_1comp)
  else
    let g_init := [g_oiii4959; g_oiii5007] in
    do gfit_1comp <- fitting.LevMarLSQFitter g_init lam_oiii flam_oiii
                       (map np_sqrt ivar_oiii);
    let rchi2_1comp :=
      mfit.calculate_red_chi2 flam_oiii (evaluate gfit_1comp lam_oiii) ivar_oiii 3 in
    Some (gfit_1comp, rchi2_1comp).

Definition fit_two_components (lam_oiii flam_oiii ivar_oiii : list Q) (fit_cont : bool)
  : option (CompoundModel * Q) :=
  do amp_oiii4959 <- np.max (np.select in_4959 lam_oiii flam_oiii);
  do amp_oiii5007 <- np.max (np.select in_5007 lam_oiii flam_oiii);
  let g_oiii4959 :=
    gaussian_init (amp_oiii4959 / 2) 4960.295 1.0 "oiii4959" (lower 0) (lower 0.6) in
  let g_oiii5007 :=
    gaussian_init (amp_oiii5007 / 2) 5008.239 1.0 "oiii5007" (lower 0) (lower 0.6) in
  let g_oiii4959_out :=
    gaussian_init (amp_oiii4959 / 4) 4960.295 6.0 "oiii4959_out" (lower 0) (lower 1.2) in
  let g_oiii5007_out :=
    gaussian_init (amp_oiii5007 / 4) 5008.239 6.0 "oiii5007_out" (lower 0) (lower 1.2) in
  (* Tie Means of the two gaussians *)
  let tie_mean_oiii : Tie := fun model =>
    do g <- gaussian model "oiii4959"; Some (mean g + 47.934) in
  let g_oiii5007 := tie_mean tie_mean_oiii g_oiii5007 in
  (* Tie Amplitudes of the two gaussians *)
  let tie_amp_oiii : Tie := fun model =>
    do g <- gaussian model "oiii4959"; Some (amplitude g * 2.98) in
  let g_oiii5007 := tie_amplitude tie_amp_oiii g_oiii5007 in
  (* Tie standard deviations in velocity space *)
  let tie_std_oiii : Tie := fun model =>
    do g <- gaussian model "oiii4959";
    do h <- gaussian model "oiii5007";
    Some (stddev g * (mean h / mean g)) in
  let g_oiii5007 := tie_stddev tie_std_oiii g_oiii5007 in
  (* Tie Means of the two gaussian outflow components *)
  let tie_mean_oiii_out : Tie := fun model =>
    do g <- gaussian model "oiii4959_out"; Some (mean g + 47.934) in
  let g_oiii5007_out := tie_mean tie_mean_oiii_out g_oiii5007_out in
  (* Tie Amplitudes of the two gaussian outflow components *)
  let tie_amp_oiii_out : Tie := fun model =>
    do g <- gaussian model "oiii4959_out"; Some (amplitude g * 2.98) in
  let g_oiii5007_out := tie_amplitude tie_amp_oiii_out g_oiii5007_out in
  (* Tie standard deviations of the outflow components in the velocity space *)
  let tie_std_oiii_out : Tie := fun model =>
    do g <- gaussian model "oiii4959_out";
    do h <- gaussian model "oiii5007_out";
    Some (stddev g * (mean h / mean g)) in
  let g_oiii5007_out := tie_stddev tie_std_oiii_out g_oiii5007_out in
  if fit_cont then
    let cont := (Const1D 0 "oiii_cont", unconstrained) in
    let g_init := [cont; g_oiii4959; g_oiii5007; g_oiii4959_out; g_oiii5007_out] in
    do gfit_2comp <- fitting.LevMarLSQFitter g_init lam_oiii flam_oiii
                       (map np_sqrt ivar_oiii);
    let rchi2_2comp :=
      mfit.calculate_red_chi2 flam_oiii (evaluate gfit_2comp lam_oiii) ivar_oiii 7 in
    Some (gfit_2comp, rchi2_2comp)
  else
    let g_init := [g_oiii4959; g_oiii5007; g_oiii4959_out; g_oiii5007_out] in
    do gfit_2comp <- fitting.LevMarLSQFitter g_init lam_oiii flam_oiii
                       (map np_sqrt ivar_oiii);
    let rchi2_2comp :=
      mfit.calculate_red_chi2 flam_oiii (evaluate gfit_2comp lam_oiii) ivar_oiii 6 in
    Some (gfit_2comp, rchi2_2comp).

End Fits.
End fit_oiii_lines.

(** ** Results of the Hbeta and [NII]+Halpha fitting functions *)

(** [(gfit, rchi2, flag_bits, n_dof)]. *)
Record FitResult : Type := mkFit {
  gfit : CompoundModel;
  rchi2 : Q;
  flag_bits : list Z;
  n_dof : Z
}.

(** The two fits every such function makes before it chooses, and the flag
    bits recorded so far. *)
Record Candidates : Type := mkCandidates {
  flags0 : list Z;
  gfit_no_broad : CompoundModel;
  rchi2_no_broad : Q;
  gfit_broad : CompoundModel;
  rchi2_broad : Q
}.

(** [np.sort(flag_bits.astype(int))]. *)
Fixpoint insert_sorted (x : Z) (l : list Z) : list Z :=
  match l with
  | [] => [x]
  | y :: l' => if (x <=? y)%Z then x :: y :: l' else y :: insert_sorted x l'
  end.

Definition np_sort (l : list Z) : list Z := fold_right insert_sorted [] l.

(** [np.append(flag_bits, b)] under a condition. *)
Definition append_if (cond : bool) (flag_bits : list Z) (b : Z) : list Z :=
  if cond then flag_bits ++ [b] else flag_bits.

(** [((rchi2_no_broad - rchi2_broad)/rchi2_no_broad)*100]. *)
Definition del_rchi2_of (c : Candidates) : Q :=
  ((rchi2_no_broad c - rchi2_broad c) / rchi2_no_broad c) * 100.

(** ** fit_lines.fit_hb_line *)

Module fit_hb_line.
Section Fits.
Context {num : Numerics} {opt : Optimizer}.

(** The two fits of [fit_free_one_component]. *)
Definition free_one_fits (lam_hb flam_hb ivar_hb : list Q)
           (sii_bestfit : CompoundModel) (frac_temp : Q) (fit_cont : bool)
  : option Candidates :=
  let flag_bits : list Z := [] in
  (* Template fit *)
  do sii6716 <- gaussian sii_bestfit "sii6716";
  let temp_std := stddev sii6716 in
  let temp_std_kms := mfit.lamspace_to_velspace temp_std (mean sii6716) in
  let min_std_kms := temp_std_kms - ((frac_temp / 100) * temp_std_kms) in
  let max_std_kms := temp_std_kms + ((frac_temp / 100) * temp_std_kms) in
  let min_std := mfit.velspace_to_lamspace min_std_kms 4862.683 in
  let max_std := mfit.velspace_to_lamspace max_std_kms 4862.683 in
  (* Initial estimate of amplitude *)
  do amp_hb <- np.max flam_hb;
  let g_hb_n := gaussian_init amp_hb 4862.683 temp_std "hb_n" (lower 0) (lower 0.5) in
  let g_hb_n := bound_stddev (Some min_std, Some max_std) g_hb_n in
  if fit_cont then
    let cont := (Const1D 0 "hb_cont", unconstrained) in
    let g_hb := [cont; g_hb_n] in
    (* Fit without broad component *)
    let g_init := g_hb in
    do gfit_no_broad <- fitting.LevMarLSQFitter g_init lam_hb flam_hb
                          (map np_sqrt ivar_hb);
    let rchi2_no_broad :=
      mfit.calculate_red_chi2 flam_hb (evaluate gfit_no_broad lam_hb) ivar_hb 4 in
    (* Fit with broad component *)
    let g_hb_b :=
      gaussian_init (amp_hb / 3) 4862.683 3.0 "hb_b" (lower 0) (lower 1.0) in
    let g_init := g_hb ++ [g_hb_b] in
    do gfit_broad <- fitting.LevMarLSQFitter g_init lam_hb flam_hb
                       (map np_sqrt ivar_hb);
    let rchi2_broad :=
      mfit.calculate_red_chi2 flam_hb (evaluate gfit_broad lam_hb) ivar_hb 7 in
    Some (mkCandidates flag_bits gfit_no_broad rchi2_no_broad gfit_broad rchi2_broad)
  else
    let g_hb := [g_hb_n] in
    let g_init := g_hb in
    do gfit_no_broad <- fitting.LevMarLSQFitter g_init lam_hb flam_hb
                          (map np_sqrt ivar_hb);
    let rchi2_no_broad :=
      mfit.calculate_red_chi2 flam_hb (evaluate gfit_no_broad lam_hb) ivar_hb 3 in
    let g_hb_b :=
      gaussian_init (amp_hb / 3) 4862.683 3.0 "hb_b" (lower 0) (lower 1.0) in
    let g_init := g_hb ++ [g_hb_b] in
    do gfit_broad <- fitting.LevMarLSQFitter g_init lam_hb flam_hb
                       (map np_sqrt ivar_hb);
    let rchi2_broad :=
      mfit.calculate_red_chi2 flam_hb (evaluate gfit_broad lam_hb) ivar_hb 6 in
    Some (mkCandidates flag_bits gfit_no_broad rchi2_no_broad gfit_broad rchi2_broad).

Definition fit_free_one_component (lam_hb flam_hb ivar_hb : list Q)
           (sii_bestfit : CompoundModel) (frac_temp : Q) (fit_cont : bool)
  : option FitResult :=
  do c <- free_one_fits lam_hb flam_hb ivar_hb sii_bestfit frac_temp fit_cont;
  let flag_bits := flags0 c in
  (* Select the best-fit based on rchi2 *)
  let del_rchi2 := del_rchi2_of c in
  do sig_hb_n <- sigma_of (gfit_broad c) "hb_n";
  do sig_hb_b <- sigma_of (gfit_broad c) "hb_b";
  (* Set flags *)
  let flag_bits := flag_bits ++ [0%Z] in
  let flag_bits := append_if (Qgeb del_rchi2 20) flag_bits 4 in
  let flag_bits := append_if (Qltb sig_hb_b sig_hb_n) flag_bits 5 in
  let flag_bits := append_if (Qltb sig_hb_n 40) flag_bits 9 in
  let flag_bits := np_sort flag_bits in
  if Qgeb del_rchi2 20 && Qgtb sig_hb_b sig_hb_n && Qgeb sig_hb_n 40 then
    let n_dof := if fit_cont then 7%Z else 6%Z in
    Some (mkFit (gfit_broad c) (rchi2_broad c) flag_bits n_dof)
  else
    let n_dof := if fit_cont then 4%Z else 3%Z in
    Some (mkFit (gfit_no_broad c) (rchi2_no_broad c) flag_bits n_dof).

(** The two fits of [fit_free_two_components]. *)
Definition free_two_fits (lam_hb flam_hb ivar_hb : list Q)
           (sii_bestfit : CompoundModel) (frac_temp : Q) (fit_cont : bool)
  : option Candidates :=
  let flag_bits : list Z := [] in
  (* Template fit *)
  do sii6716 <- gaussian sii_bestfit "sii6716";
  let temp_std := stddev sii6716 in
  let temp_std_kms := mfit.lamspace_to_velspace temp_std (mean sii6716) in
  let min_std_kms := temp_std_kms - ((frac_temp / 100) * temp_std_kms) in
  let max_std_kms := temp_std_kms + ((frac_temp / 100) * temp_std_kms) in
  let min_std := mfit.velspace_to_lamspace min_std_kms 4862.683 in
  let max_std := mfit.velspace_to_lamspace max_std_kms 4862.683 in
  (* Initial estimate of amplitude *)
  do amp_hb <- np.max flam_hb;
  (* Outflow components *)
  do sii6716_out <- gaussian sii_bestfit "sii6716_out";
  let temp_out_std := stddev sii6716_out in
  let temp_out_std_kms :=
    mfit.lamspace_to_velspace temp_out_std (mean sii6716_out) in
  let min_out_kms := temp_out_std_kms - ((frac_temp / 100) * temp_out_std_kms) in
  let max_out_kms := temp_out_std_kms + ((frac_temp / 100) * temp_out_std_kms) in
  let min_out := mfit.velspace_to_lamspace min_out_kms 4862.683 in
  let max_out := mfit.velspace_to_lamspace max_out_kms 4862.683 in
  let g_hb_n :=
    gaussian_init (amp_hb / 2) 4862.683 temp_std "hb_n" (lower 0) (lower 0.5) in
  let g_hb_out :=
    gaussian_init (amp_hb / 4) 4862.683 temp_out_std "hb_out" (lower 0) (lower 0.5) in
  let g_hb_n := bound_stddev (Some min_std, Some max_std) g_hb_n in
  let g_hb_out := bound_stddev (Some min_out, Some max_out) g_hb_out in
  if fit_cont then
    let cont := (Const1D 0 "hb_cont", unconstrained) in
    let g_hb := [cont; g_hb_n; g_hb_out] in
    let g_init := g_hb in
    do gfit_no_broad <- fitting.LevMarLSQFitter g_init lam_hb flam_hb
                          (map np_sqrt ivar_hb);
    let rchi2_no_broad :=
      mfit.calculate_red_chi2 flam_hb (evaluate gfit_no_broad lam_hb) ivar_hb 7 in
    let g_hb_b :=
      gaussian_init (amp_hb / 3) 4862.683 3.0 "hb_b" (lower 0) (lower 1.0) in
    let g_init := g_hb ++ [g_hb_b] in
    do gfit_broad <- fitting.LevMarLSQFitter g_init lam_hb flam_hb
                       (map np_sqrt ivar_hb);
    let rchi2_broad :=
      mfit.calculate_red_chi2 flam_hb (evaluate gfit_broad lam_hb) ivar_hb 10 in
    Some (mkCandidates flag_bits gfit_no_broad rchi2_no_broad gfit_broad rchi2_broad)
  else
    let g_hb := [g_hb_n; g_hb_out] in
    let g_init := g_hb in
    do gfit_no_broad <- fitting.LevMarLSQFitter g_init lam_hb flam_hb
                          (map np_sqrt ivar_hb);
    let rchi2_no_broad :=
      mfit.calculate_red_chi2 flam_hb (evaluate gfit_no_broad lam_hb) ivar_hb 6 in
    let g_hb_b :=
      gaussian_init (amp_hb / 3) 4862.683 3.0 "hb_b" (lower 0) (lower 1.0) in
    let g_init := g_hb ++ [g_hb_b] in
    do gfit_broad <- fitting.LevMarLSQFitter g_init lam_hb flam_hb
                       (map np_sqrt ivar_hb);
    let rchi2_broad :=
      mfit.calculate_red_chi2 flam_hb (evaluate gfit_broad lam_hb) ivar_hb 9 in
    Some (mkCandidates flag_bits gfit_no_broad rchi2_no_broad gfit_broad rchi2_broad).

(** "If broad-sigma < outflow-sigma -- exchange the gaussians": the with-broad
    model is rebuilt from three new Gaussians and flag 6 is appended. *)
Definition exchange (c : Candidates) : option Candidates :=
  do sigma_hb_b <- sigma_of (gfit_broad c) "hb_b";
  do sigma_hb_out <- sigma_of (gfit_broad c) "hb_out";
  if Qltb sigma_hb_b sigma_hb_out then
    let flag_bits := flags0 c ++ [6%Z] in
    do n <- gaussian (gfit_broad c) "hb_n";
    do b <- gaussian (gfit_broad c) "hb_b";
    do o <- gaussian (gfit_broad c) "hb_out";
    let g_hb_n := Gaussian1D (amplitude n) (mean n) (stddev n) "hb_n" in
    let g_hb_out := Gaussian1D (amplitude b) (mean b) (stddev b) "hb_out" in
    let g_hb_b := Gaussian1D (amplitude o) (mean o) (stddev o) "hb_b" in
    let gfit_broad := [g_hb_n; g_hb_out; g_hb_b] in
    Some (mkCandidates flag_bits (gfit_no_broad c) (rchi2_no_broad c)
                       gfit_broad (rchi2_broad c))
  else Some c.

Definition fit_free_two_components (lam_hb flam_hb ivar_hb : list Q)
           (sii_bestfit : CompoundModel) (frac_temp : Q) (fit_cont : bool)
  : option FitResult :=
  do c <- free_two_fits lam_hb flam_hb ivar_hb sii_bestfit frac_temp fit_cont;
  (* If broad-sigma < outflow-sigma -- exchange the gaussians. *)
  do c <- exchange c;
  let flag_bits := flags0 c in
  let del_rchi2 := del_rchi2_of c in
  (* Further conditions -- sigma_broad > sigma_narrow *)
  do sig_hb_n <- sigma_of (gfit_broad c) "hb_n";
  do sig_hb_b <- sigma_of (gfit_broad c) "hb_b";
  (* Set flags *)
  let flag_bits := flag_bits ++ [2%Z] in
  let flag_bits := append_if (Qgeb del_rchi2 20) flag_bits 4 in
  let flag_bits := append_if (Qltb sig_hb_b sig_hb_n) flag_bits 5 in
  let flag_bits := append_if (Qltb sig_hb_n 40) flag_bits 9 in
  let flag_bits := np_sort flag_bits in
  if Qgeb del_rchi2 20 && Qgtb sig_hb_b sig_hb_n && Qgeb sig_hb_n 40 then
    let n_dof := if fit_cont then 10%Z else 9%Z in
    Some (mkFit (gfit_broad c) (rchi2_broad c) flag_bits n_dof)
  else
    let n_dof := if fit_cont then 7%Z else 6%Z in
    Some (mkFit (gfit_no_broad c) (rchi2_no_broad c) flag_bits n_dof).

(** The two fits of [fit_fixed_one_component]. *)
Definition fixed_one_fits (lam_hb flam_hb ivar_hb : list Q)
           (sii_bestfit : CompoundModel) (fit_cont : bool)
  : option Candidates :=
  let flag_bits : list Z := [] in
  (* Initial estimate of amplitude *)
  do amp_hb <- np.max flam_hb;
  (* Initial estimate of standard deviation *)
  do sii6716 <- gaussian sii_bestfit "sii6716";
  let std_hb := (4862.683 / mean sii6716) * stddev sii6716 in
  let g_hb_n := gaussian_init amp_hb 4862.683 std_hb "hb_n" (lower 0) (lower 0.5) in
  (* Fix sigma of Hb narrow to [SII] *)
  let tie_std_hb : Tie := fun model =>
    if (n_submodels model =? 1)%Z then
      do g <- match model with [s] => as_gauss s | _ => None end;
      do t <- gaussian sii_bestfit "sii6716";
      Some ((mean g / mean t) * stddev t)
    else
      do g <- gaussian model "hb_n";
      do t <- gaussian sii_bestfit "sii6716";
      Some ((mean g / mean t) * stddev t) in
  let g_hb_n := tie_stddev tie_std_hb g_hb_n in
  let g_hb_n := fix_stddev g_hb_n in
  if fit_cont then
    let cont := (Const1D 0 "hb_cont", unconstrained) in
    let g_hb := [cont; g_hb_n] in
    let g_init := g_hb in
    do gfit_no_broad <- fitting.LevMarLSQFitter g_init lam_hb flam_hb
                          (map np_sqrt ivar_hb);
    let rchi2_no_broad :=
      mfit.calculate_red_chi2 flam_hb (evaluate gfit_no_broad lam_hb) ivar_hb 3 in
    let g_hb_b :=
      gaussian_init (amp_hb / 4) 4862.683 4.0 "hb_b" (lower 0) (lower 1.0) in
    let g_init := g_hb ++ [g_hb_b] in
    do gfit_broad <- fitting.LevMarLSQFitter g_init lam_hb flam_hb
                       (map np_sqrt ivar_hb);
    let rchi2_broad :=
      mfit.calculate_red_chi2 flam_hb (evaluate gfit_broad lam_hb) ivar_hb 6 in
    Some (mkCandidates flag_bits gfit_no_broad rchi2_no_broad gfit_broad rchi2_broad)
  else
    let g_hb := [g_hb_n] in
    let g_init := g_hb in
    do gfit_no_broad <- fitting.LevMarLSQFitter g_init lam_hb flam_hb
                          (map np_sqrt ivar_hb);
    let rchi2_no_broad :=
      mfit.calculate_red_chi2 flam_hb (evaluate gfit_no_broad lam_hb) ivar_hb 2 in
    let g_hb_b :=
      gaussian_init (amp_hb / 4) 4862.683 4.0 "hb_b" (lower 0) (lower 1.0) in
    let g_init := g_hb ++ [g_hb_b] in
    do gfit_broad <- fitting.LevMarLSQFitter g_init lam_hb flam_hb
                       (map np_sqrt ivar_hb);
    let rchi2_broad :=
      mfit.calculate_red_chi2 flam_hb (evaluate gfit_broad lam_hb) ivar_hb 5 in
    Some (mkCandidates flag_bits gfit_no_broad rchi2_no_broad gfit_broad rchi2_broad).

Definition fit_fixed_one_component (lam_hb flam_hb ivar_hb : list Q)
           (sii_bestfit : CompoundModel) (fit_cont : bool)
  : option FitResult :=
  do c <- fixed_one_fits lam_hb flam_hb ivar_hb sii_bestfit fit_cont;
  let flag_bits := flags0 c in
  let del_rchi2 := del_rchi2_of c in
  (* Further conditions -- sigma_broad > sigma_narrow *)
  do sig_hb_n <- sigma_of (gfit_broad c) "hb_n";
  do sig_hb_b <- sigma_of (gfit_broad c) "hb_b";
  (* Set flags *)
  let flag_bits := flag_bits ++ [1%Z] in
  let flag_bits := append_if (Qgeb del_rchi2 20) flag_bits 4 in
  let flag_bits := append_if (Qltb sig_hb_b sig_hb_n) flag_bits 5 in
  let flag_bits := append_if (Qltb sig_hb_n 40) flag_bits 9 in
  let flag_bits := np_sort flag_bits in
  if Qgeb del_rchi2 20 && Qgtb sig_hb_b sig_hb_n then
    let n_dof := if fit_cont then 6%Z else 5%Z in
    Some (mkFit (gfit_broad c) (rchi2_broad c) flag_bits n_dof)
  else
    let n_dof := if fit_cont then 3%Z else 2%Z in
    Some (mkFit (gfit_no_broad c) (rchi2_no_broad c) flag_bits n_dof).

(** The two fits of [fit_fixed_two_components]. *)
Definition fixed_two_fits (lam_hb flam_hb ivar_hb : list Q)
           (sii_bestfit : CompoundModel) (fit_cont : bool)
  : option Candidates :=
  let flag_bits : list Z := [] in
  (* Initial estimate of amplitude *)
  do amp_hb <- np.max flam_hb;
  (* Initial estimate of standard deviation *)
  do sii6716 <- gaussian sii_bestfit "sii6716";
  let std_hb := (4862.683 / mean sii6716) * stddev sii6716 in
  do sii6716_out <- gaussian sii_bestfit "sii6716_out";
  let std_hb_out := (4862.683 / mean sii6716_out) * stddev sii6716_out in
  let g_hb_n := gaussian_init amp_hb 4862.683 std_hb "hb_n" (lower 0) (lower 0.5) in
  let g_hb_out :=
    gaussian_init (amp_hb / 3) 4862.683 std_hb_out "hb_out" (lower 0) (lower 0.5) in
  (* Fix sigma of narrow Hb to narrow [SII] *)
  let tie_std_hb : Tie := fun model =>
    do g <- gaussian model "hb_n";
    do t <- gaussian sii_bestfit "sii6716";
    Some ((mean g / mean t) * stddev t) in
  let g_hb_n := tie_stddev tie_std_hb g_hb_n in
  let g_hb_n := fix_stddev g_hb_n in
  (* Fix sigma of outflow Hb to outflow [SII] *)
  let tie_std_hb_out : Tie := fun model =>
    do g <- gaussian model "hb_out";
    do t <- gaussian sii_bestfit "sii6716_out";
    Some ((mean g / mean t) * stddev t) in
  let g_hb_out := tie_stddev tie_std_hb_out g_hb_out in
  let g_hb_out := fix_stddev g_hb_out in
  if fit_cont then
    let cont := (Const1D 0 "hb_cont", unconstrained) in
    let g_hb := [cont; g_hb_n; g_hb_out] in
    let g_init := g_hb in
    do gfit_no_broad <- fitting.LevMarLSQFitter g_init lam_hb flam_hb
                          (map np_sqrt ivar_hb);
    let rchi2_no_broad :=
      mfit.calculate_red_chi2 flam_hb (evaluate gfit_no_broad lam_hb) ivar_hb 5 in
    let g_hb_b :=
      gaussian_init (amp_hb / 4) 4862.683 4.0 "hb_b" (lower 0) (lower 1.0) in
    let g_init := g_hb ++ [g_hb_b] in
    do gfit_broad <- fitting.LevMarLSQFitter g_init lam_hb flam_hb
                       (map np_sqrt ivar_hb);
    let rchi2_broad :=
      mfit.calculate_red_chi2 flam_hb (evaluate gfit_broad lam_hb) ivar_hb 8 in
    Some (mkCandidates flag_bits gfit_no_broad rchi2_no_broad gfit_broad rchi2_broad)
  else
    let g_hb := [g_hb_n; g_hb_out] in
    let g_init := g_hb in
    do gfit_no_broad <- fitting.LevMarLSQFitter g_init lam_hb flam_hb
                          (map np_sqrt ivar_hb);
    let rchi2_no_broad :=
      mfit.calculate_red_chi2 flam_hb (evaluate gfit_no_broad lam_hb) ivar_hb 4 in
    let g_hb_b :=
      gaussian_init (amp_hb / 4) 4862.683 4.0 "hb_b" (lower 0) (lower 1.0) in
    let g_init := g_hb ++ [g_hb_b] in
    do gfit_broad <- fitting.LevMarLSQFitter g_init lam_hb flam_hb
                       (map np_sqrt ivar_hb);
    let rchi2_broad :=
      mfit.calculate_red_chi2 flam_hb (evaluate gfit_broad lam_hb) ivar_hb 7 in
    Some (mkCandidates flag_bits gfit_no_broad rchi2_no_broad gfit_broad rchi2_broad).

Definition fit_fixed_two_components (lam_hb flam_hb ivar_hb : list Q)
           (sii_bestfit : CompoundModel) (fit_cont : bool)
  : option FitResult :=
  do c <- fixed_two_fits lam_hb flam_hb ivar_hb sii_bestfit fit_cont;
  let flag_bits := flags0 c in
  let del_rchi2 := del_rchi2_of c in
  (* Further conditions -- sigma_broad > sigma_narrow *)
  do sig_hb_n <- sigma_of (gfit_broad c) "hb_n";
  do sig_hb_b <- sigma_of (gfit_broad c) "hb_b";
  (* Set flags *)
  let flag_bits := flag_bits ++ [3%Z] in
  let flag_bits := append_if (Qgeb del_rchi2 20) flag_bits 4 in
  let flag_bits := append_if (Qltb sig_hb_b sig_hb_n) flag_bits 5 in
  let flag_bits := append_if (Qltb sig_hb_n 40) flag_bits 9 in
  let flag_bits := np_sort flag_bits in
  if Qgeb del_rchi2 20 && Qgtb sig_hb_b sig_hb_n then
    let n_dof := if fit_cont then 8%Z else 7%Z in
    Some (mkFit (gfit_broad c) (rchi2_broad c) flag_bits n_dof)
  else
    let n_dof := if fit_cont then 5%Z else 4%Z in
    Some (mkFit (gfit_no_broad c) (rchi2_no_broad c) flag_bits n_dof).

End Fits.
End fit_hb_line.

(** ** fit_lines.fit_nii_ha_lines *)

Module fit_nii_ha_lines.
Section Fits.
Context {num : Numerics} {opt : Optimizer}.

Definition in_nii6548 (x : Q) : bool := Qgtb x 6548 && Qltb x 6550.
Definition in_nii6583 (x : Q) : bool := Qgtb x 6583 && Qltb x 6586.
Definition in_ha (x : Q) : bool := Qgtb x 6550 && Qltb x 6575.

(** The tie closures of the [NII] doublet; the four functions below define
    the same ones. *)

(* def tie_mean_nii(model): return (model['nii6548'].mean + 35.425) *)
Definition tie_mean_nii : Tie := fun model =>
  do g <- gaussian model "nii6548"; Some (mean g + 35.425).

(* def tie_amp_nii(model): return (model['nii6548'].amplitude*2.96) *)
Definition tie_amp_nii : Tie := fun model =>
  do g <- gaussian model "nii6548"; Some (amplitude g * 2.96).

Definition tie_mean_nii_out : Tie := fun model =>
  do g <- gaussian model "nii6548_out"; Some (mean g + 35.425).

Definition tie_amp_nii_out : Tie := fun model =>
  do g <- gaussian model "nii6548_out"; Some (amplitude g * 2.96).

(* (model[line].mean/sii_bestfit[template].mean)*sii_bestfit[template].stddev *)
Definition tie_std_to (sii_bestfit : CompoundModel) (line template : string) : Tie :=
  fun model =>
    do g <- gaussian model line;
    do t <- gaussian sii_bestfit template;
    Some ((mean g / mean t) * stddev t).

(** The two fits of [fit_free_ha_one_component]. *)
Definition free_ha_one_fits (lam_nii flam_nii ivar_nii : list Q)
           (sii_bestfit : CompoundModel) (frac_temp : Q) (fit_cont : bool)
  : option Candidates :=
  let flag_bits : list Z := [] in
  (* Initial estimate of amplitudes *)
  do amp_nii6548 <- np.max (np.select in_nii6548 lam_nii flam_nii);
  do amp_nii6583 <- np.max (np.select in_nii6583 lam_nii flam_nii);
  do amp_ha <- np.max (np.select in_ha lam_nii flam_nii);
  (* Initial estimates of standard deviation *)
  do sii6716 <- gaussian sii_bestfit "sii6716";
  let stddev_nii6548 := (6549.852 / mean sii6716) * stddev sii6716 in
  let stddev_nii6583 := (6585.277 / mean sii6716) * stddev sii6716 in
  let g_nii6548 :=
    gaussian_init (amp_nii6548 / 2) 6549.852 stddev_nii6548 "nii6548"
                  (lower 0) no_bounds in
  let g_nii6583 :=
    gaussian_init (amp_nii6583 / 2) 6585.277 stddev_nii6583 "nii6583"
                  (lower 0) no_bounds in
  let g_nii6583 := tie_mean tie_mean_nii g_nii6583 in
  let g_nii6583 := tie_amplitude tie_amp_nii g_nii6583 in
  let g_nii6548 :=
    fix_stddev (tie_stddev (tie_std_to sii_bestfit "nii6548" "sii6716") g_nii6548) in
  let g_nii6583 :=
    fix_stddev (tie_stddev (tie_std_to sii_bestfit "nii6583" "sii6716") g_nii6583) in
  let g_nii := [g_nii6548; g_nii6583] in
  (* Template fit *)
  let temp_std := stddev sii6716 in
  let temp_std_kms := mfit.lamspace_to_velspace temp_std (mean sii6716) in
  let min_std_kms := temp_std_kms - ((frac_temp / 100) * temp_std_kms) in
  let max_std_kms := temp_std_kms + ((frac_temp / 100) * temp_std_kms) in
  let min_std_ha := mfit.velspace_to_lamspace min_std_kms 6564.312 in
  let max_std_ha := mfit.velspace_to_lamspace max_std_kms 6564.312 in
  let g_ha_n :=
    gaussian_init (amp_ha / 2) 6564.312 temp_std "ha_n" (lower 0) (lower 0.85) in
  (* Set narrow Ha within 60% of the template fit *)
  let g_ha_n := bound_stddev (Some min_std_ha, Some max_std_ha) g_ha_n in
  let g_ha := [g_ha_n] in
  if fit_cont then
    let cont := (Const1D 0 "nii_ha_cont", unconstrained) in
    let g_init := [cont] ++ g_nii ++ g_ha in
    do gfit_no_broad <- fitting.LevMarLSQFitter g_init lam_nii flam_nii
                          (map np_sqrt ivar_nii);
    let rchi2_no_broad :=
      mfit.calculate_red_chi2 flam_nii (evaluate gfit_no_broad lam_nii) ivar_nii 6 in
    let g_ha_b :=
      gaussian_init (amp_ha / 5) 6564.312 6.0 "ha_b" (lower 0) (lower 1.5) in
    let g_init := [cont] ++ g_nii ++ g_ha ++ [g_ha_b] in
    do gfit_broad <- fitting.LevMarLSQFitter g_init lam_nii flam_nii
                       (map np_sqrt ivar_nii);
    let rchi2_broad :=
      mfit.calculate_red_chi2 flam_nii (evaluate gfit_broad lam_nii) ivar_nii 9 in
    Some (mkCandidates flag_bits gfit_no_broad rchi2_no_broad gfit_broad rchi2_broad)
  else
    let g_init := g_nii ++ g_ha in
    do gfit_no_broad <- fitting.LevMarLSQFitter g_init lam_nii flam_nii
                          (map np_sqrt ivar_nii);
    let rchi2_no_broad :=
      mfit.calculate_red_chi2 flam_nii (evaluate gfit_no_broad lam_nii) ivar_nii 5 in
    let g_ha_b :=
      gaussian_init (amp_ha / 5) 6564.312 6.0 "ha_b" (lower 0) (lower 1.5) in
    let g_init := g_nii ++ g_ha ++ [g_ha_b] in
    do gfit_broad <- fitting.LevMarLSQFitter g_init lam_nii flam_nii
                       (map np_sqrt ivar_nii);
    let rchi2_broad :=
      mfit.calculate_red_chi2 flam_nii (evaluate gfit_broad lam_nii) ivar_nii 8 in
    Some (mkCandidates flag_bits gfit_no_broad rchi2_no_broad gfit_broad rchi2_broad).

Definition fit_free_ha_one_component (lam_nii flam_nii ivar_nii : list Q)
           (sii_bestfit : CompoundModel) (frac_temp : Q) (fit_cont : bool)
  : option FitResult :=
  do c <- free_ha_one_fits lam_nii flam_nii ivar_nii sii_bestfit frac_temp fit_cont;
  let flag_bits := flags0 c in
  let del_rchi2 := del_rchi2_of c in
  (* Also sigma (broad Ha) > sigma (narrow Ha) *)
  do sig_ha_b <- sigma_of (gfit_broad c) "ha_b";
  do sig_ha_n <- sigma_of (gfit_broad c) "ha_n";
  let fwhm_ha_b := 2.355 * sig_ha_b in
  (* Set flags *)
  let flag_bits := flag_bits ++ [0%Z] in
  let flag_bits := append_if (Qgeb del_rchi2 20) flag_bits 4 in
  let flag_bits := append_if (Qltb sig_ha_b sig_ha_n) flag_bits 5 in
  let flag_bits := append_if (Qltb sig_ha_n 40) flag_bits 10 in
  let flag_bits := np_sort flag_bits in
  if Qgeb del_rchi2 20 && Qgtb sig_ha_b sig_ha_n && Qgeb sig_ha_n 40
     && Qgeb fwhm_ha_b 300 then
    let n_dof := if fit_cont then 9%Z else 8%Z in
    Some (mkFit (gfit_broad c) (rchi2_broad c) flag_bits n_dof)
  else
    let n_dof := if fit_cont then 6%Z else 5%Z in
    Some (mkFit (gfit_no_broad c) (rchi2_no_broad c) flag_bits n_dof).

(** The two fits of [fit_free_ha_two_components]. *)
Definition free_ha_two_fits (lam_nii flam_nii ivar_nii : list Q)
           (sii_bestfit : CompoundModel) (frac_temp : Q) (fit_cont : bool)
  : option Candidates :=
  let flag_bits : list Z := [] in
  (* Initial estimate of amplitudes *)
  do amp_nii6548 <- np.max (np.select in_nii6548 lam_nii flam_nii);
  do amp_nii6583 <- np.max (np.select in_nii6583 lam_nii flam_nii);
  do amp_ha <- np.max (np.select in_ha lam_nii flam_nii);
  (* Initial estimates of standard deviation *)
  do sii6716 <- gaussian sii_bestfit "sii6716";
  let stddev_nii6548 := (6549.852 / mean sii6716) * stddev sii6716 in
  let stddev_nii6583 := (6585.277 / mean sii6716) * stddev sii6716 in
  do sii6716_out <- gaussian sii_bestfit "sii6716_out";
  let stddev_nii6548_out := (6549.852 / mean sii6716_out) * stddev sii6716_out in
  let stddev_nii6583_out := (6585.277 / mean sii6716_out) * stddev sii6716_out in
  let g_nii6548 :=
    gaussian_init (amp_nii6548 / 2) 6549.852 stddev_nii6548 "nii6548"
                  (lower 0) no_bounds in
  let g_nii6583 :=
    gaussian_init (amp_nii6583 / 2) 6585.277 stddev_nii6583 "nii6583"
                  (lower 0) no_bounds in
  let g_nii6548_out :=
    gaussian_init (amp_nii6548 / 4) 6549.852 stddev_nii6548_out "nii6548_out"
                  (lower 0) no_bounds in
  let g_nii6583_out :=
    gaussian_init (amp_nii6583 / 4) 6585.277 stddev_nii6583_out "nii6583_out"
                  (lower 0) no_bounds in
  let g_nii6583 := tie_mean tie_mean_nii g_nii6583 in
  let g_nii6583 := tie_amplitude tie_amp_nii g_nii6583 in
  let g_nii6548 :=
    fix_stddev (tie_stddev (tie_std_to sii_bestfit "nii6548" "sii6716") g_nii6548) in
  let g_nii6583 :=
    fix_stddev (tie_stddev (tie_std_to sii_bestfit "nii6583" "sii6716") g_nii6583) in
  let g_nii6583_out := tie_mean tie_mean_nii_out g_nii6583_out in
  let g_nii6583_out := tie_amplitude tie_amp_nii_out g_nii6583_out in
  let g_nii6548_out :=
    fix_stddev (tie_stddev (tie_std_to sii_bestfit "nii6548_out" "sii6716_out")
                           g_nii6548_out) in
  let g_nii6583_out :=
    fix_stddev (tie_stddev (tie_std_to sii_bestfit "nii6583_out" "sii6716_out")
                           g_nii6583_out) in
  let g_nii := [g_nii6548; g_nii6583; g_nii6548_out; g_nii6583_out] in
  (* Template fit *)
  let temp_std := stddev sii6716 in
  let temp_std_kms := mfit.lamspace_to_velspace temp_std (mean sii6716) in
  let min_std_kms := temp_std_kms - ((frac_temp / 100) * temp_std_kms) in
  let max_std_kms := temp_std_kms + ((frac_temp / 100) * temp_std_kms) in
  let min_std_ha := mfit.velspace_to_lamspace min_std_kms 6564.312 in
  let max_std_ha := mfit.velspace_to_lamspace max_std_kms 6564.312 in
  let g_ha_n :=
    gaussian_init (amp_ha / 2) 6564.312 temp_std "ha_n" (lower 0) (lower 0.85) in
  let g_ha_n := bound_stddev (Some min_std_ha, Some max_std_ha) g_ha_n in
  (* Outflow components *)
  let temp_out_std := stddev sii6716_out in
  let temp_out_std_kms :=
    mfit.lamspace_to_velspace temp_out_std (mean sii6716_out) in
  let min_out_kms := temp_out_std_kms - ((frac_temp / 100) * temp_out_std_kms) in
  let max_out_kms := temp_out_std_kms + ((frac_temp / 100) * temp_out_std_kms) in
  let min_out := mfit.velspace_to_lamspace min_out_kms 6564.312 in
  let max_out := mfit.velspace_to_lamspace max_out_kms 6564.312 in
  let g_ha_out :=
    gaussian_init (amp_ha / 3) 6564.312 temp_out_std "ha_out" (lower 0) (lower 0.85) in
  let g_ha_out := bound_stddev (Some min_out, Some max_out) g_ha_out in
  let g_ha := [g_ha_n; g_ha_out] in
  if fit_cont then
    let cont := (Const1D 0 "nii_ha_cont", unconstrained) in
    let g_init := [cont] ++ g_nii ++ g_ha in
    do gfit_no_broad <- fitting.LevMarLSQFitter g_init lam_nii flam_nii
                          (map np_sqrt ivar_nii);
    let rchi2_no_broad :=
      mfit.calculate_red_chi2 flam_nii (evaluate gfit_no_broad lam_nii) ivar_nii 11 in
    let g_ha_b :=
      gaussian_init (amp_ha / 3) 6564.312 4.0 "ha_b" (lower 0) (lower 1.5) in
    let g_init := [cont] ++ g_nii ++ g_ha ++ [g_ha_b] in
    do gfit_broad <- fitting.LevMarLSQFitter g_init lam_nii flam_nii
                       (map np_sqrt ivar_nii);
    let rchi2_broad :=
      mfit.calculate_red_chi2 flam_nii (evaluate gfit_broad lam_nii) ivar_nii 14 in
    Some (mkCandidates flag_bits gfit_no_broad rchi2_no_broad gfit_broad rchi2_broad)
  else
    let g_init := g_nii ++ g_ha in
    do gfit_no_broad <- fitting.LevMarLSQFitter g_init lam_nii flam_nii
                          (map np_sqrt ivar_nii);
    let rchi2_no_broad :=
      mfit.calculate_red_chi2 flam_nii (evaluate gfit_no_broad lam_nii) ivar_nii 10 in
    let g_ha_b :=
      gaussian_init (amp_ha / 3) 6564.312 4.0 "ha_b" (lower 0) (lower 1.5) in
    let g_init := g_nii ++ g_ha ++ [g_ha_b] in
    do gfit_broad <- fitting.LevMarLSQFitter g_init lam_nii flam_nii
                       (map np_sqrt ivar_nii);
    let rchi2_broad :=
      mfit.calculate_red_chi2 flam_nii (evaluate gfit_broad lam_nii) ivar_nii 13 in
    Some (mkCandidates flag_bits gfit_no_broad rchi2_no_broad gfit_broad rchi2_broad).

(** "If broad-sigma < outflow-sigma -- exchange the gaussians": the with-broad
    model is rebuilt from three new Gaussians and flag 6 is appended. *)
Definition exchange (c : Candidates) : option Candidates :=
  do sigma_ha_b <- sigma_of (gfit_broad c) "ha_b";
  do sigma_ha_out <- sigma_of (gfit_broad c) "ha_out";
  if Qltb sigma_ha_b sigma_ha_out then
    let flag_bits := flags0 c ++ [6%Z] in
    do n <- gaussian (gfit_broad c) "ha_n";
    do b <- gaussian (gfit_broad c) "ha_b";
    do o <- gaussian (gfit_broad c) "ha_out";
    let g_ha_n := Gaussian1D (amplitude n) (mean n) (stddev n) "ha_n" in
    let g_ha_out := Gaussian1D (amplitude b) (mean b) (stddev b) "ha_out" in
    let g_ha_b := Gaussian1D (amplitude o) (mean o) (stddev o) "ha_b" in
    let gfit_broad := [g_ha_n; g_ha_out; g_ha_b] in
    Some (mkCandidates flag_bits (gfit_no_broad c) (rchi2_no_broad c)
                       gfit_broad (rchi2_broad c))
  else Some c.

Definition fit_free_ha_two_components (lam_nii flam_nii ivar_nii : list Q)
           (sii_bestfit : CompoundModel) (frac_temp : Q) (fit_cont : bool)
  : option FitResult :=
  do c <- free_ha_two_fits lam_nii flam_nii ivar_nii sii_bestfit frac_temp fit_cont;
  (* If broad-sigma < outflow-sigma -- exchange the gaussians *)
  do c <- exchange c;
  let flag_bits := flags0 c in
  let del_rchi2 := del_rchi2_of c in
  (* Also sigma (broad Ha) > sigma (narrow Ha) *)
  do sig_ha_b <- sigma_of (gfit_broad c) "ha_b";
  do sig_ha_n <- sigma_of (gfit_broad c) "ha_n";
  let fwhm_ha_b := 2.355 * sig_ha_b in
  (* Set flags *)
  let flag_bits := flag_bits ++ [2%Z] in
  let flag_bits := append_if (Qgeb del_rchi2 20) flag_bits 4 in
  let flag_bits := append_if (Qltb sig_ha_b sig_ha_n) flag_bits 5 in
  let flag_bits := append_if (Qltb sig_ha_n 40) flag_bits 10 in
  let flag_bits := np_sort flag_bits in
  if Qgeb del_rchi2 20 && Qgtb sig_ha_b sig_ha_n && Qgeb sig_ha_n 40
     && Qgeb fwhm_ha_b 300 then
    let n_dof := if fit_cont then 14%Z else 13%Z in
    Some (mkFit (gfit_broad c) (rchi2_broad c) flag_bits n_dof)
  else
    let n_dof := if fit_cont then 11%Z else 10%Z in
    Some (mkFit (gfit_no_broad c) (rchi2_no_broad c) flag_bits n_dof).

(** The two fits of [fit_fixed_one_component]. *)
Definition fixed_one_fits (lam_nii flam_nii ivar_nii : list Q)
           (sii_bestfit : CompoundModel) (fit_cont : bool)
  : option Candidates :=
  let flag_bits : list Z := [] in
  (* Initial estimate of amplitudes *)
  do amp_nii6548 <- np.max (np.select in_nii6548 lam_nii flam_nii);
  do amp_nii6583 <- np.max (np.select in_nii6583 lam_nii flam_nii);
  do amp_ha <- np.max (np.select in_ha lam_nii flam_nii);
  (* Initial estimates of standard deviation *)
  do sii6716 <- gaussian sii_bestfit "sii6716";
  let stddev_nii6548 := (6549.852 / mean sii6716) * stddev sii6716 in
  let stddev_nii6583 := (6585.277 / mean sii6716) * stddev sii6716 in
  let g_nii6548 :=
    gaussian_init amp_nii6548 6549.852 stddev_nii6548 "nii6548" (lower 0) no_bounds in
  let g_nii6583 :=
    gaussian_init amp_nii6583 6585.277 stddev_nii6583 "nii6583" (lower 0) no_bounds in
  let g_nii6583 := tie_mean tie_mean_nii g_nii6583 in
  let g_nii6583 := tie_amplitude tie_amp_nii g_nii6583 in
  let g_nii6548 :=
    fix_stddev (tie_stddev (tie_std_to sii_bestfit "nii6548" "sii6716") g_nii6548) in
  let g_nii6583 :=
    fix_stddev (tie_stddev (tie_std_to sii_bestfit "nii6583" "sii6716") g_nii6583) in
  let g_nii := [g_nii6548; g_nii6583] in
  (* Model narrow Ha as narrow [SII] *)
  let stddev_ha := (6564.312 / mean sii6716) * stddev sii6716 in
  let g_ha_n :=
    gaussian_init (amp_ha / 2) 6564.312 stddev_ha "ha_n" (lower 0) (lower 0.85) in
  (* Tie standard deviation of Ha *)
  let g_ha_n :=
    fix_stddev (tie_stddev (tie_std_to sii_bestfit "ha_n" "sii6716") g_ha_n) in
  let g_ha := [g_ha_n] in
  if fit_cont then
    let cont := (Const1D 0 "nii_ha_cont", unconstrained) in
    let g_init := [cont] ++ g_nii ++ g_ha in
    do gfit_no_broad <- fitting.LevMarLSQFitter g_init lam_nii flam_nii
                          (map np_sqrt ivar_nii);
    let rchi2_no_broad :=
      mfit.calculate_red_chi2 flam_nii (evaluate gfit_no_broad lam_nii) ivar_nii 5 in
    let g_ha_b :=
      gaussian_init (amp_ha / 5) 6564.312 6.0 "ha_b" (lower 0) (lower 1.5) in
    let g_init := [cont] ++ g_nii ++ g_ha ++ [g_ha_b] in
    do gfit_broad <- fitting.LevMarLSQFitter g_init lam_nii flam_nii
                       (map np_sqrt ivar_nii);
    let rchi2_broad :=
      mfit.calculate_red_chi2 flam_nii (evaluate gfit_broad lam_nii) ivar_nii 8 in
    Some (mkCandidates flag_bits gfit_no_broad rchi2_no_broad gfit_broad rchi2_broad)
  else
    let g_init := g_nii ++ g_ha in
    do gfit_no_broad <- fitting.LevMarLSQFitter g_init lam_nii flam_nii
                          (map np_sqrt ivar_nii);
    let rchi2_no_broad :=
      mfit.calculate_red_chi2 flam_nii (evaluate gfit_no_broad lam_nii) ivar_nii 4 in
    let g_ha_b :=
      gaussian_init (amp_ha / 5) 6564.312 6.0 "ha_b" (lower 0) (lower 1.5) in
    let g_init := g_nii ++ g_ha ++ [g_ha_b] in
    do gfit_broad <- fitting.LevMarLSQFitter g_init lam_nii flam_nii
                       (map np_sqrt ivar_nii);
    let rchi2_broad :=
      mfit.calculate_red_chi2 flam_nii (evaluate gfit_broad lam_nii) ivar_nii 7 in
    Some (mkCandidates flag_bits gfit_no_broad rchi2_no_broad gfit_broad rchi2_broad).

Definition fit_fixed_one_component (lam_nii flam_nii ivar_nii : list Q)
           (sii_bestfit : CompoundModel) (fit_cont : bool)
  : option FitResult :=
  do c <- fixed_one_fits lam_nii flam_nii ivar_nii sii_bestfit fit_cont;
  let flag_bits := flags0 c in
  let del_rchi2 := del_rchi2_of c in
  (* Also sigma (broad Ha) > sigma (narrow Ha) *)
  do sig_ha_b <- sigma_of (gfit_broad c) "ha_b";
  do sig_ha_n <- sigma_of (gfit_broad c) "ha_n";
  let fwhm_ha_b := 2.355 * sig_ha_b in
  (* Set flags *)
  let flag_bits := flag_bits ++ [1%Z] in
  let flag_bits := append_if (Qgeb del_rchi2 20) flag_bits 4 in
  let flag_bits := append_if (Qltb sig_ha_b sig_ha_n) flag_bits 5 in
  let flag_bits := append_if (Qltb sig_ha_n 40) flag_bits 10 in
  let flag_bits := np_sort flag_bits in
  if Qgeb del_rchi2 20 && Qgtb sig_ha_b sig_ha_n && Qgeb fwhm_ha_b 300 then
    let n_dof := if fit_cont then 8%Z else 7%Z in
    Some (mkFit (gfit_broad c) (rchi2_broad c) flag_bits n_dof)
  else
    let n_dof := if fit_cont then 5%Z else 4%Z in
    Some (mkFit (gfit_no_broad c) (rchi2_no_broad c) flag_bits n_dof).

(** The two fits of [fit_fixed_two_components]. *)
Definition fixed_two_fits (lam_nii flam_nii ivar_nii : list Q)
           (sii_bestfit : CompoundModel) (fit_cont : bool)
  : option Candidates :=
  let flag_bits : list Z := [] in
  (* Initial estimate of amplitudes *)
  do amp_nii6548 <- np.max (np.select in_nii6548 lam_nii flam_nii);
  do amp_nii6583 <- np.max (np.select in_nii6583 lam_nii flam_nii);
  do amp_ha <- np.max (np.select in_ha lam_nii flam_nii);
  (* Initial estimates of standard deviation *)
  do sii6716 <- gaussian sii_bestfit "sii6716";
  let stddev_nii6548 := (6549.852 / mean sii6716) * stddev sii6716 in
  let stddev_nii6583 := (6585.277 / mean sii6716) * stddev sii6716 in
  do sii6716_out <- gaussian sii_bestfit "sii6716_out";
  let stddev_nii6548_out := (6549.852 / mean sii6716_out) * stddev sii6716_out in
  let stddev_nii6583_out := (6585.277 / mean sii6716_out) * stddev sii6716_out in
  let g_nii6548 :=
    gaussian_init (amp_nii6548 / 2) 6549.852 stddev_nii6548 "nii6548"
                  (lower 0) no_bounds in
  let g_nii6583 :=
    gaussian_init (amp_nii6583 / 2) 6585.277 stddev_nii6583 "nii6583"
                  (lower 0) no_bounds in
  let g_nii6548_out :=
    gaussian_init (amp_nii6548 / 4) 6549.852 stddev_nii6548_out "nii6548_out"
                  (lower 0) no_bounds in
  let g_nii6583_out :=
    gaussian_init (amp_nii6583 / 4) 6585.277 stddev_nii6583_out "nii6583_out"
                  (lower 0) no_bounds in
  let g_nii6583 := tie_mean tie_mean_nii g_nii6583 in
  let g_nii6583 := tie_amplitude tie_amp_nii g_nii6583 in
  let g_nii6548 :=
    fix_stddev (tie_stddev (tie_std_to sii_bestfit "nii6548" "sii6716") g_nii6548) in
  let g_nii6583 :=
    fix_stddev (tie_stddev (tie_std_to sii_bestfit "nii6583" "sii6716") g_nii6583) in
  let g_nii6583_out := tie_mean tie_mean_nii_out g_nii6583_out in
  let g_nii6583_out := tie_amplitude tie_amp_nii_out g_nii6583_out in
  let g_nii6548_out :=
    fix_stddev (tie_stddev (tie_std_to sii_bestfit "nii6548_out" "sii6716_out")
                           g_nii6548_out) in
  let g_nii6583_out :=
    fix_stddev (tie_stddev (tie_std_to sii_bestfit "nii6583_out" "sii6716_out")
                           g_nii6583_out) in
  let g_nii := [g_nii6548; g_nii6583; g_nii6548_out; g_nii6583_out] in
  (* Model narrow Ha as narrow [SII], outflow Ha as outflow [SII] *)
  let stddev_ha := (6564.312 / mean sii6716) * stddev sii6716 in
  let stddev_ha_out := (6564.312 / mean sii6716_out) * stddev sii6716_out in
  let g_ha_n :=
    gaussian_init (amp_ha / 2) 6564.312 stddev_ha "ha_n" (lower 0) (lower 0.85) in
  let g_ha_out :=
    gaussian_init (amp_ha / 3) 6564.312 stddev_ha_out "ha_out" (lower 0) (lower 0.85) in
  let g_ha_n :=
    fix_stddev (tie_stddev (tie_std_to sii_bestfit "ha_n" "sii6716") g_ha_n) in
  let g_ha_out :=
    fix_stddev (tie_stddev (tie_std_to sii_bestfit "ha_out" "sii6716_out") g_ha_out) in
  let g_ha := [g_ha_n; g_ha_out] in
  if fit_cont then
    let cont := (Const1D 0 "nii_ha_cont", unconstrained) in
    let g_init := [cont] ++ g_nii ++ g_ha in
    do gfit_no_broad <- fitting.LevMarLSQFitter g_init lam_nii flam_nii
                          (map np_sqrt ivar_nii);
    let rchi2_no_broad :=
      mfit.calculate_red_chi2 flam_nii (evaluate gfit_no_broad lam_nii) ivar_nii 9 in
    let g_ha_b :=
      gaussian_init (amp_ha / 3) 6564.312 4.0 "ha_b" (lower 0) (lower 1.5) in
    let g_init := [cont] ++ g_nii ++ g_ha ++ [g_ha_b] in
    do gfit_broad <- fitting.LevMarLSQFitter g_init lam_nii flam_nii
                       (map np_sqrt ivar_nii);
    let rchi2_broad :=
      mfit.calculate_red_chi2 flam_nii (evaluate gfit_broad lam_nii) ivar_nii 12 in
    Some (mkCandidates flag_bits gfit_no_broad rchi2_no_broad gfit_broad rchi2_broad)
  else
    let g_init := g_nii ++ g_ha in
    do gfit_no_broad <- fitting.LevMarLSQFitter g_init lam_nii flam_nii
                          (map np_sqrt ivar_nii);
    let rchi2_no_broad :=
      mfit.calculate_red_chi2 flam_nii (evaluate gfit_no_broad lam_nii) ivar_nii 8 in
    let g_ha_b :=
      gaussian_init (amp_ha / 3) 6564.312 4.0 "ha_b" (lower 0) (lower 1.5) in
    let g_init := g_nii ++ g_ha ++ [g_ha_b] in
    do gfit_broad <- fitting.LevMarLSQFitter g_init lam_nii flam_nii
                       (map np_sqrt ivar_nii);
    let rchi2_broad :=
      mfit.calculate_red_chi2 flam_nii (evaluate gfit_broad lam_nii) ivar_nii 11 in
    Some (mkCandidates flag_bits gfit_no_broad rchi2_no_broad gfit_broad rchi2_broad).

Definition fit_fixed_two_components (lam_nii flam_nii ivar_nii : list Q)
           (sii_bestfit : CompoundModel) (fit_cont : bool)
  : option FitResult :=
  do c <- fixed_two_fits lam_nii flam_nii ivar_nii sii_bestfit fit_cont;
  let flag_bits := flags0 c in
  let del_rchi2 := del_rchi2_of c in
  (* Also sigma (broad Ha) > sigma (narrow Ha) *)
  do sig_ha_b <- sigma_of (gfit_broad c) "ha_b";
  do sig_ha_n <- sigma_of (gfit_broad c) "ha_n";
  let fwhm_ha_b := 2.355 * sig_ha_b in
  (* Set flags *)
  let flag_bits := flag_bits ++ [3%Z] in
  let flag_bits := append_if (Qgeb del_rchi2 20) flag_bits 4 in
  let flag_bits := append_if (Qltb sig_ha_b sig_ha_n) flag_bits 5 in
  let flag_bits := append_if (Qltb sig_ha_n 40) flag_bits 10 in
  let flag_bits := np_sort flag_bits in
  if Qgeb del_rchi2 20 && Qgtb sig_ha_b sig_ha_n && Qgeb fwhm_ha_b 300 then
    let n_dof := if fit_cont then 12%Z else 11%Z in
    Some (mkFit (gfit_broad c) (rchi2_broad c) flag_bits n_dof)
  else
    let n_dof := if fit_cont then 9%Z else 8%Z in
    Some (mkFit (gfit_no_broad c) (rchi2_no_broad c) flag_bits n_dof).

End Fits.
End fit_nii_ha_lines.

(** ** Python dictionaries and astropy tables *)

(** A dictionary with string keys keeps insertion order; [d[k] = v] replaces
    the value of an existing key in place and appends a new key. *)
Module dict.

Definition t (V : Type) : Type := list (string * V).

Fixpoint setitem {V : Type} (d : t V) (k : string) (v : V) : t V :=
  match d with
  | [] => [(k, v)]
  | (k', v') :: d' =>
      if String.eqb k' k then (k, v) :: d' else (k', v') :: setitem d' k v
  end.

(** [d[k]]: [KeyError] when the key is absent. *)
Fixpoint getitem {V : Type} (d : t V) (k : string) : option V :=
  match d with
  | [] => None
  | (k', v') :: d' => if String.eqb k' k then Some v' else getitem d' k
  end.

(** [a | b]. *)
Definition union {V : Type} (a b : t V) : t V :=
  fold_left (fun acc kv => setitem acc (fst kv) (snd kv)) b a.

Definition keys {V : Type} (d : t V) : list string := map fst d.

End dict.

(** [f'{model}_suffix']. *)
Definition fstr (model suffix : string) : string := String.append model suffix.

(** A one-row table is the dictionary it is built from; [vstack] of such
    tables is the list of their rows. *)
Definition Row : Type := dict.t Q.
Definition Table : Type := list Row.

(** [table[name].data]: the column, [KeyError] when a row lacks it. *)
Fixpoint column (table : Table) (name : string) : option (list Q) :=
  match table with
  | [] => Some []
  | r :: table' =>
      do v <- dict.getitem r name;
      do vs <- column table' name;
      Some (v :: vs)
  end.

(** ** NaN-aware statistics of numpy *)

Inductive npfloat : Type :=
| Finite (q : Q)
| NaN.

Module nan.
Section Stats.
Context {num : Numerics}.

(** [np.where(~cond, np.nan, arr)]. *)
Definition where_not (cond : list bool) (arr : list Q) : list npfloat :=
  map (fun cx : bool * Q => if fst cx then Finite (snd cx) else NaN)
      (combine cond arr).

(** The entries that are not NaN. *)
Fixpoint finite_values (a : list npfloat) : list Q :=
  match a with
  | [] => []
  | Finite q :: a' => q :: finite_values a'
  | NaN :: a' => finite_values a'
  end.

Definition mean_of (l : list Q) : Q := np.sum l / inject_Z (Z.of_nat (List.length l)).

(** [np.nanmean]: NaN when every entry is NaN. *)
Definition nanmean (a : list npfloat) : npfloat :=
  match finite_values a with
  | [] => NaN
  | l => Finite (mean_of l)
  end.

(** [np.nanstd]: the square root of the mean squared deviation from the mean
    of the entries that are not NaN. *)
Definition nanstd (a : list npfloat) : npfloat :=
  match finite_values a with
  | [] => NaN
  | l =>
      let m := mean_of l in
      Finite (np_sqrt (mean_of (map (fun x => Qabs (x - m) * Qabs (x - m)) l)))
  end.

Definition map1 (f : Q -> Q) (x : npfloat) : npfloat :=
  match x with
  | Finite q => Finite (f q)
  | NaN => NaN
  end.

(** [a**2] and [np.sqrt(x)]. *)
Definition square (a : list npfloat) : list npfloat := map (map1 (fun q => q * q)) a.
Definition sqrt (x : npfloat) : npfloat := map1 np_sqrt x.

(** A function of two and of four floats is NaN as soon as an argument is. *)
Definition lift2 (f : Q -> Q -> Q * Q) (a b : npfloat) : npfloat * npfloat :=
  match a, b with
  | Finite x, Finite y => (Finite (fst (f x y)), Finite (snd (f x y)))
  | _, _ => (NaN, NaN)
  end.

Definition lift4 (f : Q -> Q -> Q -> Q -> Q * Q) (a b c d : npfloat)
  : npfloat * npfloat :=
  match a, b, c, d with
  | Finite x, Finite y, Finite z, Finite w =>
      (Finite (fst (f x y z w)), Finite (snd (f x y z w)))
  | _, _, _, _ => (NaN, NaN)
  end.

End Stats.
End nan.

(** ** emline_params *)

Module emp.
Section Params.
Context {num : Numerics}.

(** [model in names] when [names] is the name of a single model: substring
    containment of Python strings. *)
Definition str_contains (names model : string) : bool :=
  match String.index 0 model names with
  | Some _ => true
  | None => false
  end.

(** The body of the loop of [get_parameters] for one expected name. *)
Definition get_parameters_step (gfit : CompoundModel) (params : Row)
           (model : string) : option Row :=
  let n := n_submodels gfit in
  do present <-
    (if (n >? 1)%Z then Some (existsb (String.eqb model) (submodel_names gfit))
     else match gfit with
          | [s] => Some (str_contains (name_of s) model)
          | _ => None
          end);
  if present then
    do g <- (if (n =? 1)%Z then
               match gfit with [s] => as_gauss s | _ => None end
             else gaussian gfit model);
    let amp := amplitude g in
    let mean := mean g in
    let std := stddev g in
    let sig := mfit.lamspace_to_velspace std mean in
    let flux := mfit.compute_emline_flux amp std in
    let params := dict.setitem params (fstr model "_amplitude") amp in
    let params := dict.setitem params (fstr model "_mean") mean in
    let params := dict.setitem params (fstr model "_std") std in
    let params := dict.setitem params (fstr model "_sigma") sig in
    let params := dict.setitem params (fstr model "_flux") flux in
    Some params
  else
    let params := dict.setitem params (fstr model "_amplitude") 0 in
    let params := dict.setitem params (fstr model "_mean") 0 in
    let params := dict.setitem params (fstr model "_std") 0 in
    let params := dict.setitem params (fstr model "_sigma") 0 in
    let params := dict.setitem params (fstr model "_flux") 0 in
    Some params.

(** [get_parameters(gfit, models)]. *)
Definition get_parameters (gfit : CompoundModel) (models : list string)
  : option Row :=
  fold_left (fun acc model => do params <- acc; get_parameters_step gfit params model)
            models (Some []).

(** The fourteen values [get_bestfit_parameters] computes for one component. *)
Record BestFit : Type := mkBestFit {
  bf_amp : npfloat; bf_amp_err : npfloat;
  bf_mean : npfloat; bf_mean_err : npfloat;
  bf_std : npfloat; bf_std_err : npfloat;
  bf_sigma : npfloat; bf_sigma_err : npfloat;
  bf_flux : npfloat; bf_flux_err : npfloat;
  bf_flux_fits : npfloat; bf_flux_err_fits : npfloat;
  bf_sigma_fits : npfloat; bf_sigma_err_fits : npfloat
}.

Definition zero : npfloat := Finite 0.

(** [allzero = amp_zero|mean_zero|std_zero]. *)
Definition allzero (amplitude_arr mean_arr std_arr : list Q) : bool :=
  let amp_zero := np.all_isclose0 amplitude_arr in
  let mean_zero := np.all_isclose0 mean_arr in
  let std_zero := np.all_isclose0 std_arr in
  amp_zero || mean_zero || std_zero.

(** [cond = (amplitude_arr > 0)&(mean_arr > 0)&(std_arr > 0)]. *)
Definition positive (amplitude_arr mean_arr std_arr : list Q) : list bool :=
  map (fun ams : Q * Q * Q =>
         Qgtb (fst (fst ams)) 0 && Qgtb (snd (fst ams)) 0 && Qgtb (snd ams) 0)
      (combine (combine amplitude_arr mean_arr) std_arr).

(** The statistics of one component from its five columns: the body of the
    loop of [get_bestfit_parameters] up to the assignments to [params]. *)
Definition bestfit_of_columns (amplitude_arr mean_arr std_arr flux_arr sigma_arr : list Q)
  : BestFit :=
  if allzero amplitude_arr mean_arr std_arr then
    mkBestFit zero zero zero zero zero zero zero zero zero zero zero zero zero zero
  else
    let cond := positive amplitude_arr mean_arr std_arr in
    let amp := nan.nanmean (nan.where_not cond amplitude_arr) in
    let amp_err := nan.nanstd (nan.where_not cond amplitude_arr) in
    let mean := nan.nanmean (nan.where_not cond mean_arr) in
    let mean_err := nan.nanstd (nan.where_not cond mean_arr) in
    let var := nan.square (nan.where_not cond std_arr) in
    let std := nan.sqrt (nan.nanmean var) in
    let std_err := nan.sqrt (nan.nanstd var) in
    let '(flux, flux_err) :=
      nan.lift4 mfit.compute_emline_flux_err amp std amp_err std_err in
    let '(sigma, sigma_err) :=
      nan.lift4 mfit.lamspace_to_velspace_err std mean std_err mean_err in
    let flux_fits := nan.nanmean (nan.where_not cond flux_arr) in
    let flux_err_fits := nan.nanstd (nan.where_not cond flux_arr) in
    let sigma_fits := nan.nanmean (nan.where_not cond sigma_arr) in
    let sigma_err_fits := nan.nanstd (nan.where_not cond sigma_arr) in
    mkBestFit amp amp_err mean mean_err std std_err sigma sigma_err
              flux flux_err flux_fits flux_err_fits sigma_fits sigma_err_fits.

(** The continuum of a complex: zero when every iteration is close to zero,
    else mean and scatter over the iterations that are not. *)
Definition continuum_of_column (cont_col : list Q) : npfloat * npfloat :=
  if np.all_isclose0 cont_col then (zero, zero)
  else
    let masked := nan.where_not (map (fun x => negb (np.isclose0 x)) cont_col) cont_col in
    (nan.nanmean masked, nan.nanstd masked).

(** The body of the loop of [get_bestfit_parameters] for one model. *)
Definition get_bestfit_parameters_step (table : Table) (emline : string)
           (params : dict.t npfloat) (model : string) : option (dict.t npfloat) :=
  do amplitude_arr <- column table (fstr model "_amplitude");
  do mean_arr <- column table (fstr model "_mean");
  do std_arr <- column table (fstr model "_std");
  do flux_arr <- column table (fstr model "_flux");
  do sigma_arr <- column table (fstr model "_sigma");
  let b := bestfit_of_columns amplitude_arr mean_arr std_arr flux_arr sigma_arr in
  let params := dict.setitem params (fstr model "_amplitude") (bf_amp b) in
  let params := dict.setitem params (fstr model "_amplitude_err") (bf_amp_err b) in
  let params := dict.setitem params (fstr model "_mean") (bf_mean b) in
  let params := dict.setitem params (fstr model "_mean_err") (bf_mean_err b) in
  let params := dict.setitem params (fstr model "_std") (bf_std b) in
  let params := dict.setitem params (fstr model "_std_err") (bf_std_err b) in
  let params := dict.setitem params (fstr model "_sigma") (bf_sigma b) in
  let params := dict.setitem params (fstr model "_sigma_err") (bf_sigma_err b) in
  let params := dict.setitem params (fstr model "_flux") (bf_flux b) in
  let params := dict.setitem params (fstr model "_flux_err") (bf_flux_err b) in
  let params := dict.setitem params (fstr model "_flux_fits") (bf_flux_fits b) in
  let params := dict.setitem params (fstr model "_flux_err_fits") (bf_flux_err_fits b) in
  let params := dict.setitem params (fstr model "_sigma_fits") (bf_sigma_fits b) in
  let params := dict.setitem params (fstr model "_sigma_err_fits") (bf_sigma_err_fits b) in
  (* Continuum computation *)
  do cont_col <- column table (fstr emline "_continuum");
  let '(cont, cont_err) := continuum_of_column cont_col in
  let params := dict.setitem params (fstr emline "_continuum") cont in
  let params := dict.setitem params (fstr emline "_continuum_err") cont_err in
  Some params.

(** [get_bestfit_parameters(table, models, emline)]. *)
Definition get_bestfit_parameters (table : Table) (models : list string)
           (emline : string) : option (dict.t npfloat) :=
  fold_left (fun acc model =>
               do params <- acc; get_bestfit_parameters_step table emline params model)
            models (Some []).

End Params.
End emp.

(** ** Collaborators that are not among the sources *)

(** [spec_utils]: the rest-frame spectrum of a target (wavelength, flux,
    inverse variance, resolution matrix) and the fitting window of a line
    complex. *)
Record Target : Type := mkTarget {
  specprod : string; survey : string; program : string;
  healpix : Z; targetid : Z; z : Q
}.

Class SpecUtils : Type := {
  get_emline_spectra : Target -> list Q * list Q * list Q * list (list Q);
  get_fit_window : list Q -> list Q -> list Q -> string -> list Q * list Q * list Q
}.

(** [find_bestfit]: the selectors of the four complexes, each returning
    [(gfit, rchi2, flag_bits, n_dof)]. *)
Class FindBestfit : Type := {
  find_sii_best_fit : list Q -> list Q -> list Q -> bool -> option FitResult;
  find_oiii_best_fit : list Q -> list Q -> list Q -> bool -> option FitResult;
  find_hb_best_fit :
    list Q -> list Q -> list Q -> CompoundModel -> bool -> option FitResult;
  find_nii_ha_best_fit :
    list Q -> list Q -> list Q -> CompoundModel -> bool -> option FitResult
}.

(** [random]: the generator state and one standard normal draw. *)
Class Random : Type := {
  rng : Type;
  normalvariate : rng -> Q * rng
}.

(** ** emline_fitting *)

Module emfit.
Section Fitting.
Context {num : Numerics} {opt : Optimizer} {su : SpecUtils} {fb : FindBestfit}
        {rnd : Random}.

Definition hb_models : list string := ["hb_n"; "hb_out"; "hb_b"].
Definition oiii_models : list string :=
  ["oiii4959"; "oiii4959_out"; "oiii5007"; "oiii5007_out"].
Definition nii_ha_models : list string :=
  ["nii6548"; "nii6548_out"; "nii6583"; "nii6583_out"; "ha_n"; "ha_out"; "ha_b"].
Definition sii_models : list string :=
  ["sii6716"; "sii6716_out"; "sii6731"; "sii6731_out"].

(** The [SII] branch of [fit_spectra_iteration]: the fit, its reduced
    chi-square and [sii_dof].  With [n_sii] outside 2..5 no branch binds
    [gfit_sii] and its first use raises. *)
Definition sii_fit (lam_sii flam_sii ivar_sii : list Q) (n_sii : option Z)
           (fit_cont : bool) : option (CompoundModel * Q * Z) :=
  match n_sii with
  | Some n =>
      if (n =? 2)%Z || (n =? 3)%Z then
        do '(gfit_sii, rchi2_sii) <-
          fit_sii_lines.fit_one_component lam_sii flam_sii ivar_sii fit_cont;
        let sii_dof := if fit_cont then 5%Z else 4%Z in
        Some (gfit_sii, rchi2_sii, sii_dof)
      else if (n =? 4)%Z || (n =? 5)%Z then
        do '(gfit_sii, rchi2_sii) <-
          fit_sii_lines.fit_two_components lam_sii flam_sii ivar_sii fit_cont;
        let sii_dof := if fit_cont then 8%Z else 7%Z in
        Some (gfit_sii, rchi2_sii, sii_dof)
      else None
  | None =>
      do r <- find_sii_best_fit lam_sii flam_sii ivar_sii fit_cont;
      Some (gfit r, rchi2 r, n_dof r)
  end.

(** The [OIII] branch of [fit_spectra_iteration]. *)
Definition oiii_fit (lam_oiii flam_oiii ivar_oiii : list Q) (n_oiii : option Z)
           (fit_cont : bool) : option (CompoundModel * Q * Z) :=
  match n_oiii with
  | Some n =>
      if (n =? 2)%Z || (n =? 3)%Z then
        do '(gfit_oiii, rchi2_oiii) <-
          fit_oiii_lines.fit_one_component lam_oiii flam_oiii ivar_oiii fit_cont;
        let oiii_dof := if fit_cont then 4%Z else 3%Z in
        Some (gfit_oiii, rchi2_oiii, oiii_dof)
      else if (n =? 4)%Z || (n =? 5)%Z then
        do '(gfit_oiii, rchi2_oiii) <-
          fit_oiii_lines.fit_two_components lam_oiii flam_oiii ivar_oiii fit_cont;
        let oiii_dof := if fit_cont then 7%Z else 6%Z in
        Some (gfit_oiii, rchi2_oiii, oiii_dof)
      else None
  | None =>
      do r <- find_oiii_best_fit lam_oiii flam_oiii ivar_oiii fit_cont;
      Some (gfit r, rchi2 r, n_dof r)
  end.

(** [fit_spectra_iteration(lam, flam, ivar, n_sii, n_oiii, fit_cont)]:
    [(fits, rchi2s, t_params)]. *)
Definition fit_spectra_iteration (lam flam ivar : list Q) (n_sii n_oiii : option Z)
           (fit_cont : bool) : option (list CompoundModel * list Q * Row) :=
  (* Fitting windows for the different emission-lines. *)
  let '(lam_hb, flam_hb, ivar_hb) := get_fit_window lam flam ivar "hb" in
  let '(lam_oiii, flam_oiii, ivar_oiii) := get_fit_window lam flam ivar "oiii" in
  let '(lam_nii_ha, flam_nii_ha, ivar_nii_ha) :=
    get_fit_window lam flam ivar "nii_ha" in
  let '(lam_sii, flam_sii, ivar_sii) := get_fit_window lam flam ivar "sii" in
  (* [SII] fit *)
  do '(gfit_sii, rchi2_sii, sii_dof) <-
    sii_fit lam_sii flam_sii ivar_sii n_sii fit_cont;
  (* [OIII] fit *)
  do '(gfit_oiii, rchi2_oiii, oiii_dof) <-
    oiii_fit lam_oiii flam_oiii ivar_oiii n_oiii fit_cont;
  (* Hb fit *)
  do hb <- find_hb_best_fit lam_hb flam_hb ivar_hb gfit_sii fit_cont;
  let gfit_hb := gfit hb in
  let rchi2_hb := rchi2 hb in
  let hb_dof := n_dof hb in
  (* [NII] + Ha fit *)
  do nii_ha <- find_nii_ha_best_fit lam_nii_ha flam_nii_ha ivar_nii_ha gfit_sii fit_cont;
  let gfit_nii_ha := gfit nii_ha in
  let rchi2_nii_ha := rchi2 nii_ha in
  let nii_ha_dof := n_dof nii_ha in
  let rchi2s := [rchi2_hb; rchi2_oiii; rchi2_nii_ha; rchi2_sii] in
  (* Parameters from the fit *)
  do hb_params <- emp.get_parameters gfit_hb hb_models;
  do oiii_params <- emp.get_parameters gfit_oiii oiii_models;
  do nii_ha_params <- emp.get_parameters gfit_nii_ha nii_ha_models;
  do sii_params <- emp.get_parameters gfit_sii sii_models;
  let '(gfit_hb, gfit_oiii, gfit_nii_ha, gfit_sii) :=
    if negb fit_cont then
      let hb_cont := Const1D 0 "hb_cont" in
      let oiii_cont := Const1D 0 "oiii_cont" in
      let nii_ha_cont := Const1D 0 "nii_ha_cont" in
      let sii_cont := Const1D 0 "sii_cont" in
      (hb_cont :: gfit_hb, oiii_cont :: gfit_oiii,
       nii_ha_cont :: gfit_nii_ha, sii_cont :: gfit_sii)
    else (gfit_hb, gfit_oiii, gfit_nii_ha, gfit_sii) in
  do hb_cont <- getitem gfit_hb "hb_cont";
  let hb_params := dict.setitem hb_params "hb_continuum" (amplitude_of hb_cont) in
  do oiii_cont <- getitem gfit_oiii "oiii_cont";
  let oiii_params :=
    dict.setitem oiii_params "oiii_continuum" (amplitude_of oiii_cont) in
  do nii_ha_cont <- getitem gfit_nii_ha "nii_ha_cont";
  let nii_ha_params :=
    dict.setitem nii_ha_params "nii_ha_continuum" (amplitude_of nii_ha_cont) in
  do sii_cont <- getitem gfit_sii "sii_cont";
  let sii_params := dict.setitem sii_params "sii_continuum" (amplitude_of sii_cont) in
  let hb_params := dict.setitem hb_params "hb_dof" (inject_Z hb_dof) in
  let oiii_params := dict.setitem oiii_params "oiii_dof" (inject_Z oiii_dof) in
  let nii_ha_params := dict.setitem nii_ha_params "nii_ha_dof" (inject_Z nii_ha_dof) in
  let sii_params := dict.setitem sii_params "sii_dof" (inject_Z sii_dof) in
  let fits := [gfit_hb; gfit_oiii; gfit_nii_ha; gfit_sii] in
  let params :=
    dict.union (dict.union (dict.union hb_params oiii_params) nii_ha_params)
               sii_params in
  (* Convert dictionary to table *)
  let t_params := params in
  Some (fits, rchi2s, t_params).

(** [1/np.sqrt(ivar)] with the entries that are not finite set to zero. *)
Definition error_spectrum (ivar_rest : list Q) : list Q :=
  map (fun iv => if Qle_bool iv 0 then 0 else 1 / np_sqrt iv) ivar_rest.

(** [random.gauss(0, err_rest)]: one normal draw scales the whole array. *)
Definition gauss (mu : Q) (sigma : list Q) (s : rng) : list Q * rng :=
  let '(zdraw, s') := normalvariate s in
  (map (fun e => mu + zdraw * e) sigma, s').

(** [res_matrix.dot(v)]. *)
Definition dot (res_matrix : list (list Q)) (v : list Q) : list Q :=
  map (fun row => np.sum (map (fun rv : Q * Q => fst rv * snd rv) (combine row v)))
      res_matrix.

(** [a + b] on arrays. *)
Definition add (a b : list Q) : list Q :=
  map (fun ab : Q * Q => fst ab + snd ab) (combine a b).

(** The loop [for kk in range(n)] of [fit_emline_spectra]: every pass draws a
    noise spectrum, refits with the architectures of the original fit and
    appends the table of the pass. *)
Fixpoint iterations (n : nat) (lam_rest flam_rest ivar_rest err_rest : list Q)
         (res_matrix : list (list Q)) (n_sii n_oiii : Z) (fit_cont : bool)
         (s : rng) (tables : list Row) : option (list Row * rng) :=
  match n with
  | O => Some (tables, s)
  | S n' =>
      let '(noise_spec, s') := gauss 0 err_rest s in
      let to_add_spec := dot res_matrix noise_spec in
      let flam_new := add flam_rest to_add_spec in
      do '(fits, rchi2s, t_params) <-
        fit_spectra_iteration lam_rest flam_new ivar_rest (Some n_sii) (Some n_oiii)
                              fit_cont;
      iterations n' lam_rest flam_rest ivar_rest err_rest res_matrix n_sii n_oiii
                 fit_cont s' (tables ++ [t_params])
  end.

(** [len(t_fits[t_fits[name] > 0])*100/len(t_fits)]. *)
Definition percent_positive (t_fits : Table) (name : string) : option Q :=
  do col <- column t_fits name;
  if (List.length t_fits =? 0)%nat then None
  else
    Some (inject_Z (Z.of_nat (List.length (filter (fun x => Qgtb x 0) col))) * 100
          / inject_Z (Z.of_nat (List.length t_fits))).

(** The output of the Monte-Carlo part of [fit_emline_spectra]. *)
Record MonteCarlo : Type := mkMonteCarlo {
  t_fits : Table;
  percent_hb_b : Q;
  percent_ha_b : Q
}.

(** [fit_emline_spectra], from the retrieval of the spectrum to the dictionary
    [per] of the two percentages: the original fit, the resampled fits and
    their stacked table.  (The aggregation of [t_fits] that follows in the
    source uses [emp.get_bestfit_parameters] per complex and leaves [per]
    untouched.) *)
Definition fit_emline_spectra (tgt : Target) (fit_cont : bool) (s : rng)
  : option MonteCarlo :=
  (* Rest-frame emission-line spectra *)
  let '(lam_rest, flam_rest, ivar_rest, res_matrix) := get_emline_spectra tgt in
  do '(fits_orig, rchi2_orig, t_params) <-
    fit_spectra_iteration lam_rest flam_rest ivar_rest None None fit_cont;
  (* Error spectra *)
  let err_rest := error_spectrum ivar_rest in
  (* List of tables of different iterations *)
  let tables : list Row := [] in
  do gfit_sii <- nth_error fits_orig 3;
  let n_sii := n_submodels gfit_sii in
  do gfit_oiii <- nth_error fits_orig 1;
  let n_oiii := n_submodels gfit_oiii in
  do '(tables, _) <-
    iterations 100 lam_rest flam_rest ivar_rest err_rest res_matrix n_sii n_oiii
               fit_cont s tables;
  let t_fits := tables in
  (* Percent of iterations with broad Hb detected *)
  do per_hb <- percent_positive t_fits "hb_b_flux";
  (* Percent of iterations with broad Ha detected *)
  do per_ha <- percent_positive t_fits "ha_b_flux";
  Some (mkMonteCarlo t_fits per_hb per_ha).

End Fitting.
End emfit.

(** ** find_bestfit *)

(** The two fitting strategies of the narrow width of Hbeta and Halpha. *)
Inductive Width : Type := Free | Fixed.

Module find_bestfit.
Section Selectors.
Context {num : Numerics} {opt : Optimizer}.

(** Modelled from the spec: [find_bestfit.find_sii_best_fit] is not among the
    sources.  It fits the one- and the two-component model and accepts the
    two-component model only if the reduced chi-square improves by at least
    20%, the outflow width exceeds the narrow width and the narrow width is
    not below the floor; otherwise it falls back to one component. *)
Definition find_sii_best_fit (lam_sii flam_sii ivar_sii : list Q) (fit_cont : bool)
  : option FitResult :=
  do '(gfit_1comp, rchi2_1comp) <-
    fit_sii_lines.fit_one_component lam_sii flam_sii ivar_sii fit_cont;
  do '(gfit_2comp, rchi2_2comp) <-
    fit_sii_lines.fit_two_components lam_sii flam_sii ivar_sii fit_cont;
  let del_rchi2 := ((rchi2_1comp - rchi2_2comp) / rchi2_1comp) * 100 in
  do sig_sii <- sigma_of gfit_2comp "sii6716";
  do sig_sii_out <- sigma_of gfit_2comp "sii6716_out";
  if Qgeb del_rchi2 20 && Qgtb sig_sii_out sig_sii && Qgeb sig_sii 40 then
    Some (mkFit gfit_2comp rchi2_2comp [] (if fit_cont then 8%Z else 7%Z))
  else
    Some (mkFit gfit_1comp rchi2_1comp [] (if fit_cont then 5%Z else 4%Z)).

(** Modelled from the spec: [find_bestfit.find_oiii_best_fit], "independently,
    same improvement-threshold logic". *)
Definition find_oiii_best_fit (lam_oiii flam_oiii ivar_oiii : list Q) (fit_cont : bool)
  : option FitResult :=
  do '(gfit_1comp, rchi2_1comp) <-
    fit_oiii_lines.fit_one_component lam_oiii flam_oiii ivar_oiii fit_cont;
  do '(gfit_2comp, rchi2_2comp) <-
    fit_oiii_lines.fit_two_components lam_oiii flam_oiii ivar_oiii fit_cont;
  let del_rchi2 := ((rchi2_1comp - rchi2_2comp) / rchi2_1comp) * 100 in
  do sig_oiii <- sigma_of gfit_2comp "oiii5007";
  do sig_oiii_out <- sigma_of gfit_2comp "oiii5007_out";
  if Qgeb del_rchi2 20 && Qgtb sig_oiii_out sig_oiii && Qgeb sig_oiii 40 then
    Some (mkFit gfit_2comp rchi2_2comp [] (if fit_cont then 7%Z else 6%Z))
  else
    Some (mkFit gfit_1comp rchi2_1comp [] (if fit_cont then 4%Z else 3%Z)).

(** [SII] was fitted with one component: [n_submodels] is 2, or 3 with the
    continuum. *)
Definition one_component_sii (sii_bestfit : CompoundModel) : bool :=
  (n_submodels sii_bestfit =? 2)%Z || (n_submodels sii_bestfit =? 3)%Z.

(** Modelled from the spec: [find_bestfit.find_hb_best_fit] "dispatches to the
    free-width or fixed-width variant and to one- or two-outflow-component
    variant based on the chosen [SII] family"; the width strategy is the
    caller's, the default [frac_temp] is 60. *)
Definition find_hb_best_fit (w : Width) (lam_hb flam_hb ivar_hb : list Q)
           (sii_bestfit : CompoundModel) (fit_cont : bool) : option FitResult :=
  match w, one_component_sii sii_bestfit with
  | Free, true =>
      fit_hb_line.fit_free_one_component lam_hb flam_hb ivar_hb sii_bestfit 60 fit_cont
  | Free, false =>
      fit_hb_line.fit_free_two_components lam_hb flam_hb ivar_hb sii_bestfit 60 fit_cont
  | Fixed, true =>
      fit_hb_line.fit_fixed_one_component lam_hb flam_hb ivar_hb sii_bestfit fit_cont
  | Fixed, false =>
      fit_hb_line.fit_fixed_two_components lam_hb flam_hb ivar_hb sii_bestfit fit_cont
  end.

(** Modelled from the spec: [find_bestfit.find_nii_ha_best_fit], "same template
    dependency on [SII] plus its own broad-component decision". *)
Definition find_nii_ha_best_fit (w : Width) (lam_nii flam_nii ivar_nii : list Q)
           (sii_bestfit : CompoundModel) (fit_cont : bool) : option FitResult :=
  match w, one_component_sii sii_bestfit with
  | Free, true =>
      fit_nii_ha_lines.fit_free_ha_one_component lam_nii flam_nii ivar_nii
                                                 sii_bestfit 60 fit_cont
  | Free, false =>
      fit_nii_ha_lines.fit_free_ha_two_components lam_nii flam_nii ivar_nii
                                                  sii_bestfit 60 fit_cont
  | Fixed, true =>
      fit_nii_ha_lines.fit_fixed_one_component lam_nii flam_nii ivar_nii
                                               sii_bestfit fit_cont
  | Fixed, false =>
      fit_nii_ha_lines.fit_fixed_two_components lam_nii flam_nii ivar_nii
                                                sii_bestfit fit_cont
  end.

End Selectors.
End find_bestfit.

Definition selectors {num : Numerics} {opt : Optimizer}
  (w : Width) : FindBestfit := {|
  find_sii_best_fit := find_bestfit.find_sii_best_fit;
  find_oiii_best_fit := find_bestfit.find_oiii_best_fit;
  find_hb_best_fit := find_bestfit.find_hb_best_fit w;
  find_nii_ha_best_fit := find_bestfit.find_nii_ha_best_fit w
|}.

(** ** The eight Hbeta and [NII]+Halpha fitting functions, uniformly *)

Inductive Line : Type := Hb | Ha.
Inductive Arch : Type := One | Two.

Record Entry : Type := mkEntry { line : Line; width : Width; arch : Arch }.

Definition narrow_name (l : Line) : string :=
  match l with Hb => "hb_n" | Ha => "ha_n" end.
Definition outflow_name (l : Line) : string :=
  match l with Hb => "hb_out" | Ha => "ha_out" end.
Definition broad_name (l : Line) : string :=
  match l with Hb => "hb_b" | Ha => "ha_b" end.

Section Entries.
Context {num : Numerics} {opt : Optimizer}.

(** The two fits as the optimiser returns them. *)
Definition fitted (e : Entry) (lam flam ivar : list Q) (sii_bestfit : CompoundModel)
           (frac_temp : Q) (fit_cont : bool) : option Candidates :=
  match line e, width e, arch e with
  | Hb, Free, One =>
      fit_hb_line.free_one_fits lam flam ivar sii_bestfit frac_temp fit_cont
  | Hb, Free, Two =>
      fit_hb_line.free_two_fits lam flam ivar sii_bestfit frac_temp fit_cont
  | Hb, Fixed, One => fit_hb_line.fixed_one_fits lam flam ivar sii_bestfit fit_cont
  | Hb, Fixed, Two => fit_hb_line.fixed_two_fits lam flam ivar sii_bestfit fit_cont
  | Ha, Free, One =>
      fit_nii_ha_lines.free_ha_one_fits lam flam ivar sii_bestfit frac_temp fit_cont
  | Ha, Free, Two =>
      fit_nii_ha_lines.free_ha_two_fits lam flam ivar sii_bestfit frac_temp fit_cont
  | Ha, Fixed, One => fit_nii_ha_lines.fixed_one_fits lam flam ivar sii_bestfit fit_cont
  | Ha, Fixed, Two => fit_nii_ha_lines.fixed_two_fits lam flam ivar sii_bestfit fit_cont
  end.

(** The two candidates the acceptance test looks at: the fits, after the
    exchange of outflow and broad in the free two-component functions. *)
Definition candidates (e : Entry) (lam flam ivar : list Q) (sii_bestfit : CompoundModel)
           (frac_temp : Q) (fit_cont : bool) : option Candidates :=
  do c <- fitted e lam flam ivar sii_bestfit frac_temp fit_cont;
  match line e, width e, arch e with
  | Hb, Free, Two => fit_hb_line.exchange c
  | Ha, Free, Two => fit_nii_ha_lines.exchange c
  | _, _, _ => Some c
  end.

(** The fitting function itself. *)
Definition fit_entry (e : Entry) (lam flam ivar : list Q) (sii_bestfit : CompoundModel)
           (frac_temp : Q) (fit_cont : bool) : option FitResult :=
  match line e, width e, arch e with
  | Hb, Free, One =>
      fit_hb_line.fit_free_one_component lam flam ivar sii_bestfit frac_temp fit_cont
  | Hb, Free, Two =>
      fit_hb_line.fit_free_two_components lam flam ivar sii_bestfit frac_temp fit_cont
  | Hb, Fixed, One =>
      fit_hb_line.fit_fixed_one_component lam flam ivar sii_bestfit fit_cont
  | Hb, Fixed, Two =>
      fit_hb_line.fit_fixed_two_components lam flam ivar sii_bestfit fit_cont
  | Ha, Free, One =>
      fit_nii_ha_lines.fit_free_ha_one_component lam flam ivar sii_bestfit
                                                 frac_temp fit_cont
  | Ha, Free, Two =>
      fit_nii_ha_lines.fit_free_ha_two_components lam flam ivar sii_bestfit
                                                  frac_temp fit_cont
  | Ha, Fixed, One =>
      fit_nii_ha_lines.fit_fixed_one_component lam flam ivar sii_bestfit fit_cont
  | Ha, Fixed, Two =>
      fit_nii_ha_lines.fit_fixed_two_components lam flam ivar sii_bestfit fit_cont
  end.

End Entries.

(** The acceptance test in words: the reduced chi-square improves by at least
    20%, the broad component is wider than the narrow one, the narrow one is
    at least 40 km/s wide where [narrow_floor] holds, and the FWHM of the
    broad component is at least 300 km/s where [fwhm_floor] holds. *)
Definition improves_by_20_percent (c : Candidates) : Prop :=
  0.20 <= (rchi2_no_broad c - rchi2_broad c) / rchi2_no_broad c.

Definition accepted (narrow_floor fwhm_floor : bool) (c : Candidates)
           (sig_n sig_b : Q) : Prop :=
  improves_by_20_percent c /\ sig_n < sig_b
  /\ (narrow_floor = true -> 40 <= sig_n)
  /\ (fwhm_floor = true -> 300 <= 2.355 * sig_b).

Definition is_free (w : Width) : bool := match w with Free => true | Fixed => false end.
Definition is_ha (l : Line) : bool := match l with Ha => true | Hb => false end.

(** The acceptance test as the code evaluates it. *)
Definition acceptb (narrow_floor fwhm_floor : bool) (c : Candidates)
           (sig_n sig_b : Q) : bool :=
  Qgeb (del_rchi2_of c) 20 && Qgtb sig_b sig_n
  && (if narrow_floor then Qgeb sig_n 40 else true)
  && (if fwhm_floor then Qgeb (2.355 * sig_b) 300 else true).

(** The flag of the function itself and the flag of a narrow component below
    40 km/s. *)
Definition entry_flag (e : Entry) : Z :=
  match width e, arch e with
  | Free, One => 0
  | Fixed, One => 1
  | Free, Two => 2
  | Fixed, Two => 3
  end.

Definition narrow_flag (l : Line) : Z :=
  match l with Hb => 9 | Ha => 10 end.

(** The number of free parameters of the no-broad model; the broad Gaussian
    adds three. *)
Definition dof_no_broad (e : Entry) (fit_cont : bool) : Z :=
  (match line e, width e, arch e with
   | Hb, Free, One => 3
   | Hb, Free, Two => 6
   | Hb, Fixed, One => 2
   | Hb, Fixed, Two => 4
   | Ha, Free, One => 5
   | Ha, Free, Two => 10
   | Ha, Fixed, One => 4
   | Ha, Fixed, Two => 8
   end + if fit_cont then 1 else 0)%Z.

Definition flags_of (e : Entry) (c : Candidates) (sig_n sig_b : Q) : list Z :=
  let flag_bits := flags0 c ++ [entry_flag e] in
  let flag_bits := append_if (Qgeb (del_rchi2_of c) 20) flag_bits 4 in
  let flag_bits := append_if (Qltb sig_b sig_n) flag_bits 5 in
  let flag_bits := append_if (Qltb sig_n 40) flag_bits (narrow_flag (line e)) in
  np_sort flag_bits.

(** What every one of the eight functions returns, given its candidates and
    the velocity dispersions of their narrow and broad components. *)
Definition decide (e : Entry) (fit_cont : bool) (c : Candidates) (sig_n sig_b : Q)
  : FitResult :=
  if acceptb (is_free (width e)) (is_ha (line e)) c sig_n sig_b then
    mkFit (gfit_broad c) (rchi2_broad c) (flags_of e c sig_n sig_b)
          (dof_no_broad e fit_cont + 3)
  else
    mkFit (gfit_no_broad c) (rchi2_no_broad c) (flags_of e c sig_n sig_b)
          (dof_no_broad e fit_cont).

(** The candidates of line [l] have the components the acceptance test reads:
    the with-broad model a narrow and a broad Gaussian, the no-broad model no
    broad one. *)
Definition well_formed (l : Line) (c : Candidates) : Prop :=
  (exists sn, sigma_of (gfit_broad c) (narrow_name l) = Some sn)
  /\ (exists sb, sigma_of (gfit_broad c) (broad_name l) = Some sb)
  /\ has_component (gfit_broad c) (broad_name l) = true
  /\ has_component (gfit_no_broad c) (broad_name l) = false.

Definition exchange_of (l : Line) : Candidates -> option Candidates :=
  match l with
  | Hb => fit_hb_line.exchange
  | Ha => fit_nii_ha_lines.exchange
  end.

(** ** Concrete back ends, to run the definitions *)

(** A square root on the rationals that is exact on squares. *)
Definition rational_sqrt (q : Q) : Q :=
  let r := Qred q in Z.sqrt (Qnum r) # Pos.sqrt (Qden r).

(** A coarse stand-in for [exp] on arguments [x <= 0]: positive,
    non-increasing, [1] at [0]. *)
Definition rational_exp (x : Q) : Q :=
  1 / inject_Z (1 + Z.max 0 (Qceiling (- x))).

Definition rational_numerics : Numerics :=
  {| np_exp := rational_exp; np_sqrt := rational_sqrt; sqrt_2pi := 2.5066 |}.

(** The parameters of the leaf [name] of a model, zero when it has none. *)
Definition params_of (m : CompoundModel) (name : string) : GaussPars :=
  match getitem m name with
  | Some (Gaussian1D a mu sd _) => mkGaussPars a mu sd
  | Some (Const1D a _) => mkGaussPars a 0 0
  | None => mkGaussPars 0 0 0
  end.

Definition has_broad (g_init : InitModel) : bool :=
  existsb (fun sc => String.eqb (name_of (fst sc)) "hb_b"
                     || String.eqb (name_of (fst sc)) "ha_b") g_init.

(** An optimiser that settles on the parameters of [broad] when the model it
    is given has a broad component and on those of [no_broad] otherwise. *)
Definition recovering (no_broad broad : CompoundModel) : Optimizer :=
  {| leastsq := fun g_init _ _ _ name =>
                  params_of (if has_broad g_init then broad else no_broad) name |}.

Definition ones (lam : list Q) : list Q := map (fun _ => 1) lam.

(** Wavelength grids of the Hbeta, [OIII], [NII]+Halpha and [SII] windows. *)
Definition hb_lam : list Q :=
  [4857; 4858; 4859; 4860; 4861; 4862; 4863; 4864; 4865; 4866; 4867; 4868].
Definition oiii_lam : list Q :=
  [4958; 4959; 4960; 4961; 4962; 5006; 5007; 5008; 5009; 5010].
Definition ha_lam : list Q :=
  [6545; 6549; 6552; 6556; 6560; 6562; 6564; 6566; 6568; 6572; 6576; 6580; 6584; 6585;
   6588; 6592].
Definition sii_lam : list Q :=
  [6712; 6714; 6716; 6718; 6720; 6722; 6728; 6730; 6732; 6734; 6736; 6738].

(** An [SII] fit with one component of 0.8 A (35.7 km/s) and one with a
    narrow component of 1.2 A (53.6 km/s) and an outflow of 4.5 A (200.8 km/s). *)
Definition sii_narrow : CompoundModel :=
  [Const1D 0 "sii_cont";
   Gaussian1D 5 6718 0.8 "sii6716";
   Gaussian1D 4 6732 0.8 "sii6731"].

Definition sii_outflow : CompoundModel :=
  [Const1D 0 "sii_cont";
   Gaussian1D 5 6718 1.2 "sii6716";
   Gaussian1D 4 6732 1.2 "sii6731";
   Gaussian1D 2 6718 4.5 "sii6716_out";
   Gaussian1D 1.6 6732 4.5 "sii6731_out"].

(** Hbeta with a narrow line tied to [sii_narrow] and a broad line of 3 A
    (185 km/s); the spectrum is the with-broad model without noise. *)
Definition hb1_no_broad : CompoundModel :=
  [Const1D 1 "hb_cont"; Gaussian1D 10 4862 ((4862 / 6718) * 0.8) "hb_n"].
Definition hb1_with_broad : CompoundModel :=
  hb1_no_broad ++ [Gaussian1D 2 4862 3 "hb_b"].
Definition hb1_flam : list Q :=
  evaluate (num := rational_numerics) hb1_with_broad hb_lam.

(** Hbeta with narrow and outflow lines tied to [sii_outflow] and a third
    line of 2 A (123 km/s), narrower than the outflow. *)
Definition hb2_no_broad : CompoundModel :=
  [Const1D 1 "hb_cont";
   Gaussian1D 10 4862 ((4862 / 6718) * 1.2) "hb_n";
   Gaussian1D 3 4862 ((4862 / 6718) * 4.5) "hb_out"].
Definition hb2_with_broad : CompoundModel :=
  hb2_no_broad ++ [Gaussian1D 2 4862 2 "hb_b"].
Definition hb2_flam : list Q :=
  evaluate (num := rational_numerics) hb2_with_broad hb_lam.

(** [NII]+Halpha on [sii_outflow]: narrow 1.2 A (54.8 km/s), outflow 4.5 A
    (205.5 km/s) and a third Halpha line of 2.5 A (114.2 km/s, FWHM 269 km/s). *)
Definition ha_no_broad : CompoundModel :=
  [Const1D 1 "nii_ha_cont";
   Gaussian1D 1 6549 ((6549 / 6718) * 1.2) "nii6548";
   Gaussian1D (1 * 2.96) (6549 + 35.425) (((6549 + 35.425) / 6718) * 1.2) "nii6583";
   Gaussian1D 0.5 6549 ((6549 / 6718) * 4.5) "nii6548_out";
   Gaussian1D (0.5 * 2.96) (6549 + 35.425) (((6549 + 35.425) / 6718) * 4.5)
              "nii6583_out";
   Gaussian1D 10 6564 1.2 "ha_n";
   Gaussian1D 3 6564 4.5 "ha_out"].
Definition ha_with_broad : CompoundModel :=
  ha_no_broad ++ [Gaussian1D 2 6564 2.5 "ha_b"].
Definition ha_flam : list Q :=
  evaluate (num := rational_numerics) ha_with_broad ha_lam.

(** A fit of all four complexes: [SII] and [OIII] with outflows, Hbeta as in
    [hb2_with_broad], [NII]+Halpha as in [ha_with_broad]. *)
Definition oiii_lines : CompoundModel :=
  [Const1D 1 "oiii_cont";
   Gaussian1D 3 4960 1 "oiii4959";
   Gaussian1D 9 5008 1 "oiii5007";
   Gaussian1D 1 4960 3 "oiii4959_out";
   Gaussian1D 3 5008 3 "oiii5007_out"].

Definition all_no_broad : CompoundModel :=
  sii_outflow ++ oiii_lines ++ hb2_no_broad ++ ha_no_broad.
Definition all_with_broad : CompoundModel :=
  hb2_with_broad ++ ha_with_broad.

(** Fitting windows by wavelength range. *)
Definition window_of (em_line : string) : Q * Q :=
  if String.eqb em_line "hb" then (4800, 4930)
  else if String.eqb em_line "oiii" then (4930, 5100)
  else if String.eqb em_line "nii_ha" then (6400, 6650)
  else (6650, 6800).

Definition in_window (w : Q * Q) (x : Q) : bool :=
  Qle_bool (fst w) x && Qle_bool x (snd w).

Fixpoint identity_matrix (n k : nat) : list (list Q) :=
  match k with
  | O => []
  | S k' =>
      identity_matrix n k'
      ++ [map (fun j => if Nat.eqb j k' then 1 else 0) (seq 0 n)]
  end.

(** A spectrum source returning the spectrum it is built from, whatever the
    target, with the identity as resolution matrix. *)
Definition spectrum_source (lam flam ivar : list Q) : SpecUtils :=
  {| get_emline_spectra := fun _ =>
       (lam, flam, ivar, identity_matrix (List.length lam) (List.length lam));
     get_fit_window := fun lam flam ivar em_line =>
       (np.select (in_window (window_of em_line)) lam lam,
        np.select (in_window (window_of em_line)) lam flam,
        np.select (in_window (window_of em_line)) lam ivar) |}.

(** A small congruential generator; the draws lie in [-3/4, 3/4]. *)
Definition congruential : Random :=
  {| rng := Z;
     normalvariate := fun s =>
       (inject_Z (s mod 7 - 3) / 4, ((5 * s + 3) mod 17)%Z) |}.

(** The spectrum of the four windows, Hbeta following [hb2_with_broad]. *)
Definition full_lam : list Q := hb_lam ++ oiii_lam ++ ha_lam ++ sii_lam.
Definition full_flam : list Q :=
  hb2_flam ++ ones oiii_lam ++ ones ha_lam ++ ones sii_lam.

(** A spectrum of seven pixels, one to three per window. *)
Definition small_lam : list Q := [4862; 4960; 5008; 6549; 6564; 6584; 6718].
Definition small_flam : list Q := [3; 2; 5; 2; 8; 4; 3].

Definition some_target : Target := mkTarget "fuji" "sv1" "dark" 1 2 (1 # 10).

(** ** The aggregation of a component in words *)

(** One iteration of a component: its five table entries. *)
Record Iteration : Type := mkIteration {
  it_amplitude : Q; it_mean : Q; it_std : Q; it_flux : Q; it_sigma : Q
}.

(** Amplitude, mean and width all positive. *)
Definition is_positive (r : Iteration) : bool :=
  Qgtb (it_amplitude r) 0 && Qgtb (it_mean r) 0 && Qgtb (it_std r) 0.

(** Mean and scatter of a list of values, NaN for the empty list. *)
Definition average {num : Numerics} (l : list Q) : npfloat :=
  match l with
  | [] => NaN
  | _ => Finite (nan.mean_of l)
  end.

Definition scatter {num : Numerics} (l : list Q) : npfloat :=
  match l with
  | [] => NaN
  | _ =>
      Finite (np_sqrt (nan.mean_of
                 (map (fun x => Qabs (x - nan.mean_of l) * Qabs (x - nan.mean_of l)) l)))
  end.

(** The statistics of a component over a list of iterations, every one of
    which counts. *)
Definition statistics_over {num : Numerics} (sel : list Iteration) : emp.BestFit :=
  let amp := average (map it_amplitude sel) in
  let amp_err := scatter (map it_amplitude sel) in
  let mean := average (map it_mean sel) in
  let mean_err := scatter (map it_mean sel) in
  let var := map (fun r => it_std r * it_std r) sel in
  let std := nan.sqrt (average var) in
  let std_err := nan.sqrt (scatter var) in
  let '(flux, flux_err) :=
    nan.lift4 mfit.compute_emline_flux_err amp std amp_err std_err in
  let '(sigma, sigma_err) :=
    nan.lift4 mfit.lamspace_to_velspace_err std mean std_err mean_err in
  emp.mkBestFit amp amp_err mean mean_err std std_err sigma sigma_err flux flux_err
                (average (map it_flux sel)) (scatter (map it_flux sel))
                (average (map it_sigma sel)) (scatter (map it_sigma sel)).

(** [get_bestfit_parameters] on the columns of a list of iterations. *)
Definition bestfit_of {num : Numerics} (rows : list Iteration) : emp.BestFit :=
  emp.bestfit_of_columns (map it_amplitude rows) (map it_mean rows) (map it_std rows)
                         (map it_flux rows) (map it_sigma rows).

Definition all_zero (rows : list Iteration) : bool :=
  emp.allzero (map it_amplitude rows) (map it_mean rows) (map it_std rows).

(** A float equal to the rational [v]. *)
Definition is_value (x : npfloat) (v : Q) : Prop :=
  match x with
  | Finite q => q == v
  | NaN => False
  end.

(** The iteration [get_parameters] records for a Gaussian. *)
Definition iteration_of {num : Numerics} (g : GaussPars) : Iteration :=
  mkIteration (amplitude g) (mean g) (stddev g)
              (mfit.compute_emline_flux (amplitude g) (stddev g))
              (mfit.lamspace_to_velspace (stddev g) (mean g)).

(** The degrees of freedom [fit_spectra_iteration] attaches to an [SII] and
    to an [OIII] fit made with a given number of submodels. *)
Definition one_component (n : Z) : bool := (n =? 2)%Z || (n =? 3)%Z.

Definition sii_dof_of (n_sii : Z) (fit_cont : bool) : Z :=
  if one_component n_sii then (if fit_cont then 5 else 4)
  else (if fit_cont then 8 else 7).

Definition oiii_dof_of (n_oiii : Z) (fit_cont : bool) : Z :=
  if one_component n_oiii then (if fit_cont then 4 else 3)
  else (if fit_cont then 7 else 6).

(** The model [fit_spectra_iteration] returns for a fitted complex: the fit
    itself, with a zero continuum in front when none was fitted. *)
Definition returned_model (fit_cont : bool) (cont_name : string) (g : CompoundModel)
  : CompoundModel :=
  if fit_cont then g else Const1D 0 cont_name :: g.

(** The keys a dictionary has after [d[k] = v]. *)
Definition add_key (ks : list string) (k : string) : list string :=
  if existsb (String.eqb k) ks then ks else ks ++ [k].

(** The keys [get_parameters] writes for one model name, and the keys
    [fit_spectra_iteration] writes for a complex. *)
Definition parameter_keys (ks : list string) (model : string) : list string :=
  fold_left add_key
    [fstr model "_amplitude"; fstr model "_mean"; fstr model "_std";
     fstr model "_sigma"; fstr model "_flux"] ks.

Definition complex_keys (models : list string) (emline : string) : list string :=
  add_key (add_key (fold_left parameter_keys models []) (fstr emline "_continuum"))
          (fstr emline "_dof").

(** The columns of the table of an iteration. *)
Definition iteration_columns : list string :=
  fold_left add_key
    (complex_keys emfit.oiii_models "oiii" ++ complex_keys emfit.nii_ha_models "nii_ha"
     ++ complex_keys emfit.sii_models "sii")
    (complex_keys emfit.hb_models "hb").

(** The five keys [get_parameters] writes for one model name, and the five
    values it writes for a component: those of its Gaussian, or zeros when
    the model has no such component. *)
Definition entry_keys (model : string) : list string :=
  [fstr model "_amplitude"; fstr model "_mean"; fstr model "_std";
   fstr model "_sigma"; fstr model "_flux"].

Definition entry_values {num : Numerics} (g : option GaussPars) : list Q :=
  match g with
  | Some g =>
      [amplitude g; mean g; stddev g;
       mfit.lamspace_to_velspace (stddev g) (mean g);
       mfit.compute_emline_flux (amplitude g) (stddev g)]
  | None => [0; 0; 0; 0; 0]
  end.

(** The component of a model of several submodels that [get_parameters]
    reports under a name. *)
Definition reported (gfit : CompoundModel) (model : string) : option GaussPars :=
  if existsb (String.eqb model) (submodel_names gfit) then gaussian gfit model
  else None.


(* ===================================================================== *)
(** * Properties *)
(* ===================================================================== *)

(** ** Generic lemmas *)

Lemma bind_some {A B} (m : option A) (k : A -> option B) b :
  bind m k = Some b -> exists a, m = Some a /\ k a = Some b.
Proof. destruct m; simpl; intros H; [eauto | discriminate]. Qed.

Lemma Qgeb_spec x y : Qgeb x y = true <-> y <= x.
Proof. unfold Qgeb. apply Qle_bool_iff. Qed.

Lemma Qltb_spec x y : Qltb x y = true <-> x < y.
Proof.
  unfold Qltb. rewrite negb_true_iff. split.
  - intros H. apply Qnot_le_lt. intros Hle. apply Qle_bool_iff in Hle. congruence.
  - intros H. destruct (Qle_bool y x) eqn:E; [|reflexivity].
    apply Qle_bool_iff in E. exfalso. apply (Qlt_not_le _ _ H E).
Qed.

Lemma Qgtb_spec x y : Qgtb x y = true <-> y < x.
Proof. unfold Qgtb. apply Qltb_spec. Qed.

Ltac inv_bind H :=
  repeat (let x := fresh "x" in let Hx := fresh "Hx" in
          apply bind_some in H as (x & Hx & H)).

(** Running the fitter on an initial model of known shape: the optimiser's
    values stay abstract, the ties are evaluated. *)
Ltac run_fit H :=
  unfold fitting.LevMarLSQFitter, fitting.fitter_to_model_params in H;
  match type of H with context [leastsq ?a ?b ?c ?d] =>
    let fps := fresh "fps" in set (fps := leastsq a b c d) in H end;
  repeat (cbn -[Qplus Qmult Qdiv Qminus Qopp Qmax Qmin Qinv] in H;
          repeat match goal with
                 | E : gaussian ?m ?n = Some _ |- _ => rewrite E in H
                 end);
  injection H as H.

Ltac run_fits :=
  repeat match goal with
         | H : fitting.LevMarLSQFitter _ _ _ _ = Some _ |- _ => run_fit H
         end.

Lemma sigma_of_gaussian m n s :
  sigma_of m n = Some s ->
  exists g, gaussian m n = Some g /\ s = mfit.lamspace_to_velspace (stddev g) (mean g).
Proof.
  unfold sigma_of. intros H. apply bind_some in H as (g & Hg & H).
  injection H as <-. eauto.
Qed.

Lemma gaussian_has_component m n g : gaussian m n = Some g -> has_component m n = true.
Proof.
  unfold gaussian, has_component. intros H. apply bind_some in H as (s & -> & _).
  reflexivity.
Qed.

(** ** The broad-component decision *)

Lemma improves_spec c : Qgeb (del_rchi2_of c) 20 = true <-> improves_by_20_percent c.
Proof.
  rewrite Qgeb_spec. unfold del_rchi2_of, improves_by_20_percent.
  set (x := (rchi2_no_broad c - rchi2_broad c) / rchi2_no_broad c).
  split; intros H; lra.
Qed.

Lemma acceptb_spec nf ff c sn sb :
  acceptb nf ff c sn sb = true <-> accepted nf ff c sn sb.
Proof.
  unfold acceptb, accepted. rewrite !andb_true_iff, improves_spec, Qgtb_spec.
  destruct nf, ff; rewrite ?Qgeb_spec; intuition (try discriminate).
Qed.

Section Decision.
Context {num : Numerics} {opt : Optimizer}.

(** Each of the eight functions returns [decide] of its candidates. *)
Lemma fit_entry_decides e lam flam ivar sii frac fit_cont c sig_n sig_b :
  candidates e lam flam ivar sii frac fit_cont = Some c ->
  sigma_of (gfit_broad c) (narrow_name (line e)) = Some sig_n ->
  sigma_of (gfit_broad c) (broad_name (line e)) = Some sig_b ->
  fit_entry e lam flam ivar sii frac fit_cont = Some (decide e fit_cont c sig_n sig_b).
Proof.
  intros H Hn Hb. unfold candidates in H. apply bind_some in H as (c0 & Hfit & Hex).
  unfold decide, flags_of, acceptb, dof_no_broad, entry_flag, narrow_flag.
  destruct e as [[] [] []];
  cbn [line width arch fitted fit_entry narrow_name broad_name is_free is_ha] in *;
  try (injection Hex as <-);
  unfold fit_hb_line.fit_free_one_component, fit_hb_line.fit_free_two_components,
    fit_hb_line.fit_fixed_one_component, fit_hb_line.fit_fixed_two_components,
    fit_nii_ha_lines.fit_free_ha_one_component,
    fit_nii_ha_lines.fit_free_ha_two_components,
    fit_nii_ha_lines.fit_fixed_one_component,
    fit_nii_ha_lines.fit_fixed_two_components;
  rewrite Hfit; cbn [bind]; rewrite ?Hex; cbn [bind]; rewrite Hn, Hb; cbn [bind];
  rewrite ?andb_true_r; destruct fit_cont;
  match goal with |- context [if ?b then Some _ else _] => destruct b end;
  reflexivity.
Qed.

(** The fits of every function have the shape the later steps rely on. *)
Lemma fitted_well_formed e lam flam ivar sii frac fit_cont c :
  fitted e lam flam ivar sii frac fit_cont = Some c ->
  well_formed (line e) c
  /\ flags0 c = []
  /\ (arch e = Two ->
      exists so, sigma_of (gfit_broad c) (outflow_name (line e)) = Some so).
Proof.
  intros H. unfold well_formed.
  destruct e as [[] [] []];
  cbn [line width arch fitted narrow_name broad_name outflow_name] in *;
  unfold fit_hb_line.free_one_fits, fit_hb_line.free_two_fits,
    fit_hb_line.fixed_one_fits, fit_hb_line.fixed_two_fits,
    fit_nii_ha_lines.free_ha_one_fits, fit_nii_ha_lines.free_ha_two_fits,
    fit_nii_ha_lines.fixed_one_fits, fit_nii_ha_lines.fixed_two_fits in H;
  inv_bind H; destruct fit_cont; inv_bind H; injection H as <-; run_fits; subst;
  cbn -[Qplus Qmult Qdiv Qminus Qopp Qmax Qmin Qinv];
  repeat split; eauto; discriminate.
Qed.

End Decision.

(** The exchange of outflow and broad, for either line. *)
Lemma exchange_spec l c0 sn sb so :
  sigma_of (gfit_broad c0) (narrow_name l) = Some sn ->
  sigma_of (gfit_broad c0) (broad_name l) = Some sb ->
  sigma_of (gfit_broad c0) (outflow_name l) = Some so ->
  exists c, exchange_of l c0 = Some c
    /\ gfit_no_broad c = gfit_no_broad c0
    /\ rchi2_no_broad c = rchi2_no_broad c0
    /\ rchi2_broad c = rchi2_broad c0
    /\ sigma_of (gfit_broad c) (narrow_name l) = Some sn
    /\ ((sb < so
         /\ flags0 c = flags0 c0 ++ [6%Z]
         /\ gaussian (gfit_broad c) (broad_name l)
            = gaussian (gfit_broad c0) (outflow_name l)
         /\ gaussian (gfit_broad c) (outflow_name l)
            = gaussian (gfit_broad c0) (broad_name l)
         /\ gaussian (gfit_broad c) (narrow_name l)
            = gaussian (gfit_broad c0) (narrow_name l)
         /\ sigma_of (gfit_broad c) (broad_name l) = Some so
         /\ sigma_of (gfit_broad c) (outflow_name l) = Some sb)
        \/ (~ sb < so /\ c = c0)).
Proof.
  intros Hn Hb Ho.
  destruct (sigma_of_gaussian _ _ _ Hn) as (gn & Hgn & En).
  destruct (sigma_of_gaussian _ _ _ Hb) as (gb & Hgb & Eb).
  destruct (sigma_of_gaussian _ _ _ Ho) as (go & Hgo & Eo).
  destruct l; cbn [exchange_of narrow_name broad_name outflow_name] in *;
  unfold fit_hb_line.exchange, fit_nii_ha_lines.exchange;
  rewrite Hb, Ho; cbn [bind];
  (destruct (Qltb sb so) eqn:E;
   [ apply Qltb_spec in E; rewrite Hgn, Hgb, Hgo; cbn [bind];
     eexists; split; [reflexivity|];
     cbn [gfit_broad gfit_no_broad rchi2_no_broad rchi2_broad flags0];
     subst; destruct gn, gb, go; cbn;
     repeat split; left; repeat split; assumption
   | exists c0; repeat split; try assumption; right; split; [|reflexivity];
     intros Hlt; apply Qltb_spec in Hlt; congruence ]).
Qed.


Lemma is_some {A} (o : option A) :
  match o with Some _ => True | None => False end -> exists a, o = Some a.
Proof. destruct o; [eauto | contradiction]. Defined.

Lemma holds_on_some {A} (o : option A) (P : A -> Prop) :
  match o with Some a => P a | None => False end -> exists a, o = Some a /\ P a.
Proof. destruct o; [eauto | contradiction]. Defined.

Section Candidates.
Context {num : Numerics} {opt : Optimizer}.

Lemma candidates_exchange e lam flam ivar sii frac fit_cont c :
  candidates e lam flam ivar sii frac fit_cont = Some c ->
  exists c0, fitted e lam flam ivar sii frac fit_cont = Some c0
    /\ (if is_free (width e) then
          match arch e with
          | Two => exchange_of (line e) c0 = Some c
          | One => c = c0
          end
        else c = c0).
Proof.
  intros H. unfold candidates in H. apply bind_some in H as (c0 & Hfit & Hex).
  exists c0. split; [assumption|].
  destruct e as [[] [] []]; cbn [line width arch is_free exchange_of] in *;
    congruence.
Qed.

Lemma candidates_well_formed e lam flam ivar sii frac fit_cont c :
  candidates e lam flam ivar sii frac fit_cont = Some c ->
  well_formed (line e) c.
Proof.
  intros H. destruct (candidates_exchange _ _ _ _ _ _ _ _ H) as (c0 & Hfit & Hex).
  destruct (fitted_well_formed _ _ _ _ _ _ _ _ Hfit) as (Hwf & _ & Hout).
  destruct (is_free (width e)); [|subst; assumption].
  destruct (arch e); [subst; assumption|].
  destruct Hwf as ((sn & Hn) & (sb & Hb) & Hhb & Hhn).
  destruct (Hout eq_refl) as (so & Ho).
  destruct (exchange_spec _ _ _ _ _ Hn Hb Ho)
    as (c' & Hex' & Hnb & _ & _ & Hn' & [(_ & _ & Hgb & _ & _ & Hb' & _) | (_ & ->)]);
    rewrite Hex in Hex'; injection Hex' as <-.
  - unfold well_formed. rewrite Hnb. repeat split; eauto.
    destruct (sigma_of_gaussian _ _ _ Hb') as (g & Hg & _).
    eapply gaussian_has_component; eassumption.
  - unfold well_formed. repeat split; eauto.
Qed.

(** C1 (amended).  For each of the eight Hbeta and [NII]+Halpha fitting
    functions, whatever the optimiser returns: the with-broad model is
    returned exactly when the reduced chi-square improves by at least 20%,
    the broad component of the with-broad candidate is wider than its narrow
    component, for the Halpha functions its FWHM (2.355 sigma) is at least
    300 km/s, and, for the free-width functions only, the narrow component is
    at least 40 km/s wide; in every other case the no-broad fit is returned.
    The fixed-width functions do not test the 40 km/s floor. *)
Theorem C1_broad_acceptance e lam flam ivar sii frac fit_cont c :
  candidates e lam flam ivar sii frac fit_cont = Some c ->
  exists sig_n sig_b r,
    sigma_of (gfit_broad c) (narrow_name (line e)) = Some sig_n
    /\ sigma_of (gfit_broad c) (broad_name (line e)) = Some sig_b
    /\ fit_entry e lam flam ivar sii frac fit_cont = Some r
    /\ (has_component (gfit r) (broad_name (line e)) = true
        <-> accepted (is_free (width e)) (is_ha (line e)) c sig_n sig_b)
    /\ (accepted (is_free (width e)) (is_ha (line e)) c sig_n sig_b ->
        gfit r = gfit_broad c /\ rchi2 r = rchi2_broad c)
    /\ (~ accepted (is_free (width e)) (is_ha (line e)) c sig_n sig_b ->
        gfit r = gfit_no_broad c /\ rchi2 r = rchi2_no_broad c).
Proof.
  intros H.
  destruct (candidates_well_formed _ _ _ _ _ _ _ _ H)
    as ((sn & Hn) & (sb & Hb) & Hhb & Hhn).
  exists sn, sb, (decide e fit_cont c sn sb).
  split; [assumption|]. split; [assumption|].
  split; [apply fit_entry_decides; assumption|].
  unfold decide.
  destruct (acceptb (is_free (width e)) (is_ha (line e)) c sn sb) eqn:E.
  - apply acceptb_spec in E. cbn [gfit rchi2]. rewrite Hhb. intuition.
  - assert (En : ~ accepted (is_free (width e)) (is_ha (line e)) c sn sb).
    { intros Ha. apply acceptb_spec in Ha. congruence. }
    cbn [gfit rchi2]. rewrite Hhn. intuition discriminate.
Qed.

End Candidates.

(** The free one-component Hbeta function on the spectrum [hb1_flam]. *)
Lemma C1_broad_acceptance_witness :
  exists c r,
    candidates (num := rational_numerics) (opt := recovering hb1_no_broad hb1_with_broad)
               (mkEntry Hb Free One) hb_lam hb1_flam (ones hb_lam) sii_narrow 60 true
    = Some c
    /\ fit_entry (num := rational_numerics)
                 (opt := recovering hb1_no_broad hb1_with_broad)
                 (mkEntry Hb Free One) hb_lam hb1_flam (ones hb_lam) sii_narrow 60 true
       = Some r.
Proof.
  destruct (is_some
              (candidates (num := rational_numerics)
                          (opt := recovering hb1_no_broad hb1_with_broad)
                          (mkEntry Hb Free One) hb_lam hb1_flam (ones hb_lam)
                          sii_narrow 60 true)) as [c Hc].
  { vm_compute. exact I. }
  destruct (C1_broad_acceptance _ _ _ _ _ _ _ _ Hc) as (sn & sb & r & _ & _ & Hr & _).
  exists c, r. split; assumption.
Defined.

(** C1 as stated fails for the fixed-width functions: on [hb1_flam], with the
    narrow Hbeta line tied to an [SII] line of 35.7 km/s,
    [fit_fixed_one_component] returns the with-broad model although the
    narrow component is below 40 km/s. *)
Lemma C1_counterexample :
  exists r sig_n,
    fit_hb_line.fit_fixed_one_component
      (num := rational_numerics) (opt := recovering hb1_no_broad hb1_with_broad)
      hb_lam hb1_flam (ones hb_lam) sii_narrow true = Some r
    /\ has_component (gfit r) "hb_b" = true
    /\ sigma_of (gfit r) "hb_n" = Some sig_n
    /\ sig_n < 40.
Proof.
  destruct (holds_on_some
    (fit_hb_line.fit_fixed_one_component
      (num := rational_numerics) (opt := recovering hb1_no_broad hb1_with_broad)
      hb_lam hb1_flam (ones hb_lam) sii_narrow true)
    (fun r => has_component (gfit r) "hb_b" = true
              /\ match sigma_of (gfit r) "hb_n" with
                 | Some s => s < 40
                 | None => False
                 end)) as (r & Hr & Hb & Hs).
  { vm_compute. split; reflexivity. }
  destruct (sigma_of (gfit r) "hb_n") as [s|] eqn:E; [|contradiction].
  exists r, s. repeat split; assumption.
Qed.


(** ** Flag bits *)

Lemma In_insert_sorted x y l : In x (insert_sorted y l) <-> x = y \/ In x l.
Proof.
  induction l as [|z l IH]; simpl.
  - intuition.
  - destruct (y <=? z)%Z; simpl; [intuition | rewrite IH; intuition].
Qed.

Lemma In_np_sort x l : In x (np_sort l) <-> In x l.
Proof.
  induction l as [|y l IH]; simpl; [reflexivity|].
  rewrite In_insert_sorted, IH. intuition.
Qed.

Lemma In_append_if x b l k : In x (append_if b l k) <-> In x l \/ (b = true /\ x = k).
Proof.
  unfold append_if. destruct b.
  - rewrite in_app_iff. simpl. intuition.
  - intuition discriminate.
Qed.

Lemma six_in_flags e c sn sb :
  In 6%Z (flags_of e c sn sb) <-> In 6%Z (flags0 c).
Proof.
  unfold flags_of. rewrite In_np_sort, !In_append_if, in_app_iff. simpl.
  unfold entry_flag, narrow_flag.
  destruct (width e), (arch e), (line e); intuition (try discriminate).
Qed.

Lemma flag_bits_decide e fit_cont c sn sb :
  flag_bits (decide e fit_cont c sn sb) = flags_of e c sn sb.
Proof. unfold decide. destruct (acceptb _ _ _ _ _); reflexivity. Qed.

Section Exchange.
Context {num : Numerics} {opt : Optimizer}.



End Exchange.






(** ** Dictionaries *)

Lemma existsb_eqb_In k ks : existsb (String.eqb k) ks = true <-> In k ks.
Proof.
  rewrite existsb_exists. split.
  - intros (x & Hx & E). apply String.eqb_eq in E. subst. assumption.
  - intros H. exists k. split; [assumption | apply String.eqb_refl].
Qed.

Lemma existsb_eqb_not_In k ks : existsb (String.eqb k) ks = false <-> ~ In k ks.
Proof.
  rewrite <- existsb_eqb_In. destruct (existsb (String.eqb k) ks); intuition congruence.
Qed.

Lemma keys_setitem {V} (d : dict.t V) k v :
  dict.keys (dict.setitem d k v) = add_key (dict.keys d) k.
Proof.
  unfold add_key, dict.keys. induction d as [|[k' v'] d IH]; cbn; [reflexivity|].
  rewrite (String.eqb_sym k k'). destruct (String.eqb k' k) eqn:E; cbn.
  - apply String.eqb_eq in E. subst. reflexivity.
  - rewrite IH.
    destruct (existsb (String.eqb k) (map fst d)); reflexivity.
Qed.

Lemma NoDup_add_key ks k : NoDup ks -> NoDup (add_key ks k).
Proof.
  intros H. unfold add_key. destruct (existsb (String.eqb k) ks) eqn:E; [assumption|].
  apply existsb_eqb_not_In in E.
  apply NoDup_app; [assumption | repeat constructor; intros [] | ].
  intros x Hx [<- | []]. contradiction.
Qed.

Lemma NoDup_setitem {V} (d : dict.t V) k v :
  NoDup (dict.keys d) -> NoDup (dict.keys (dict.setitem d k v)).
Proof. rewrite keys_setitem. apply NoDup_add_key. Qed.

Lemma getitem_setitem_same {V} (d : dict.t V) k v :
  dict.getitem (dict.setitem d k v) k = Some v.
Proof.
  induction d as [|[k' v'] d IH]; simpl.
  - rewrite String.eqb_refl. reflexivity.
  - destruct (String.eqb k' k) eqn:E; simpl.
    + rewrite String.eqb_refl. reflexivity.
    + rewrite E. exact IH.
Qed.

Lemma getitem_setitem_other {V} (d : dict.t V) k k' v :
  k <> k' -> dict.getitem (dict.setitem d k v) k' = dict.getitem d k'.
Proof.
  intros Hne. induction d as [|[k0 v0] d IH]; simpl.
  - destruct (String.eqb k k') eqn:E; [apply String.eqb_eq in E; contradiction|].
    reflexivity.
  - destruct (String.eqb k0 k) eqn:E; simpl.
    + apply String.eqb_eq in E. subst k0.
      destruct (String.eqb k k') eqn:E'; [apply String.eqb_eq in E'; contradiction|].
      reflexivity.
    + destruct (String.eqb k0 k'); [reflexivity | exact IH].
Qed.

Lemma getitem_not_in {V} (d : dict.t V) k :
  ~ In k (dict.keys d) -> dict.getitem d k = None.
Proof.
  induction d as [|[k' v'] d IH]; simpl; [reflexivity|].
  intros H. destruct (String.eqb k' k) eqn:E.
  - apply String.eqb_eq in E. subst. exfalso. apply H. left. reflexivity.
  - apply IH. intros Hin. apply H. right. assumption.
Qed.

Lemma getitem_in {V} (d : dict.t V) k :
  In k (dict.keys d) -> exists v, dict.getitem d k = Some v.
Proof.
  induction d as [|[k' v'] d IH]; simpl; [intros []|].
  intros H. destruct (String.eqb k' k) eqn:E; [eauto|].
  destruct H as [-> | H]; [rewrite String.eqb_refl in E; discriminate | auto].
Qed.

(** [a | b]: a key of [b] has the value of [b], any other key the value of [a]. *)
Lemma getitem_union {V} (a b : dict.t V) k :
  NoDup (dict.keys b) ->
  dict.getitem (dict.union a b) k
  = match dict.getitem b k with
    | Some v => Some v
    | None => dict.getitem a k
    end.
Proof.
  unfold dict.union. revert a. induction b as [|[k' v'] b IH]; intros a Hnd; simpl.
  - reflexivity.
  - inversion Hnd as [|? ? Hnotin Hnd']; subst.
    rewrite IH by assumption. simpl.
    destruct (String.eqb k' k) eqn:E.
    + apply String.eqb_eq in E. subst k'.
      rewrite (getitem_not_in b k Hnotin). apply getitem_setitem_same.
    + destruct (dict.getitem b k); [reflexivity|].
      apply getitem_setitem_other. intros ->. rewrite String.eqb_refl in E. discriminate.
Qed.

Lemma keys_union {V} (a b : dict.t V) :
  dict.keys (dict.union a b) = fold_left add_key (dict.keys b) (dict.keys a).
Proof.
  unfold dict.union. revert a. induction b as [|[k v] b IH]; intros a; simpl.
  - reflexivity.
  - rewrite IH, keys_setitem. reflexivity.
Qed.

Section Parameters.
Context {num : Numerics}.

Lemma get_parameters_step_keys gfit params model params' :
  emp.get_parameters_step gfit params model = Some params' ->
  dict.keys params' = parameter_keys (dict.keys params) model.
Proof.
  unfold emp.get_parameters_step, parameter_keys. intros H.
  apply bind_some in H as (present & _ & H). destruct present.
  - apply bind_some in H as (g & _ & H). injection H as <-.
    rewrite !keys_setitem. reflexivity.
  - injection H as <-. rewrite !keys_setitem. reflexivity.
Qed.

Lemma fold_get_parameters_none gfit models :
  fold_left (fun acc model => do params <- acc; emp.get_parameters_step gfit params model)
            models None = None.
Proof. induction models; simpl; auto. Qed.

Lemma get_parameters_keys_from gfit models init params :
  fold_left (fun acc model => do params <- acc; emp.get_parameters_step gfit params model)
            models (Some init) = Some params ->
  dict.keys params = fold_left parameter_keys models (dict.keys init).
Proof.
  revert init. induction models as [|m models IH]; intros init H; simpl in *.
  - injection H as <-. reflexivity.
  - destruct (emp.get_parameters_step gfit init m) as [p|] eqn:E.
    + rewrite (IH _ H). rewrite (get_parameters_step_keys _ _ _ _ E). reflexivity.
    + rewrite fold_get_parameters_none in H. discriminate.
Qed.

(** The keys of the dictionary of [get_parameters] depend on the expected
    names only, not on the model. *)
Lemma get_parameters_keys gfit models params :
  emp.get_parameters gfit models = Some params ->
  dict.keys params = fold_left parameter_keys models [].
Proof. apply get_parameters_keys_from. Qed.

End Parameters.


(** ** Tied doublets *)

Section Doublets.
Context {num : Numerics} {opt : Optimizer}.

(** C5.  For every successful [OIII] fit, with one or two components, the
    returned model has amplitude(oiii5007) = 2.98 amplitude(oiii4959) and
    mean(oiii5007) - mean(oiii4959) = 47.934; in the two-component fit the
    outflow pair satisfies the same two relations. *)
Theorem C5_oiii_ties_hold lam flam ivar fit_cont :
  (forall g r,
      fit_oiii_lines.fit_one_component lam flam ivar fit_cont = Some (g, r) ->
      exists a b,
        gaussian g "oiii4959" = Some a /\ gaussian g "oiii5007" = Some b
        /\ amplitude b == 2.98 * amplitude a /\ mean b - mean a == 47.934)
  /\ (forall g r,
         fit_oiii_lines.fit_two_components lam flam ivar fit_cont = Some (g, r) ->
         exists a b ao bo,
           gaussian g "oiii4959" = Some a /\ gaussian g "oiii5007" = Some b
           /\ gaussian g "oiii4959_out" = Some ao
           /\ gaussian g "oiii5007_out" = Some bo
           /\ amplitude b == 2.98 * amplitude a /\ mean b - mean a == 47.934
           /\ amplitude bo == 2.98 * amplitude ao /\ mean bo - mean ao == 47.934).
Proof.
  split; intros g r H.
  - unfold fit_oiii_lines.fit_one_component in H. inv_bind H.
    destruct fit_cont; inv_bind H; injection H as <- <-; run_fits; subst;
      do 2 eexists; (split; [reflexivity|]); (split; [reflexivity|]);
      cbn [amplitude mean]; split; ring.
  - unfold fit_oiii_lines.fit_two_components in H. inv_bind H.
    destruct fit_cont; inv_bind H; injection H as <- <-; run_fits; subst;
      do 4 eexists; do 4 (split; [reflexivity|]);
      cbn [amplitude mean]; repeat split; ring.
Qed.

(** C6 (as the code has it).  The one-component [SII] fit ties the mean of
    [SII]6731 at 14.329 above the mean of [SII]6716, the two-component fit at
    14.379: the mean differences of two successful fits are never equal. *)
Theorem C6_sii_mean_offsets_differ lam flam ivar fit_cont lam' flam' ivar' fit_cont'
        g1 r1 g2 r2 :
  fit_sii_lines.fit_one_component lam flam ivar fit_cont = Some (g1, r1) ->
  fit_sii_lines.fit_two_components lam' flam' ivar' fit_cont' = Some (g2, r2) ->
  exists a1 b1 a2 b2,
    gaussian g1 "sii6716" = Some a1 /\ gaussian g1 "sii6731" = Some b1
    /\ gaussian g2 "sii6716" = Some a2 /\ gaussian g2 "sii6731" = Some b2
    /\ mean b1 - mean a1 == 14.329
    /\ mean b2 - mean a2 == 14.379
    /\ ~ mean b1 - mean a1 == mean b2 - mean a2.
Proof.
  intros H1 H2.
  unfold fit_sii_lines.fit_one_component in H1. inv_bind H1.
  unfold fit_sii_lines.fit_two_components in H2. inv_bind H2.
  assert (Hne : forall p q : Q, p == 14.329 -> q == 14.379 -> ~ p == q).
  { intros p q Hp Hq Hpq. rewrite Hp, Hq in Hpq. discriminate Hpq. }
  destruct fit_cont, fit_cont'; inv_bind H1; inv_bind H2;
    injection H1 as <- <-; injection H2 as <- <-; run_fits; subst;
    do 4 eexists; do 4 (split; [reflexivity|]); cbn [mean];
    (split; [ring|]); (split; [ring|]); apply Hne; ring.
Qed.

End Doublets.

Lemma C5_oiii_ties_hold_witness :
  exists g r,
    fit_oiii_lines.fit_one_component
      (num := rational_numerics) (opt := recovering all_no_broad all_with_broad)
      oiii_lam (ones oiii_lam) (ones oiii_lam) true = Some (g, r)
    /\ exists a b,
        gaussian g "oiii4959" = Some a /\ gaussian g "oiii5007" = Some b
        /\ amplitude b == 2.98 * amplitude a /\ mean b - mean a == 47.934.
Proof.
  destruct (is_some
    (fit_oiii_lines.fit_one_component
       (num := rational_numerics) (opt := recovering all_no_broad all_with_broad)
       oiii_lam (ones oiii_lam) (ones oiii_lam) true)) as [[g r] H].
  { vm_compute. exact I. }
  exists g, r. split; [exact H|].
  exact (proj1 (C5_oiii_ties_hold _ _ _ _) g r H).
Defined.

Lemma C6_sii_mean_offsets_differ_witness :
  exists g1 r1 g2 r2,
    fit_sii_lines.fit_one_component
      (num := rational_numerics) (opt := recovering all_no_broad all_with_broad)
      sii_lam (ones sii_lam) (ones sii_lam) true = Some (g1, r1)
    /\ fit_sii_lines.fit_two_components
         (num := rational_numerics) (opt := recovering all_no_broad all_with_broad)
         sii_lam (ones sii_lam) (ones sii_lam) true = Some (g2, r2)
    /\ exists a1 b1 a2 b2,
        gaussian g1 "sii6716" = Some a1 /\ gaussian g1 "sii6731" = Some b1
        /\ gaussian g2 "sii6716" = Some a2 /\ gaussian g2 "sii6731" = Some b2
        /\ mean b1 - mean a1 == 14.329
        /\ mean b2 - mean a2 == 14.379
        /\ ~ mean b1 - mean a1 == mean b2 - mean a2.
Proof.
  destruct (is_some
    (fit_sii_lines.fit_one_component
       (num := rational_numerics) (opt := recovering all_no_broad all_with_broad)
       sii_lam (ones sii_lam) (ones sii_lam) true)) as [[g1 r1] H1].
  { vm_compute. exact I. }
  destruct (is_some
    (fit_sii_lines.fit_two_components
       (num := rational_numerics) (opt := recovering all_no_broad all_with_broad)
       sii_lam (ones sii_lam) (ones sii_lam) true)) as [[g2 r2] H2].
  { vm_compute. exact I. }
  exists g1, r1, g2, r2. split; [exact H1|]. split; [exact H2|].
  exact (C6_sii_mean_offsets_differ _ _ _ _ _ _ _ _ _ _ _ _ H1 H2).
Defined.


(** ** One fitting iteration *)

Section OneIteration.
Context {num : Numerics} {opt : Optimizer} {su : SpecUtils} {fb : FindBestfit}.

(** What a call of [fit_spectra_iteration] that returns has computed. *)
Lemma fit_spectra_iteration_inv lam flam ivar n_sii n_oiii fit_cont fits rchi2s t_params
      lam_hb flam_hb ivar_hb lam_oiii flam_oiii ivar_oiii
      lam_nii_ha flam_nii_ha ivar_nii_ha lam_sii flam_sii ivar_sii :
  get_fit_window lam flam ivar "hb" = (lam_hb, flam_hb, ivar_hb) ->
  get_fit_window lam flam ivar "oiii" = (lam_oiii, flam_oiii, ivar_oiii) ->
  get_fit_window lam flam ivar "nii_ha" = (lam_nii_ha, flam_nii_ha, ivar_nii_ha) ->
  get_fit_window lam flam ivar "sii" = (lam_sii, flam_sii, ivar_sii) ->
  emfit.fit_spectra_iteration lam flam ivar n_sii n_oiii fit_cont
  = Some (fits, rchi2s, t_params) ->
  exists gfit_sii rchi2_sii sii_dof gfit_oiii rchi2_oiii oiii_dof hb nii_ha
         hb_params oiii_params nii_ha_params sii_params
         hb_cont oiii_cont nii_ha_cont sii_cont,
    emfit.sii_fit lam_sii flam_sii ivar_sii n_sii fit_cont
    = Some (gfit_sii, rchi2_sii, sii_dof)
    /\ emfit.oiii_fit lam_oiii flam_oiii ivar_oiii n_oiii fit_cont
       = Some (gfit_oiii, rchi2_oiii, oiii_dof)
    /\ find_hb_best_fit lam_hb flam_hb ivar_hb gfit_sii fit_cont = Some hb
    /\ find_nii_ha_best_fit lam_nii_ha flam_nii_ha ivar_nii_ha gfit_sii fit_cont
       = Some nii_ha
    /\ emp.get_parameters (gfit hb) emfit.hb_models = Some hb_params
    /\ emp.get_parameters gfit_oiii emfit.oiii_models = Some oiii_params
    /\ emp.get_parameters (gfit nii_ha) emfit.nii_ha_models = Some nii_ha_params
    /\ emp.get_parameters gfit_sii emfit.sii_models = Some sii_params
    /\ getitem (returned_model fit_cont "hb_cont" (gfit hb)) "hb_cont" = Some hb_cont
    /\ getitem (returned_model fit_cont "oiii_cont" gfit_oiii) "oiii_cont"
       = Some oiii_cont
    /\ getitem (returned_model fit_cont "nii_ha_cont" (gfit nii_ha)) "nii_ha_cont"
       = Some nii_ha_cont
    /\ getitem (returned_model fit_cont "sii_cont" gfit_sii) "sii_cont" = Some sii_cont
    /\ fits = [returned_model fit_cont "hb_cont" (gfit hb);
               returned_model fit_cont "oiii_cont" gfit_oiii;
               returned_model fit_cont "nii_ha_cont" (gfit nii_ha);
               returned_model fit_cont "sii_cont" gfit_sii]
    /\ rchi2s = [rchi2 hb; rchi2_oiii; rchi2 nii_ha; rchi2_sii]
    /\ t_params =
       dict.union
         (dict.union
            (dict.union
               (dict.setitem
                  (dict.setitem hb_params "hb_continuum" (amplitude_of hb_cont))
                  "hb_dof" (inject_Z (n_dof hb)))
               (dict.setitem
                  (dict.setitem oiii_params "oiii_continuum" (amplitude_of oiii_cont))
                  "oiii_dof" (inject_Z oiii_dof)))
            (dict.setitem
               (dict.setitem nii_ha_params "nii_ha_continuum"
                             (amplitude_of nii_ha_cont))
               "nii_ha_dof" (inject_Z (n_dof nii_ha))))
         (dict.setitem
            (dict.setitem sii_params "sii_continuum" (amplitude_of sii_cont))
            "sii_dof" (inject_Z sii_dof)).
Proof.
  intros Whb Woiii Wha Wsii H. unfold emfit.fit_spectra_iteration in H.
  rewrite Whb, Woiii, Wha, Wsii in H.
  apply bind_some in H as ([[gs rs] ds] & Hs & H).
  apply bind_some in H as ([[go ro] d_o] & Ho & H).
  apply bind_some in H as (hb & Hhb & H).
  apply bind_some in H as (ha & Hha & H).
  apply bind_some in H as (hbp & Hhbp & H).
  apply bind_some in H as (op & Hop & H).
  apply bind_some in H as (hap & Hhap & H).
  apply bind_some in H as (sp & Hsp & H).
  exists gs, rs, ds, go, ro, d_o, hb, ha, hbp, op, hap, sp.
  unfold returned_model.
  destruct fit_cont; cbn [negb] in H;
    apply bind_some in H as (c1 & Hc1 & H);
    apply bind_some in H as (c2 & Hc2 & H);
    apply bind_some in H as (c3 & Hc3 & H);
    apply bind_some in H as (c4 & Hc4 & H);
    injection H as <- <- <-;
    exists c1, c2, c3, c4; repeat split; assumption.
Qed.

Lemma NoDup_get_parameters gfit models params :
  emp.get_parameters gfit models = Some params -> NoDup (dict.keys params).
Proof.
  intros H. rewrite (get_parameters_keys _ _ _ H).
  assert (G : forall ms ks, NoDup ks -> NoDup (fold_left parameter_keys ms ks)).
  { induction ms as [|m ms IH]; intros ks Hk; simpl; [assumption|].
    apply IH. unfold parameter_keys. simpl. repeat apply NoDup_add_key. assumption. }
  apply G. constructor.
Qed.

Lemma sii_fit_inv lam_sii flam_sii ivar_sii n fit_cont g r d :
  emfit.sii_fit lam_sii flam_sii ivar_sii (Some n) fit_cont = Some (g, r, d) ->
  d = sii_dof_of n fit_cont
  /\ (if one_component n
      then fit_sii_lines.fit_one_component lam_sii flam_sii ivar_sii fit_cont
      else fit_sii_lines.fit_two_components lam_sii flam_sii ivar_sii fit_cont)
     = Some (g, r)
  /\ r = mfit.calculate_red_chi2 flam_sii (evaluate g lam_sii) ivar_sii d.
Proof.
  unfold emfit.sii_fit, sii_dof_of, one_component. intros H.
  destruct ((n =? 2)%Z || (n =? 3)%Z).
  - apply bind_some in H as ([g' r'] & Hf & H). injection H as <- <- <-.
    split; [reflexivity|]. split; [assumption|].
    unfold fit_sii_lines.fit_one_component in Hf. inv_bind Hf.
    destruct fit_cont; inv_bind Hf; injection Hf as <- <-; reflexivity.
  - destruct ((n =? 4)%Z || (n =? 5)%Z); [|discriminate].
    apply bind_some in H as ([g' r'] & Hf & H). injection H as <- <- <-.
    split; [reflexivity|]. split; [assumption|].
    unfold fit_sii_lines.fit_two_components in Hf. inv_bind Hf.
    destruct fit_cont; inv_bind Hf; injection Hf as <- <-; reflexivity.
Qed.

Lemma oiii_fit_inv lam_oiii flam_oiii ivar_oiii n fit_cont g r d :
  emfit.oiii_fit lam_oiii flam_oiii ivar_oiii (Some n) fit_cont = Some (g, r, d) ->
  d = oiii_dof_of n fit_cont
  /\ (if one_component n
      then fit_oiii_lines.fit_one_component lam_oiii flam_oiii ivar_oiii fit_cont
      else fit_oiii_lines.fit_two_components lam_oiii flam_oiii ivar_oiii fit_cont)
     = Some (g, r)
  /\ r = mfit.calculate_red_chi2 flam_oiii (evaluate g lam_oiii) ivar_oiii d.
Proof.
  unfold emfit.oiii_fit, oiii_dof_of, one_component. intros H.
  destruct ((n =? 2)%Z || (n =? 3)%Z).
  - apply bind_some in H as ([g' r'] & Hf & H). injection H as <- <- <-.
    split; [reflexivity|]. split; [assumption|].
    unfold fit_oiii_lines.fit_one_component in Hf. inv_bind Hf.
    destruct fit_cont; inv_bind Hf; injection Hf as <- <-; reflexivity.
  - destruct ((n =? 4)%Z || (n =? 5)%Z); [|discriminate].
    apply bind_some in H as ([g' r'] & Hf & H). injection H as <- <- <-.
    split; [reflexivity|]. split; [assumption|].
    unfold fit_oiii_lines.fit_two_components in Hf. inv_bind Hf.
    destruct fit_cont; inv_bind Hf; injection Hf as <- <-; reflexivity.
Qed.

(** C4.  The degrees of freedom [fit_spectra_iteration] attaches to the
    [SII] and the [OIII] fit are a function of the architecture (the number
    of submodels asked for) and of the continuum flag alone: 5 and 8 for a
    one- and a two-component [SII] fit with continuum, 4 for a one-component
    [OIII] fit with continuum, one less without continuum; and the reduced
    chi-square of each fit is [calculate_red_chi2] of the fitted model with
    that same number as [n_free_params]. *)
Theorem C4_dof_is_n_free_params lam flam ivar n_sii n_oiii fit_cont fits rchi2s t_params
      lam_oiii flam_oiii ivar_oiii lam_sii flam_sii ivar_sii :
  get_fit_window lam flam ivar "oiii" = (lam_oiii, flam_oiii, ivar_oiii) ->
  get_fit_window lam flam ivar "sii" = (lam_sii, flam_sii, ivar_sii) ->
  emfit.fit_spectra_iteration lam flam ivar (Some n_sii) (Some n_oiii) fit_cont
  = Some (fits, rchi2s, t_params) ->
  sii_dof_of 3 true = 5%Z /\ sii_dof_of 5 true = 8%Z /\ oiii_dof_of 3 true = 4%Z
  /\ dict.getitem t_params "sii_dof" = Some (inject_Z (sii_dof_of n_sii fit_cont))
  /\ dict.getitem t_params "oiii_dof" = Some (inject_Z (oiii_dof_of n_oiii fit_cont))
  /\ exists gfit_sii gfit_oiii,
      nth_error fits 3 = Some (returned_model fit_cont "sii_cont" gfit_sii)
      /\ nth_error fits 1 = Some (returned_model fit_cont "oiii_cont" gfit_oiii)
      /\ nth_error rchi2s 3
         = Some (mfit.calculate_red_chi2 flam_sii (evaluate gfit_sii lam_sii) ivar_sii
                                         (sii_dof_of n_sii fit_cont))
      /\ nth_error rchi2s 1
         = Some (mfit.calculate_red_chi2 flam_oiii (evaluate gfit_oiii lam_oiii)
                                         ivar_oiii (oiii_dof_of n_oiii fit_cont)).
Proof.
  intros Woiii Wsii H.
  destruct (get_fit_window lam flam ivar "hb") as [[lam_hb flam_hb] ivar_hb] eqn:Whb.
  destruct (get_fit_window lam flam ivar "nii_ha") as [[lam_ha flam_ha] ivar_ha] eqn:Wha.
  destruct (fit_spectra_iteration_inv _ _ _ _ _ _ _ _ _ _ _ _ _ _ _ _ _ _ _ _ _
              Whb Woiii Wha Wsii H)
    as (gs & rs & ds & go & ro & d_o & hb & ha & hbp & op & hap & sp
        & c1 & c2 & c3 & c4 & Hs & Ho & _ & _ & Hhbp & Hop & Hhap & Hsp
        & _ & _ & _ & _ & -> & -> & ->).
  destruct (sii_fit_inv _ _ _ _ _ _ _ _ Hs) as (-> & _ & Hrs).
  destruct (oiii_fit_inv _ _ _ _ _ _ _ _ Ho) as (-> & _ & Hro).
  pose proof (NoDup_get_parameters _ _ _ Hsp) as Nsp.
  pose proof (NoDup_get_parameters _ _ _ Hhap) as Nhap.
  pose proof (NoDup_get_parameters _ _ _ Hop) as Nop.
  pose proof (get_parameters_keys _ _ _ Hsp) as Ksp.
  pose proof (get_parameters_keys _ _ _ Hhap) as Khap.
  split; [reflexivity|]. split; [reflexivity|]. split; [reflexivity|].
  split; [|split].
  - rewrite getitem_union by (do 2 apply NoDup_setitem; assumption).
    rewrite getitem_setitem_same. reflexivity.
  - rewrite getitem_union by (do 2 apply NoDup_setitem; assumption).
    rewrite getitem_not_in.
    2:{ rewrite !keys_setitem, Ksp. vm_compute. intuition discriminate. }
    rewrite getitem_union by (do 2 apply NoDup_setitem; assumption).
    rewrite getitem_not_in.
    2:{ rewrite !keys_setitem, Khap. vm_compute. intuition discriminate. }
    rewrite getitem_union by (do 2 apply NoDup_setitem; assumption).
    rewrite getitem_setitem_same. reflexivity.
  - exists gs, go. cbn [nth_error]. rewrite <- Hrs, <- Hro. repeat split.
Qed.

End OneIteration.


(** ** Aggregation over iterations *)

Section Aggregation.
Context {num : Numerics}.

Lemma finite_values_where_not (f : Iteration -> Q) rows :
  nan.finite_values
    (nan.where_not (emp.positive (map it_amplitude rows) (map it_mean rows)
                                 (map it_std rows))
                   (map f rows))
  = map f (filter is_positive rows).
Proof.
  unfold nan.where_not, emp.positive.
  induction rows as [|r rows IH]; [reflexivity|].
  cbn [map combine fst snd nan.finite_values filter].
  unfold is_positive at 1.
  destruct (Qgtb (it_amplitude r) 0 && Qgtb (it_mean r) 0 && Qgtb (it_std r) 0);
    cbn [nan.finite_values map]; rewrite IH; reflexivity.
Qed.

Lemma finite_values_square (a : list npfloat) :
  nan.finite_values (nan.square a) = map (fun q => q * q) (nan.finite_values a).
Proof.
  unfold nan.square. induction a as [|[q|] a IH]; cbn; [reflexivity| |assumption].
  rewrite IH. reflexivity.
Qed.

Lemma nanmean_average a : nan.nanmean a = average (nan.finite_values a).
Proof. unfold nan.nanmean, average. destruct (nan.finite_values a); reflexivity. Qed.

Lemma nanstd_scatter a : nan.nanstd a = scatter (nan.finite_values a).
Proof. unfold nan.nanstd, scatter. destruct (nan.finite_values a); reflexivity. Qed.

Lemma bestfit_of_all_zero rows :
  all_zero rows = true ->
  bestfit_of rows
  = emp.mkBestFit emp.zero emp.zero emp.zero emp.zero emp.zero emp.zero emp.zero
                  emp.zero emp.zero emp.zero emp.zero emp.zero emp.zero emp.zero.
Proof. unfold all_zero, bestfit_of, emp.bestfit_of_columns. intros ->. reflexivity. Qed.

Lemma bestfit_of_statistics rows :
  all_zero rows = false ->
  bestfit_of rows = statistics_over (filter is_positive rows).
Proof.
  unfold all_zero, bestfit_of, emp.bestfit_of_columns. intros ->.
  unfold statistics_over.
  rewrite !nanmean_average, !nanstd_scatter, finite_values_square,
    !finite_values_where_not, map_map.
  reflexivity.
Qed.

(** C7 (amended).  For one component: when the amplitude column, the mean
    column or the width column is within [1e-8] of zero in every iteration,
    [get_bestfit_parameters] emits zero for every mean and scatter; otherwise
    each of them is computed over the iterations whose amplitude, mean and
    width are all positive, and over those only (and is NaN when there is no
    such iteration). *)
Theorem C7_statistics_over_positive_iterations (rows : list Iteration) :
  (all_zero rows = true ->
   bestfit_of rows
   = emp.mkBestFit emp.zero emp.zero emp.zero emp.zero emp.zero emp.zero emp.zero
                   emp.zero emp.zero emp.zero emp.zero emp.zero emp.zero emp.zero)
  /\ (all_zero rows = false ->
      bestfit_of rows = statistics_over (filter is_positive rows)).
Proof. split; [apply bestfit_of_all_zero | apply bestfit_of_statistics]. Qed.

Lemma sum_repeat v n : np.sum (repeat v n) == inject_Z (Z.of_nat n) * v.
Proof.
  induction n as [|n IH].
  - simpl. ring.
  - cbn [repeat np.sum fold_right]. change (fold_right Qplus 0 (repeat v n))
      with (np.sum (repeat v n)). rewrite IH, Nat2Z.inj_succ. unfold Z.succ.
    rewrite inject_Z_plus. ring.
Qed.

Lemma mean_of_repeat v n : (0 < n)%nat -> nan.mean_of (repeat v n) == v.
Proof.
  intros Hn. unfold nan.mean_of. rewrite sum_repeat, repeat_length.
  field. intros H.
  assert (Hz : (0 < Z.of_nat n)%Z) by lia.
  assert (Hq : 0 < inject_Z (Z.of_nat n)).
  { rewrite <- (Zlt_Qlt 0). exact Hz. }
  rewrite H in Hq. apply (Qlt_irrefl _ Hq).
Qed.


Lemma average_repeat v n :
  (0 < n)%nat -> exists q, average (repeat v n) = Finite q /\ q == v.
Proof.
  intros Hn. destruct n as [|n]; [lia|].
  eexists. split; [reflexivity|]. apply (mean_of_repeat v (S n)). lia.
Qed.

Section Sqrt.
Hypothesis sqrt_compat : Proper (Qeq ==> Qeq) np_sqrt.
Hypothesis sqrt_square : forall x, 0 <= x -> np_sqrt (x * x) == x.

Lemma sqrt_zero x : x == 0 -> np_sqrt x == 0.
Proof.
  intros ->. assert (H : 0 == 0 * 0) by ring. rewrite H at 1.
  apply sqrt_square. apply Qle_refl.
Qed.

Lemma scatter_repeat v n :
  (0 < n)%nat -> exists q, scatter (repeat v n) = Finite q /\ q == 0.
Proof.
  intros Hn. destruct n as [|n]; [lia|].
  eexists. split; [reflexivity|].
  apply sqrt_zero.
  set (m := nan.mean_of (repeat v (S n))).
  assert (Hm : m == v) by (apply mean_of_repeat; lia).
  change (v :: repeat v n) with (repeat v (S n)).
  rewrite map_repeat, mean_of_repeat by lia.
  rewrite Hm. setoid_replace (v - v) with 0 by ring. reflexivity.
Qed.

End Sqrt.

End Aggregation.


Section Identical.
Context {num : Numerics}.
Hypothesis sqrt_compat : Proper (Qeq ==> Qeq) np_sqrt.
Hypothesis sqrt_square : forall x, 0 <= x -> np_sqrt (x * x) == x.

Lemma isclose0_false x : np.atol < x -> np.isclose0 x = false.
Proof.
  intros H. unfold np.isclose0.
  destruct (Qle_bool (Qabs (x - 0)) np.atol) eqn:E; [|reflexivity].
  apply Qle_bool_iff in E. exfalso.
  assert (Hx : 0 <= x - 0).
  { unfold np.atol in H. lra. }
  rewrite (Qabs_pos _ Hx) in E. lra.
Qed.

Lemma all_isclose0_repeat x n :
  (0 < n)%nat -> np.atol < x -> np.all_isclose0 (repeat x n) = false.
Proof.
  intros Hn Hx. destruct n as [|n]; [lia|].
  unfold np.all_isclose0. cbn [repeat forallb]. rewrite (isclose0_false _ Hx).
  reflexivity.
Qed.

Lemma filter_repeat_true {A} (f : A -> bool) x n :
  f x = true -> filter f (repeat x n) = repeat x n.
Proof. intros H. induction n; cbn; [reflexivity|]. rewrite H, IHn. reflexivity. Qed.


End Identical.


(** [rational_sqrt] respects equality of rationals and inverts squaring. *)
Lemma rational_sqrt_compat : Proper (Qeq ==> Qeq) rational_sqrt.
Proof.
  intros x y H. unfold rational_sqrt. rewrite (Qred_complete _ _ H). reflexivity.
Qed.

Lemma rational_sqrt_square x : 0 <= x -> rational_sqrt (x * x) == x.
Proof.
  intros Hx.
  assert (Hr : Qred x == x) by apply Qred_correct.
  destruct (Qred x) as [n d] eqn:E.
  assert (Hg : Z.gcd n (Zpos d) = 1%Z).
  { apply (Qred_identity2 (n # d)). rewrite <- E. apply Qred_involutive. }
  assert (Hn : (0 <= n)%Z).
  { rewrite <- Hr in Hx. unfold Qle in Hx. simpl in Hx. lia. }
  unfold rational_sqrt.
  assert (Hsq : Qred (x * x) = (n * n # d * d)).
  { rewrite (Qred_complete (x * x) ((n # d) * (n # d))).
    - apply Qred_identity. simpl. rewrite Pos2Z.inj_mul.
      apply Z.coprime_mul_l; apply Z.coprime_mul_r; exact Hg.
    - rewrite Hr. reflexivity. }
  rewrite Hsq. simpl.
  rewrite Z.sqrt_square by assumption.
  assert (Hp : Pos.sqrt (d * d) = d).
  { apply Pos2Z.inj. rewrite Pos2Z.inj_sqrt, Pos2Z.inj_mul. apply Z.sqrt_square. lia. }
  rewrite Hp. exact Hr.
Qed.



(** C7 as stated fails in both halves.  Two iterations of which none has
    amplitude, mean and width all positive, with no column close to zero
    throughout, give NaN, not zero; and iterations that are all positive with
    amplitudes within [1e-8] of zero give zero, not their mean. *)
Lemma C7_counterexample :
  let degenerate := [mkIteration 1 5000 0 0 0; mkIteration 0 5000 1 0 60] in
  let tiny := [mkIteration (5 # 1000000000) 5000 1 (1 # 100000000) 60;
               mkIteration (5 # 1000000000) 5000 1 (1 # 100000000) 60] in
  filter is_positive degenerate = []
  /\ emp.bf_amp (bestfit_of (num := rational_numerics) degenerate) = NaN
  /\ emp.bf_amp_err (bestfit_of (num := rational_numerics) degenerate) = NaN
  /\ filter is_positive tiny = tiny
  /\ emp.bf_amp (bestfit_of (num := rational_numerics) tiny) = Finite 0.
Proof. cbv zeta. repeat split; vm_compute; reflexivity. Qed.

(** ** The resampled iterations *)

Lemma column_length table name col :
  column table name = Some col -> List.length col = List.length table.
Proof.
  revert col. induction table as [|r table IH]; intros col H; simpl in H.
  - injection H as <-. reflexivity.
  - apply bind_some in H as (v & _ & H). apply bind_some in H as (vs & Hvs & H).
    injection H as <-. simpl. rewrite (IH _ Hvs). reflexivity.
Qed.

Section MonteCarlo.
Context {num : Numerics} {opt : Optimizer} {su : SpecUtils} {fb : FindBestfit}
        {rnd : Random}.

(** Every pass of the loop appends the table of one fit of a resampled
    spectrum, made with the architectures handed over. *)
Lemma iterations_spec n lam_rest flam_rest ivar_rest err_rest res_matrix n_sii n_oiii
      fit_cont s tables tables' s' :
  emfit.iterations n lam_rest flam_rest ivar_rest err_rest res_matrix n_sii n_oiii
                   fit_cont s tables = Some (tables', s') ->
  exists new,
    tables' = tables ++ new
    /\ List.length new = n
    /\ Forall (fun row =>
                 exists flam_new fits rchi2s,
                   emfit.fit_spectra_iteration lam_rest flam_new ivar_rest
                     (Some n_sii) (Some n_oiii) fit_cont = Some (fits, rchi2s, row))
              new.
Proof.
  revert s tables. induction n as [|n IH]; intros s tables H; simpl in H.
  - injection H as <- <-. exists []. rewrite app_nil_r. repeat split. constructor.
  - destruct (emfit.gauss 0 err_rest s) as [noise s1].
    apply bind_some in H as ([[fits rchi2s] row] & Hit & H).
    destruct (IH _ _ H) as (new & -> & Hlen & Hall).
    exists (row :: new). rewrite <- app_assoc. simpl. repeat split.
    + rewrite Hlen. reflexivity.
    + constructor; [eauto | assumption].
Qed.


End MonteCarlo.



(** A seven-pixel spectrum fitted with one-component [SII] and [OIII] models
    and a continuum. *)
Lemma C4_dof_is_n_free_params_witness :
  exists t_params,
    dict.getitem t_params "sii_dof" = Some (inject_Z 5)
    /\ dict.getitem t_params "oiii_dof" = Some (inject_Z 4).
Proof.
  destruct (is_some
    (emfit.fit_spectra_iteration
       (num := rational_numerics) (opt := recovering all_no_broad all_with_broad)
       (su := spectrum_source small_lam small_flam (ones small_lam))
       (fb := selectors (num := rational_numerics)
                        (opt := recovering all_no_broad all_with_broad) Free)
       small_lam small_flam (ones small_lam) (Some 3%Z) (Some 3%Z) true))
    as [[[fits rchi2s] t_params] H].
  { vm_compute. exact I. }
  exists t_params.
  destruct (C4_dof_is_n_free_params
              (num := rational_numerics) (opt := recovering all_no_broad all_with_broad)
              (su := spectrum_source small_lam small_flam (ones small_lam))
              (fb := selectors (num := rational_numerics)
                               (opt := recovering all_no_broad all_with_broad) Free)
              small_lam small_flam (ones small_lam) 3%Z 3%Z true fits rchi2s t_params
              _ _ _ _ _ _ eq_refl eq_refl H)
    as (_ & _ & _ & Hsii & Hoiii & _).
  split; assumption.
Defined.

(** Three iterations of which the second has no such component. *)
Lemma C7_statistics_over_positive_iterations_witness :
  bestfit_of (num := rational_numerics)
    [mkIteration 2 5000 1 5 60; mkIteration 0 0 0 0 0; mkIteration 4 5000 1 10 60]
  = statistics_over (num := rational_numerics)
      [mkIteration 2 5000 1 5 60; mkIteration 4 5000 1 10 60].
Proof.
  apply (proj2 (C7_statistics_over_positive_iterations (num := rational_numerics)
    [mkIteration 2 5000 1 5 60; mkIteration 0 0 0 0 0; mkIteration 4 5000 1 10 60])).
  vm_compute. reflexivity.
Defined.



(** ** Kinematic ties and bounds of the doublet fits *)

Lemma clip_lower lo v : lo <= clip (lower lo) v.
Proof. unfold clip, lower. simpl. apply Q.le_max_r. Qed.

Section Kinematics.
Context {num : Numerics} {opt : Optimizer}.

(** X1.  In both [SII] fits the two lines of the doublet have the same width in
    velocity: [stddev(sii6731) / mean(sii6731) = stddev(sii6716) / mean(sii6716)],
    and so have the two outflow lines of the two-component fit, whose
    amplitude ratio is moreover that of the narrow lines. *)
Theorem sii_kinematic_ties lam flam ivar fit_cont :
  (forall g r,
      fit_sii_lines.fit_one_component lam flam ivar fit_cont = Some (g, r) ->
      exists a b,
        gaussian g "sii6716" = Some a /\ gaussian g "sii6731" = Some b
        /\ (~ mean a == 0 -> stddev b * mean a == stddev a * mean b))
  /\ (forall g r,
         fit_sii_lines.fit_two_components lam flam ivar fit_cont = Some (g, r) ->
         exists a b ao bo,
           gaussian g "sii6716" = Some a /\ gaussian g "sii6731" = Some b
           /\ gaussian g "sii6716_out" = Some ao
           /\ gaussian g "sii6731_out" = Some bo
           /\ (~ mean a == 0 -> stddev b * mean a == stddev a * mean b)
           /\ (~ mean ao == 0 -> stddev bo * mean ao == stddev ao * mean bo)
           /\ (~ amplitude a == 0 ->
               amplitude bo * amplitude a == amplitude b * amplitude ao)).
Proof.
  split; intros g r H.
  - unfold fit_sii_lines.fit_one_component in H. inv_bind H.
    destruct fit_cont; inv_bind H; injection H as <- <-; run_fits; subst;
      do 2 eexists; (split; [reflexivity|]); (split; [reflexivity|]);
      cbn [stddev mean]; intros Hm; field; exact Hm.
  - unfold fit_sii_lines.fit_two_components in H. inv_bind H.
    destruct fit_cont; inv_bind H; injection H as <- <-; run_fits; subst;
      do 4 eexists; do 4 (split; [reflexivity|]);
      cbn [stddev mean amplitude]; repeat split; intros Hm; field; exact Hm.
Qed.

(** X2.  In both [OIII] fits the two lines of the doublet, and the two outflow
    lines of the two-component fit, have the same width in velocity. *)
Theorem oiii_widths_tied lam flam ivar fit_cont :
  (forall g r,
      fit_oiii_lines.fit_one_component lam flam ivar fit_cont = Some (g, r) ->
      exists a b,
        gaussian g "oiii4959" = Some a /\ gaussian g "oiii5007" = Some b
        /\ (~ mean a == 0 -> stddev b * mean a == stddev a * mean b))
  /\ (forall g r,
         fit_oiii_lines.fit_two_components lam flam ivar fit_cont = Some (g, r) ->
         exists a b ao bo,
           gaussian g "oiii4959" = Some a /\ gaussian g "oiii5007" = Some b
           /\ gaussian g "oiii4959_out" = Some ao
           /\ gaussian g "oiii5007_out" = Some bo
           /\ (~ mean a == 0 -> stddev b * mean a == stddev a * mean b)
           /\ (~ mean ao == 0 -> stddev bo * mean ao == stddev ao * mean bo)).
Proof.
  split; intros g r H.
  - unfold fit_oiii_lines.fit_one_component in H. inv_bind H.
    destruct fit_cont; inv_bind H; injection H as <- <-; run_fits; subst;
      do 2 eexists; (split; [reflexivity|]); (split; [reflexivity|]);
      cbn [stddev mean]; intros Hm; field; exact Hm.
  - unfold fit_oiii_lines.fit_two_components in H. inv_bind H.
    destruct fit_cont; inv_bind H; injection H as <- <-; run_fits; subst;
      do 4 eexists; do 4 (split; [reflexivity|]);
      cbn [stddev mean amplitude]; repeat split; intros Hm; field; exact Hm.
Qed.

(** X3.  The bounds given to the free parameters hold in every model the doublet
    fits return: amplitudes are not negative, the narrow widths are at least
    0.8 A ([SII]) and 0.6 A ([OIII]), the outflow widths at least 1.6 A and
    1.2 A. *)
Theorem doublet_bounds_respected lam flam ivar fit_cont :
  (forall g r,
      fit_sii_lines.fit_one_component lam flam ivar fit_cont = Some (g, r) ->
      exists a b,
        gaussian g "sii6716" = Some a /\ gaussian g "sii6731" = Some b
        /\ 0 <= amplitude a /\ 0 <= amplitude b /\ 0.8 <= stddev a)
  /\ (forall g r,
         fit_sii_lines.fit_two_components lam flam ivar fit_cont = Some (g, r) ->
         exists a b ao,
           gaussian g "sii6716" = Some a /\ gaussian g "sii6731" = Some b
           /\ gaussian g "sii6716_out" = Some ao
           /\ 0 <= amplitude a /\ 0 <= amplitude b /\ 0 <= amplitude ao
           /\ 0.8 <= stddev a /\ 1.6 <= stddev ao)
  /\ (forall g r,
         fit_oiii_lines.fit_one_component lam flam ivar fit_cont = Some (g, r) ->
         exists a b,
           gaussian g "oiii4959" = Some a /\ gaussian g "oiii5007" = Some b
           /\ 0 <= amplitude a /\ 0 <= amplitude b /\ 0.6 <= stddev a)
  /\ (forall g r,
         fit_oiii_lines.fit_two_components lam flam ivar fit_cont = Some (g, r) ->
         exists a b ao bo,
           gaussian g "oiii4959" = Some a /\ gaussian g "oiii5007" = Some b
           /\ gaussian g "oiii4959_out" = Some ao
           /\ gaussian g "oiii5007_out" = Some bo
           /\ 0 <= amplitude a /\ 0 <= amplitude b
           /\ 0 <= amplitude ao /\ 0 <= amplitude bo
           /\ 0.6 <= stddev a /\ 1.2 <= stddev ao).
Proof.
  assert (Hc : forall lo v, lo <= clip (lower lo) v) by apply clip_lower.
  assert (Hs : forall x, 0 <= x -> 0 <= x * 2.98).
  { intros x Hx. apply Qmult_le_0_compat; [assumption | discriminate]. }
  split; [|split; [|split]]; intros g r H.
  - unfold fit_sii_lines.fit_one_component in H. inv_bind H.
    destruct fit_cont; inv_bind H; injection H as <- <-; run_fits; subst;
      do 2 eexists; (split; [reflexivity|]); (split; [reflexivity|]);
      cbn [stddev mean amplitude]; repeat split; apply Hc.
  - unfold fit_sii_lines.fit_two_components in H. inv_bind H.
    destruct fit_cont; inv_bind H; injection H as <- <-; run_fits; subst;
      do 3 eexists; do 3 (split; [reflexivity|]);
      cbn [stddev mean amplitude]; repeat split; apply Hc.
  - unfold fit_oiii_lines.fit_one_component in H. inv_bind H.
    destruct fit_cont; inv_bind H; injection H as <- <-; run_fits; subst;
      do 2 eexists; (split; [reflexivity|]); (split; [reflexivity|]);
      cbn [stddev mean amplitude]; repeat split;
      first [apply Hc | apply Hs; apply Hc].
  - unfold fit_oiii_lines.fit_two_components in H. inv_bind H.
    destruct fit_cont; inv_bind H; injection H as <- <-; run_fits; subst;
      do 4 eexists; do 4 (split; [reflexivity|]);
      cbn [stddev mean amplitude]; repeat split;
      first [apply Hc | apply Hs; apply Hc].
Qed.

End Kinematics.


(** ** Flags and degrees of freedom of the Hbeta and [NII]+Halpha results *)

Lemma Sorted_insert_sorted x l : Sorted Z.le l -> Sorted Z.le (insert_sorted x l).
Proof.
  induction 1 as [|y l Hl IH Hy]; simpl.
  - repeat constructor.
  - destruct (x <=? y)%Z eqn:E.
    + apply Z.leb_le in E. repeat constructor; assumption.
    + apply Z.leb_gt in E. constructor; [assumption|].
      destruct Hy as [|z l' Hz]; simpl.
      * constructor. lia.
      * destruct (x <=? z)%Z; constructor; [lia | assumption].
Qed.

Lemma Sorted_np_sort l : Sorted Z.le (np_sort l).
Proof.
  induction l as [|x l IH]; simpl; [constructor | apply Sorted_insert_sorted, IH].
Qed.

Section Results.
Context {num : Numerics} {opt : Optimizer}.

(** Whenever the two fits are made the function goes on to its candidates:
    the exchange, where there is one, cannot fail, keeps both reduced
    chi-squares and the no-broad model, and records flag 6 at most. *)
Lemma candidates_of_fitted e lam flam ivar sii frac fit_cont c0 :
  fitted e lam flam ivar sii frac fit_cont = Some c0 ->
  exists c,
    candidates e lam flam ivar sii frac fit_cont = Some c
    /\ gfit_no_broad c = gfit_no_broad c0
    /\ rchi2_no_broad c = rchi2_no_broad c0
    /\ rchi2_broad c = rchi2_broad c0
    /\ (flags0 c = [] /\ c = c0
        \/ flags0 c = [6%Z] /\ width e = Free /\ arch e = Two
           /\ submodel_names (gfit_broad c)
              = [narrow_name (line e); outflow_name (line e); broad_name (line e)]).
Proof.
  intros Hfit.
  destruct (fitted_well_formed _ _ _ _ _ _ _ _ Hfit)
    as (((sn & Hn) & (sb & Hb) & Hhb & Hhn) & Hfl & Hout).
  unfold candidates. rewrite Hfit. cbn [bind].
  destruct e as [l w a].
  assert (Hsame : w = Fixed \/ a = One ->
                  match l, w, a with
                  | Hb, Free, Two => fit_hb_line.exchange c0
                  | Ha, Free, Two => fit_nii_ha_lines.exchange c0
                  | _, _, _ => Some c0
                  end = Some c0).
  { intros [-> | ->]; destruct l; try destruct w; try destruct a; reflexivity. }
  cbn [line width arch] in *.
  destruct w; [destruct a|];
    try (rewrite Hsame by tauto; exists c0; repeat split; left; split;
         [assumption | reflexivity]).
  clear Hsame.
  destruct (Hout eq_refl) as (so & Ho).
  destruct (exchange_spec _ _ _ _ _ Hn Hb Ho)
    as (c & Hex & Hnb & Hrnb & Hrb & Hn' & Hcase).
  exists c. split; [destruct l; exact Hex|].
  split; [assumption|]. split; [assumption|]. split; [assumption|].
  destruct Hcase as [(Hlt & Hf6 & _) | (_ & ->)].
  - right. rewrite Hf6, Hfl. split; [reflexivity|]. split; [reflexivity|].
    split; [reflexivity|].
    destruct (sigma_of_gaussian _ _ _ Hn) as (gn & Hgn & _).
    destruct (sigma_of_gaussian _ _ _ Hb) as (gb & Hgb & _).
    destruct (sigma_of_gaussian _ _ _ Ho) as (go & Hgo & _).
    apply Qltb_spec in Hlt.
    destruct l; cbn [exchange_of narrow_name broad_name outflow_name] in *;
      unfold fit_hb_line.exchange, fit_nii_ha_lines.exchange in Hex;
      rewrite Hb, Ho in Hex; cbn [bind] in Hex; rewrite Hlt in Hex;
      rewrite Hgn, Hgb, Hgo in Hex; cbn [bind] in Hex;
      injection Hex as <-; reflexivity.
  - left. split; [assumption | reflexivity].
Qed.

(** X7.  The flag bits of a result record each test on its own, whatever the
    decision: the bit of the function (0 to 3), bit 4 for an improvement of
    the reduced chi-square by 20%, bit 5 for a broad component narrower than
    the narrow one, bit 9 (Hbeta) or 10 (Halpha) for a narrow component
    below 40 km/s, and bit 6 after an exchange; they come in increasing
    order. *)
Theorem flags_record_each_test e lam flam ivar sii frac fit_cont c :
  candidates e lam flam ivar sii frac fit_cont = Some c ->
  exists sig_n sig_b r,
    sigma_of (gfit_broad c) (narrow_name (line e)) = Some sig_n
    /\ sigma_of (gfit_broad c) (broad_name (line e)) = Some sig_b
    /\ fit_entry e lam flam ivar sii frac fit_cont = Some r
    /\ In (entry_flag e) (flag_bits r)
    /\ (In 4%Z (flag_bits r) <-> improves_by_20_percent c)
    /\ (In 5%Z (flag_bits r) <-> sig_b < sig_n)
    /\ (In (narrow_flag (line e)) (flag_bits r) <-> sig_n < 40)
    /\ (In 6%Z (flag_bits r) <-> flags0 c = [6%Z])
    /\ (forall b, In b (flag_bits r) ->
                  In b [entry_flag e; 4; 5; 6; narrow_flag (line e)]%Z)
    /\ Sorted Z.le (flag_bits r).
Proof.
  intros H.
  destruct (candidates_well_formed _ _ _ _ _ _ _ _ H)
    as ((sn & Hn) & (sb & Hb) & _ & _).
  destruct (candidates_exchange _ _ _ _ _ _ _ _ H) as (c0 & Hfit & _).
  destruct (candidates_of_fitted _ _ _ _ _ _ _ _ Hfit) as (c' & Hc' & _ & _ & _ & Hfl).
  rewrite H in Hc'. injection Hc' as <-.
  assert (Hfl' : flags0 c = [] \/ flags0 c = [6%Z]) by (destruct Hfl; intuition).
  exists sn, sb, (decide e fit_cont c sn sb).
  split; [assumption|]. split; [assumption|].
  split; [apply fit_entry_decides; assumption|].
  rewrite flag_bits_decide. unfold flags_of.
  split; [|split; [|split; [|split; [|split; [|split]]]]].
  - rewrite In_np_sort, !In_append_if, in_app_iff. simpl. intuition.
  - rewrite In_np_sort, !In_append_if, in_app_iff, <- improves_spec. simpl.
    unfold entry_flag, narrow_flag.
    destruct Hfl' as [-> | ->], (width e), (arch e), (line e); simpl;
      intuition (try discriminate).
  - rewrite In_np_sort, !In_append_if, in_app_iff, <- Qltb_spec. simpl.
    unfold entry_flag, narrow_flag.
    destruct Hfl' as [-> | ->], (width e), (arch e), (line e); simpl;
      intuition (try discriminate).
  - rewrite In_np_sort, !In_append_if, in_app_iff, <- Qltb_spec. simpl.
    unfold entry_flag, narrow_flag.
    destruct Hfl' as [-> | ->], (width e), (arch e), (line e); simpl;
      intuition (try discriminate).
  - rewrite In_np_sort, !In_append_if, in_app_iff. simpl.
    unfold entry_flag, narrow_flag.
    destruct Hfl' as [-> | ->], (width e), (arch e), (line e); simpl;
      intuition (try discriminate).
  - intros b. rewrite In_np_sort, !In_append_if, in_app_iff. simpl.
    destruct Hfl' as [-> | ->]; simpl; intuition.
  - apply Sorted_np_sort.
Qed.

(** X8.  The number of degrees of freedom a function returns is the number of free
    parameters with which the reduced chi-square it returns was computed:
    that of the no-broad fit, or three more for the with-broad fit; a fitted
    continuum counts for one. *)
Theorem dof_counts_free_parameters e lam flam ivar sii frac fit_cont c0 :
  fitted e lam flam ivar sii frac fit_cont = Some c0 ->
  rchi2_no_broad c0
  = mfit.calculate_red_chi2 flam (evaluate (gfit_no_broad c0) lam) ivar
                            (dof_no_broad e fit_cont)
  /\ rchi2_broad c0
     = mfit.calculate_red_chi2 flam (evaluate (gfit_broad c0) lam) ivar
                               (dof_no_broad e fit_cont + 3)
  /\ dof_no_broad e true = (dof_no_broad e false + 1)%Z
  /\ exists r,
      fit_entry e lam flam ivar sii frac fit_cont = Some r
      /\ (rchi2 r = rchi2_broad c0 /\ n_dof r = (dof_no_broad e fit_cont + 3)%Z
          /\ has_component (gfit r) (broad_name (line e)) = true
          \/ rchi2 r = rchi2_no_broad c0 /\ n_dof r = dof_no_broad e fit_cont
             /\ gfit r = gfit_no_broad c0
             /\ has_component (gfit r) (broad_name (line e)) = false).
Proof.
  intros Hfit.
  split; [|split; [|split]].
  - destruct e as [[] [] []];
      cbn [line width arch fitted] in Hfit;
      unfold fit_hb_line.free_one_fits, fit_hb_line.free_two_fits,
        fit_hb_line.fixed_one_fits, fit_hb_line.fixed_two_fits,
        fit_nii_ha_lines.free_ha_one_fits, fit_nii_ha_lines.free_ha_two_fits,
        fit_nii_ha_lines.fixed_one_fits, fit_nii_ha_lines.fixed_two_fits in Hfit;
      inv_bind Hfit; destruct fit_cont; inv_bind Hfit; injection Hfit as <-;
      reflexivity.
  - destruct e as [[] [] []];
      cbn [line width arch fitted] in Hfit;
      unfold fit_hb_line.free_one_fits, fit_hb_line.free_two_fits,
        fit_hb_line.fixed_one_fits, fit_hb_line.fixed_two_fits,
        fit_nii_ha_lines.free_ha_one_fits, fit_nii_ha_lines.free_ha_two_fits,
        fit_nii_ha_lines.fixed_one_fits, fit_nii_ha_lines.fixed_two_fits in Hfit;
      inv_bind Hfit; destruct fit_cont; inv_bind Hfit; injection Hfit as <-;
      reflexivity.
  - destruct e as [[] [] []]; reflexivity.
  - destruct (candidates_of_fitted _ _ _ _ _ _ _ _ Hfit)
      as (c & Hc & Hnb & Hrnb & Hrb & _).
    destruct (candidates_well_formed _ _ _ _ _ _ _ _ Hc)
      as ((sn & Hn) & (sb & Hb) & Hhb & Hhn).
    exists (decide e fit_cont c sn sb).
    split; [apply fit_entry_decides; assumption|].
    unfold decide. destruct (acceptb _ _ _ _ _); cbn [rchi2 n_dof gfit].
    + left. repeat split; assumption.
    + right. repeat split; assumption.
Qed.

End Results.


(** ** Ties to the [NII] doublet and to the [SII] template *)

Ltac unfold_fits H :=
  unfold fit_hb_line.free_one_fits, fit_hb_line.free_two_fits,
    fit_hb_line.fixed_one_fits, fit_hb_line.fixed_two_fits,
    fit_nii_ha_lines.free_ha_one_fits, fit_nii_ha_lines.free_ha_two_fits,
    fit_nii_ha_lines.fixed_one_fits, fit_nii_ha_lines.fixed_two_fits,
    fit_nii_ha_lines.tie_std_to, fit_nii_ha_lines.tie_mean_nii,
    fit_nii_ha_lines.tie_amp_nii, fit_nii_ha_lines.tie_mean_nii_out,
    fit_nii_ha_lines.tie_amp_nii_out in H.

Section Templates.
Context {num : Numerics} {opt : Optimizer}.

(** X4.  In both fits of each of the four [NII]+Halpha functions the [NII]
    doublet keeps its ties: [amplitude(nii6583) = 2.96 amplitude(nii6548)],
    [mean(nii6583) - mean(nii6548) = 35.425], and both lines have the width
    of [SII]6716 in velocity; with an outflow component the outflow pair
    keeps the same ties, with the width of the [SII]6716 outflow. *)
Theorem nii_ties_hold w a lam flam ivar sii frac fit_cont c t m :
  fitted (mkEntry Ha w a) lam flam ivar sii frac fit_cont = Some c ->
  gaussian sii "sii6716" = Some t ->
  m = gfit_no_broad c \/ m = gfit_broad c ->
  (exists n1 n2,
      gaussian m "nii6548" = Some n1 /\ gaussian m "nii6583" = Some n2
      /\ amplitude n2 == 2.96 * amplitude n1
      /\ mean n2 - mean n1 == 35.425
      /\ (~ mean t == 0 ->
          stddev n1 * mean t == mean n1 * stddev t
          /\ stddev n2 * mean t == mean n2 * stddev t))
  /\ (a = Two ->
      forall t_out, gaussian sii "sii6716_out" = Some t_out ->
      exists o1 o2,
        gaussian m "nii6548_out" = Some o1 /\ gaussian m "nii6583_out" = Some o2
        /\ amplitude o2 == 2.96 * amplitude o1
        /\ mean o2 - mean o1 == 35.425
        /\ (~ mean t_out == 0 ->
            stddev o1 * mean t_out == mean o1 * stddev t_out
            /\ stddev o2 * mean t_out == mean o2 * stddev t_out)).
Proof.
  intros Hfit Ht Hm.
  destruct w, a; cbn [fitted line width arch] in Hfit; unfold_fits Hfit;
    inv_bind Hfit; destruct fit_cont; inv_bind Hfit; injection Hfit as <-;
    run_fits; subst;
    repeat match goal with
           | E : gaussian sii _ = Some ?x |- _ =>
               match goal with
               | Ht : gaussian sii "sii6716" = Some t |- _ =>
                   rewrite Ht in E; injection E as E; try subst x
               end
           end;
    cbn [gfit_no_broad gfit_broad] in Hm; destruct Hm as [-> | ->];
    (split;
     [ do 2 eexists; (split; [reflexivity|]); (split; [reflexivity|]);
       cbn [amplitude mean stddev]; split; [ring|]; split; [ring|];
       intros Hne; split; field; exact Hne
     | first [ discriminate
             | intros _ t_out Hto;
               repeat match goal with
                      | E : gaussian sii "sii6716_out" = Some ?x |- _ =>
                          lazymatch x with
                          | t_out => fail
                          | _ => rewrite Hto in E; injection E as E; try subst x
                          end
                      end;
               do 2 eexists; (split; [reflexivity|]); (split; [reflexivity|]);
               cbn [amplitude mean stddev]; split; [ring|]; split; [ring|];
               intros Hne; split; field; exact Hne ] ]).
Qed.

End Templates.


Lemma clip_between lo hi v :
  clip (Some lo, Some hi) v <= hi /\ (lo <= hi -> lo <= clip (Some lo, Some hi) v).
Proof.
  unfold clip. simpl. split.
  - apply Q.le_min_r.
  - intros H. apply Q.min_glb; [apply Q.le_max_r | assumption].
Qed.

Section Widths.
Context {num : Numerics} {opt : Optimizer}.

(** X5.  In the fixed-width functions the narrow Hbeta or Halpha component has,
    in both fits, the width of [SII]6716 in velocity,
    [stddev / mean = stddev(sii6716) / mean(sii6716)], and with an outflow
    component the outflow has the width of the [SII]6716 outflow. *)
Theorem fixed_widths_follow_sii l a lam flam ivar sii frac fit_cont c t m :
  fitted (mkEntry l Fixed a) lam flam ivar sii frac fit_cont = Some c ->
  gaussian sii "sii6716" = Some t ->
  m = gfit_no_broad c \/ m = gfit_broad c ->
  (exists n,
      gaussian m (narrow_name l) = Some n
      /\ (~ mean t == 0 -> stddev n * mean t == mean n * stddev t))
  /\ (a = Two ->
      forall t_out, gaussian sii "sii6716_out" = Some t_out ->
      exists o,
        gaussian m (outflow_name l) = Some o
        /\ (~ mean t_out == 0 -> stddev o * mean t_out == mean o * stddev t_out)).
Proof.
  intros Hfit Ht Hm.
  destruct l, a; cbn [fitted line width arch narrow_name outflow_name] in *;
    unfold_fits Hfit;
    inv_bind Hfit; destruct fit_cont; inv_bind Hfit; injection Hfit as <-;
    run_fits; subst;
    repeat match goal with
           | E : gaussian sii _ = Some ?x |- _ =>
               match goal with
               | Ht : gaussian sii "sii6716" = Some t |- _ =>
                   rewrite Ht in E; injection E as E; try subst x
               end
           end;
    cbn [gfit_no_broad gfit_broad] in Hm; destruct Hm as [-> | ->];
    (split;
     [ eexists; (split; [reflexivity|]);
       cbn [amplitude mean stddev]; intros Hne; field; exact Hne
     | first [ discriminate
             | intros _ t_out Hto;
               repeat match goal with
                      | E : gaussian sii "sii6716_out" = Some ?x |- _ =>
                          lazymatch x with
                          | t_out => fail
                          | _ => rewrite Hto in E; injection E as E; try subst x
                          end
                      end;
               eexists; (split; [reflexivity|]);
               cbn [amplitude mean stddev]; intros Hne; field; exact Hne ] ]).
Qed.

(** X6.  In the free-width functions the width of the narrow Hbeta or Halpha
    component stays, in both fits, within [frac_temp] percent of the width of
    [SII]6716 in velocity, taken at the rest wavelength of the line. *)
Theorem free_width_within_template l a lam flam ivar sii frac fit_cont c t m :
  fitted (mkEntry l Free a) lam flam ivar sii frac fit_cont = Some c ->
  gaussian sii "sii6716" = Some t ->
  m = gfit_no_broad c \/ m = gfit_broad c ->
  let lam0 := match l with Hb => 4862.683 | Ha => 6564.312 end in
  let temp_std_kms := mfit.lamspace_to_velspace (stddev t) (mean t) in
  let min_std :=
    mfit.velspace_to_lamspace (temp_std_kms - (frac / 100) * temp_std_kms) lam0 in
  let max_std :=
    mfit.velspace_to_lamspace (temp_std_kms + (frac / 100) * temp_std_kms) lam0 in
  exists n,
    gaussian m (narrow_name l) = Some n
    /\ stddev n <= max_std
    /\ (min_std <= max_std -> min_std <= stddev n).
Proof.
  intros Hfit Ht Hm.
  destruct l, a; cbn [fitted line width arch narrow_name outflow_name] in *;
    unfold_fits Hfit;
    inv_bind Hfit; destruct fit_cont; inv_bind Hfit; injection Hfit as <-;
    run_fits; subst;
    repeat match goal with
           | E : gaussian sii _ = Some ?x |- _ =>
               match goal with
               | Ht : gaussian sii "sii6716" = Some t |- _ =>
                   rewrite Ht in E; injection E as E; try subst x
               end
           end;
    cbn [gfit_no_broad gfit_broad] in Hm; destruct Hm as [-> | ->];
    cbv zeta; eexists; (split; [reflexivity|]); cbn [stddev];
    apply clip_between.
Qed.

End Widths.


(** ** The dictionary of [get_parameters] *)

Section ParameterEntries.
Context {num : Numerics}.

Lemma get_parameters_step_other gfit params model params' k :
  emp.get_parameters_step gfit params model = Some params' ->
  ~ In k (entry_keys model) ->
  dict.getitem params' k = dict.getitem params k.
Proof.
  unfold emp.get_parameters_step, entry_keys. intros H Hk.
  assert (Hne : forall s, In (fstr model s)
                  [fstr model "_amplitude"; fstr model "_mean"; fstr model "_std";
                   fstr model "_sigma"; fstr model "_flux"] -> fstr model s <> k).
  { intros s Hin E. apply Hk. rewrite <- E. exact Hin. }
  apply bind_some in H as (present & _ & H). destruct present.
  - apply bind_some in H as (g & _ & H). injection H as <-.
    rewrite !getitem_setitem_other by (apply Hne; simpl; tauto). reflexivity.
  - injection H as <-.
    rewrite !getitem_setitem_other by (apply Hne; simpl; tauto). reflexivity.
Qed.

Lemma get_parameters_step_own gfit params model params' :
  (1 < n_submodels gfit)%Z ->
  NoDup (entry_keys model) ->
  emp.get_parameters_step gfit params model = Some params' ->
  map (dict.getitem params') (entry_keys model)
  = map Some (entry_values (reported gfit model)).
Proof.
  unfold emp.get_parameters_step, entry_keys, reported. intros Hn Hnd H.
  assert (Hgt : (n_submodels gfit >? 1)%Z = true) by (apply Z.gtb_lt; lia).
  assert (Heq : (n_submodels gfit =? 1)%Z = false) by (apply Z.eqb_neq; lia).
  rewrite Hgt, Heq in H. cbn [bind] in H.
  assert (Hd : forall a b : string, NoDup [a; b] -> a <> b).
  { intros a b Hab ->. inversion Hab as [|? ? Hin _]. apply Hin. left. reflexivity. }
  inversion Hnd as [|k1 l1 H1 Hnd1]; subst.
  inversion Hnd1 as [|k2 l2 H2 Hnd2]; subst.
  inversion Hnd2 as [|k3 l3 H3 Hnd3]; subst.
  inversion Hnd3 as [|k4 l4 H4 _]; subst.
  simpl in H1, H2, H3, H4.
  destruct (existsb (String.eqb model) (submodel_names gfit)).
  - apply bind_some in H as (g & -> & H). injection H as <-. cbn [map entry_values].
    repeat (rewrite ?getitem_setitem_same;
            rewrite ?getitem_setitem_other by (intros E; rewrite E in *; tauto)).
    reflexivity.
  - injection H as <-. cbn [map entry_values].
    repeat (rewrite ?getitem_setitem_same;
            rewrite ?getitem_setitem_other by (intros E; rewrite E in *; tauto)).
    reflexivity.
Qed.

Lemma get_parameters_from_other gfit models init params k :
  fold_left (fun acc model => do params <- acc; emp.get_parameters_step gfit params model)
            models (Some init) = Some params ->
  ~ In k (flat_map entry_keys models) ->
  dict.getitem params k = dict.getitem init k.
Proof.
  revert init. induction models as [|m models IH]; intros init H Hk; simpl in H.
  - injection H as <-. reflexivity.
  - change (flat_map entry_keys (m :: models))
      with (entry_keys m ++ flat_map entry_keys models) in Hk.
    destruct (emp.get_parameters_step gfit init m) as [p|] eqn:E.
    + rewrite (IH _ H) by (intros Hin; apply Hk, in_or_app; right; exact Hin).
      apply (get_parameters_step_other _ _ _ _ _ E).
      intros Hin. apply Hk, in_or_app. left. exact Hin.
    + rewrite fold_get_parameters_none in H. discriminate.
Qed.

Lemma get_parameters_from_own gfit models init params model :
  (1 < n_submodels gfit)%Z ->
  NoDup (flat_map entry_keys models) ->
  fold_left (fun acc model => do params <- acc; emp.get_parameters_step gfit params model)
            models (Some init) = Some params ->
  In model models ->
  map (dict.getitem params) (entry_keys model)
  = map Some (entry_values (reported gfit model)).
Proof.
  intros Hn. revert init. induction models as [|m models IH]; intros init Hnd H Hin.
  - destruct Hin.
  - simpl in H.
    change (flat_map entry_keys (m :: models))
      with (entry_keys m ++ flat_map entry_keys models) in Hnd.
    apply NoDup_app_remove_l in Hnd as Hnd_tail.
    destruct (emp.get_parameters_step gfit init m) as [p|] eqn:E;
      [|rewrite fold_get_parameters_none in H; discriminate].
    destruct (in_dec string_dec model models) as [Hm | Hm].
    + apply (IH p); assumption.
    + destruct Hin as [-> | Hin]; [|contradiction].
      assert (Hown : NoDup (entry_keys model)) by (eapply NoDup_app_remove_r; exact Hnd).
      rewrite <- (get_parameters_step_own _ _ _ _ Hn Hown E).
      apply map_ext_in. intros k Hk.
      apply (get_parameters_from_other _ _ _ _ _ H).
      intros Hk'. revert Hk Hk'. clear -Hnd.
      induction (entry_keys model) as [|x l IHl]; intros Hk Hk'; [destruct Hk|].
      simpl in Hnd. inversion Hnd as [|? ? Hx Hnd']; subst.
      destruct Hk as [-> | Hk].
      * apply Hx, in_or_app. right. exact Hk'.
      * exact (IHl Hnd' Hk Hk').
Qed.

(** X9.  [get_parameters] on a model of several submodels, for expected names
    whose keys do not collide: under every expected name the dictionary holds
    the amplitude, mean and width of the component of that name, its velocity
    dispersion and its flux, or five zeros when the model has no such
    component; no entry is overwritten by a later name. *)
Theorem get_parameters_entries gfit models params model :
  (1 < n_submodels gfit)%Z ->
  NoDup (flat_map entry_keys models) ->
  emp.get_parameters gfit models = Some params ->
  In model models ->
  map (dict.getitem params) (entry_keys model)
  = map Some (entry_values (reported gfit model)).
Proof. intros Hn Hnd H Hin. exact (get_parameters_from_own _ _ _ _ _ Hn Hnd H Hin). Qed.

End ParameterEntries.


(** ** The table of one iteration *)

Lemma getitem_union_l {V} (a b : dict.t V) k :
  ~ In k (dict.keys b) -> dict.getitem (dict.union a b) k = dict.getitem a k.
Proof.
  unfold dict.union. revert a. induction b as [|[k' v'] b IH]; intros a Hk; simpl.
  - reflexivity.
  - rewrite IH by (intros Hin; apply Hk; right; exact Hin).
    apply getitem_setitem_other. intros ->. apply Hk. left. reflexivity.
Qed.

Lemma getitem_union_r {V} (a b : dict.t V) k :
  NoDup (dict.keys b) -> In k (dict.keys b) ->
  dict.getitem (dict.union a b) k = dict.getitem b k.
Proof.
  intros Hnd Hin. rewrite getitem_union by assumption.
  destruct (getitem_in b k Hin) as (v & ->). reflexivity.
Qed.

Lemma getitem_model_cons s m name :
  name_of s = name -> getitem (s :: m) name = Some s.
Proof. intros <-. simpl. rewrite String.eqb_refl. reflexivity. Qed.

Lemma entry_keys_in_columns model k :
  In model (emfit.hb_models ++ emfit.oiii_models ++ emfit.nii_ha_models
            ++ emfit.sii_models) ->
  In k (entry_keys model) -> In k iteration_columns.
Proof.
  assert (Hall : forallb
                   (fun model =>
                      forallb (fun k => existsb (String.eqb k) iteration_columns)
                              (entry_keys model))
                   (emfit.hb_models ++ emfit.oiii_models ++ emfit.nii_ha_models
                    ++ emfit.sii_models) = true) by (vm_compute; reflexivity).
  intros Hm Hk.
  pose proof (proj1 (forallb_forall _ _) Hall model Hm) as Hmodel.
  pose proof (proj1 (forallb_forall _ _) Hmodel k Hk) as Hkey.
  apply (proj1 (existsb_eqb_In _ _) Hkey).
Qed.

Lemma complex_keys_in_columns emline :
  In emline ["hb"; "oiii"; "nii_ha"; "sii"] ->
  In (fstr emline "_continuum") iteration_columns
  /\ In (fstr emline "_dof") iteration_columns.
Proof.
  intros He. simpl in He.
  repeat (destruct He as [<- | He]; [split; vm_compute; tauto|]). destruct He.
Qed.

Section IterationTable.
Context {num : Numerics} {opt : Optimizer} {su : SpecUtils} {fb : FindBestfit}.

(** The four dictionaries of an iteration and the table made of them. *)
Lemma iteration_table lam flam ivar n_sii n_oiii fit_cont fits rchi2s t_params :
  emfit.fit_spectra_iteration lam flam ivar n_sii n_oiii fit_cont
  = Some (fits, rchi2s, t_params) ->
  exists g_hb g_oiii g_nii_ha g_sii p_hb p_oiii p_nii_ha p_sii
         c_hb c_oiii c_nii_ha c_sii d_hb d_oiii d_nii_ha d_sii,
    fits = [returned_model fit_cont "hb_cont" g_hb;
            returned_model fit_cont "oiii_cont" g_oiii;
            returned_model fit_cont "nii_ha_cont" g_nii_ha;
            returned_model fit_cont "sii_cont" g_sii]
    /\ emp.get_parameters g_hb emfit.hb_models = Some p_hb
    /\ emp.get_parameters g_oiii emfit.oiii_models = Some p_oiii
    /\ emp.get_parameters g_nii_ha emfit.nii_ha_models = Some p_nii_ha
    /\ emp.get_parameters g_sii emfit.sii_models = Some p_sii
    /\ getitem (returned_model fit_cont "hb_cont" g_hb) "hb_cont" = Some c_hb
    /\ getitem (returned_model fit_cont "oiii_cont" g_oiii) "oiii_cont" = Some c_oiii
    /\ getitem (returned_model fit_cont "nii_ha_cont" g_nii_ha) "nii_ha_cont"
       = Some c_nii_ha
    /\ getitem (returned_model fit_cont "sii_cont" g_sii) "sii_cont" = Some c_sii
    /\ List.length rchi2s = 4%nat
    /\ t_params =
       dict.union
         (dict.union
            (dict.union
               (dict.setitem (dict.setitem p_hb "hb_continuum" (amplitude_of c_hb))
                             "hb_dof" d_hb)
               (dict.setitem
                  (dict.setitem p_oiii "oiii_continuum" (amplitude_of c_oiii))
                  "oiii_dof" d_oiii))
            (dict.setitem
               (dict.setitem p_nii_ha "nii_ha_continuum" (amplitude_of c_nii_ha))
               "nii_ha_dof" d_nii_ha))
         (dict.setitem (dict.setitem p_sii "sii_continuum" (amplitude_of c_sii))
                       "sii_dof" d_sii).
Proof.
  intros H.
  destruct (get_fit_window lam flam ivar "hb") as [[lam_hb flam_hb] ivar_hb] eqn:Whb.
  destruct (get_fit_window lam flam ivar "oiii") as [[lam_o flam_o] ivar_o] eqn:Wo.
  destruct (get_fit_window lam flam ivar "nii_ha") as [[lam_ha flam_ha] ivar_ha] eqn:Wha.
  destruct (get_fit_window lam flam ivar "sii") as [[lam_s flam_s] ivar_s] eqn:Ws.
  destruct (fit_spectra_iteration_inv _ _ _ _ _ _ _ _ _ _ _ _ _ _ _ _ _ _ _ _ _
              Whb Wo Wha Ws H)
    as (gs & rs & ds & go & ro & d_o & hb & ha & hbp & op & hap & sp
        & c1 & c2 & c3 & c4 & _ & _ & _ & _ & Hhbp & Hop & Hhap & Hsp
        & Hc1 & Hc2 & Hc3 & Hc4 & -> & -> & ->).
  exists (gfit hb), go, (gfit ha), gs, hbp, op, hap, sp, c1, c2, c3, c4.
  do 4 eexists. repeat split; eassumption.
Qed.

Lemma fit_spectra_iteration_keys lam flam ivar n_sii n_oiii fit_cont fits rchi2s
      t_params :
  emfit.fit_spectra_iteration lam flam ivar n_sii n_oiii fit_cont
  = Some (fits, rchi2s, t_params) ->
  dict.keys t_params = iteration_columns.
Proof.
  intros H.
  destruct (iteration_table _ _ _ _ _ _ _ _ _ H)
    as (g1 & g2 & g3 & g4 & p1 & p2 & p3 & p4 & c1 & c2 & c3 & c4
        & d1 & d2 & d3 & d4 & _ & H1 & H2 & H3 & H4 & _ & _ & _ & _ & _ & ->).
  rewrite !keys_union, !keys_setitem.
  rewrite (get_parameters_keys _ _ _ H1), (get_parameters_keys _ _ _ H2),
    (get_parameters_keys _ _ _ H3), (get_parameters_keys _ _ _ H4).
  vm_compute. reflexivity.
Qed.

(** X10.  Whenever [fit_spectra_iteration] returns, it returns four models, four
    reduced chi-squares and a table of the same 98 distinct columns, whatever
    the spectrum and whichever models were chosen: five entries for each of
    the 18 expected components, and a continuum and a dof column for each of
    the four complexes. *)
Theorem iteration_table_columns lam flam ivar n_sii n_oiii fit_cont fits rchi2s t_params :
  emfit.fit_spectra_iteration lam flam ivar n_sii n_oiii fit_cont
  = Some (fits, rchi2s, t_params) ->
  dict.keys t_params = iteration_columns
  /\ List.length (dict.keys t_params) = 98%nat
  /\ NoDup (dict.keys t_params)
  /\ (forall model,
         In model (emfit.hb_models ++ emfit.oiii_models ++ emfit.nii_ha_models
                   ++ emfit.sii_models) ->
         incl (entry_keys model) (dict.keys t_params))
  /\ (forall emline, In emline ["hb"; "oiii"; "nii_ha"; "sii"] ->
                     In (fstr emline "_continuum") (dict.keys t_params)
                     /\ In (fstr emline "_dof") (dict.keys t_params))
  /\ List.length fits = 4%nat /\ List.length rchi2s = 4%nat.
Proof.
  intros H. pose proof (fit_spectra_iteration_keys _ _ _ _ _ _ _ _ _ H) as K.
  destruct (iteration_table _ _ _ _ _ _ _ _ _ H)
    as (g1 & g2 & g3 & g4 & p1 & p2 & p3 & p4 & c1 & c2 & c3 & c4
        & d1 & d2 & d3 & d4 & -> & H1 & H2 & H3 & H4 & _ & _ & _ & _ & Hr & Ht).
  split; [exact K|].
  split; [rewrite K; vm_compute; reflexivity|].
  split.
  { subst t_params.
    assert (Hu : forall a b : Row, NoDup (dict.keys a) -> NoDup (dict.keys (dict.union a b))).
    { intros a b Ha. rewrite keys_union. generalize (dict.keys b) as l.
      revert Ha. generalize (dict.keys a) as ks.
      intros ks Hks l. revert ks Hks.
      induction l as [|k l IH]; intros ks Hks; simpl; [assumption|].
      apply IH, NoDup_add_key, Hks. }
    do 3 apply Hu. do 2 apply NoDup_setitem.
    exact (NoDup_get_parameters _ _ _ H1). }
  split.
  { intros model Hm k Hk. rewrite K. exact (entry_keys_in_columns model k Hm Hk). }
  split.
  { intros emline He. rewrite K. exact (complex_keys_in_columns emline He). }
  split; [reflexivity | exact Hr].
Qed.

(** X11.  Without a fitted continuum every continuum entry of the table of an
    iteration is zero, and every returned model starts with a constant zero. *)
Theorem no_continuum_entries_zero lam flam ivar n_sii n_oiii fits rchi2s t_params :
  emfit.fit_spectra_iteration lam flam ivar n_sii n_oiii false
  = Some (fits, rchi2s, t_params) ->
  dict.getitem t_params "hb_continuum" = Some 0
  /\ dict.getitem t_params "oiii_continuum" = Some 0
  /\ dict.getitem t_params "nii_ha_continuum" = Some 0
  /\ dict.getitem t_params "sii_continuum" = Some 0
  /\ map (@hd_error Submodel) fits
     = [Some (Const1D 0 "hb_cont"); Some (Const1D 0 "oiii_cont");
        Some (Const1D 0 "nii_ha_cont"); Some (Const1D 0 "sii_cont")].
Proof.
  intros H.
  destruct (iteration_table _ _ _ _ _ _ _ _ _ H)
    as (g1 & g2 & g3 & g4 & p1 & p2 & p3 & p4 & c1 & c2 & c3 & c4
        & d1 & d2 & d3 & d4 & -> & H1 & H2 & H3 & H4 & Hc1 & Hc2 & Hc3 & Hc4 & _ & ->).
  unfold returned_model in *.
  rewrite getitem_model_cons in Hc1, Hc2, Hc3, Hc4 by reflexivity.
  injection Hc1 as <-. injection Hc2 as <-. injection Hc3 as <-. injection Hc4 as <-.
  cbn [amplitude_of].
  pose proof (NoDup_get_parameters _ _ _ H1) as N1.
  pose proof (NoDup_get_parameters _ _ _ H2) as N2.
  pose proof (NoDup_get_parameters _ _ _ H3) as N3.
  pose proof (NoDup_get_parameters _ _ _ H4) as N4.
  pose proof (get_parameters_keys _ _ _ H1) as K1.
  pose proof (get_parameters_keys _ _ _ H2) as K2.
  pose proof (get_parameters_keys _ _ _ H3) as K3.
  pose proof (get_parameters_keys _ _ _ H4) as K4.
  assert (Hout : forall (p : Row) k c v d v',
             ~ In k (add_key (add_key (dict.keys p) c) d) ->
             ~ In k (dict.keys (dict.setitem (dict.setitem p c v) d v'))).
  { intros p k c v d v'. rewrite !keys_setitem. tauto. }
  assert (Hin : forall (p : Row) c v d v',
             c <> d -> dict.getitem (dict.setitem (dict.setitem p c v) d v') c = Some v).
  { intros p c v d v' Hne. rewrite getitem_setitem_other by congruence.
    apply getitem_setitem_same. }
  repeat split.
  - rewrite !getitem_union_l
      by (apply Hout; rewrite ?K2, ?K3, ?K4;
          apply (proj1 (existsb_eqb_not_In _ _)); vm_compute; reflexivity).
    apply Hin. discriminate.
  - rewrite !getitem_union_l
      by (apply Hout; rewrite ?K2, ?K3, ?K4;
          apply (proj1 (existsb_eqb_not_In _ _)); vm_compute; reflexivity).
    rewrite getitem_union_r.
    + apply Hin. discriminate.
    + do 2 apply NoDup_setitem. assumption.
    + rewrite !keys_setitem, K2.
      apply (proj1 (existsb_eqb_In _ _)). vm_compute. reflexivity.
  - rewrite !getitem_union_l
      by (apply Hout; rewrite ?K2, ?K3, ?K4;
          apply (proj1 (existsb_eqb_not_In _ _)); vm_compute; reflexivity).
    rewrite getitem_union_r.
    + apply Hin. discriminate.
    + do 2 apply NoDup_setitem. assumption.
    + rewrite !keys_setitem, K3.
      apply (proj1 (existsb_eqb_In _ _)). vm_compute. reflexivity.
  - rewrite getitem_union_r.
    + apply Hin. discriminate.
    + do 2 apply NoDup_setitem. assumption.
    + rewrite !keys_setitem, K4.
      apply (proj1 (existsb_eqb_In _ _)). vm_compute. reflexivity.
Qed.

(** X12.  [fit_spectra_iteration] has a branch for 2, 3, 4 and 5 submodels and for
    [None] only: with any other number for [n_sii] or [n_oiii] no fit is bound
    and no table is returned. *)
Theorem architecture_out_of_range_fails lam flam ivar n_sii n_oiii fit_cont n :
  ~ In n [2; 3; 4; 5]%Z ->
  n_sii = Some n \/ n_oiii = Some n ->
  emfit.fit_spectra_iteration lam flam ivar n_sii n_oiii fit_cont = None.
Proof.
  intros Hn Hor. unfold emfit.fit_spectra_iteration.
  destruct (get_fit_window lam flam ivar "hb") as [[? ?] ?].
  destruct (get_fit_window lam flam ivar "oiii") as [[? ?] ?].
  destruct (get_fit_window lam flam ivar "nii_ha") as [[? ?] ?].
  destruct (get_fit_window lam flam ivar "sii") as [[? ?] ?].
  assert (H23 : ((n =? 2) || (n =? 3))%Z = false).
  { apply orb_false_iff. split; apply Z.eqb_neq; intros ->; apply Hn; simpl; tauto. }
  assert (H45 : ((n =? 4) || (n =? 5))%Z = false).
  { apply orb_false_iff. split; apply Z.eqb_neq; intros ->; apply Hn; simpl; tauto. }
  destruct Hor as [-> | ->].
  - unfold emfit.sii_fit. rewrite H23, H45. reflexivity.
  - destruct (emfit.sii_fit _ _ _ n_sii fit_cont) as [[[? ?] ?]|]; [|reflexivity].
    cbn [bind]. unfold emfit.oiii_fit. rewrite H23, H45. reflexivity.
Qed.

End IterationTable.


(** ** The properties above on concrete spectra *)

Lemma sii_kinematic_ties_witness :
  exists g r a b,
    fit_sii_lines.fit_one_component
      (num := rational_numerics) (opt := recovering all_no_broad all_with_broad)
      sii_lam (ones sii_lam) (ones sii_lam) true = Some (g, r)
    /\ gaussian g "sii6716" = Some a /\ gaussian g "sii6731" = Some b
    /\ (~ mean a == 0 -> stddev b * mean a == stddev a * mean b).
Proof.
  destruct (is_some
    (fit_sii_lines.fit_one_component
       (num := rational_numerics) (opt := recovering all_no_broad all_with_broad)
       sii_lam (ones sii_lam) (ones sii_lam) true)) as [[g r] H].
  { vm_compute. exact I. }
  destruct (proj1 (sii_kinematic_ties _ _ _ _) g r H) as (a & b & Ha & Hb & Hab).
  exists g, r, a, b. repeat split; assumption.
Defined.

Lemma oiii_widths_tied_witness :
  exists g r a b,
    fit_oiii_lines.fit_one_component
      (num := rational_numerics) (opt := recovering all_no_broad all_with_broad)
      oiii_lam (ones oiii_lam) (ones oiii_lam) true = Some (g, r)
    /\ gaussian g "oiii4959" = Some a /\ gaussian g "oiii5007" = Some b
    /\ (~ mean a == 0 -> stddev b * mean a == stddev a * mean b).
Proof.
  destruct (is_some
    (fit_oiii_lines.fit_one_component
       (num := rational_numerics) (opt := recovering all_no_broad all_with_broad)
       oiii_lam (ones oiii_lam) (ones oiii_lam) true)) as [[g r] H].
  { vm_compute. exact I. }
  destruct (proj1 (oiii_widths_tied _ _ _ _) g r H) as (a & b & Ha & Hb & Hab).
  exists g, r, a, b. repeat split; assumption.
Defined.

Lemma doublet_bounds_respected_witness :
  exists g r a b,
    fit_sii_lines.fit_one_component
      (num := rational_numerics) (opt := recovering all_no_broad all_with_broad)
      sii_lam (ones sii_lam) (ones sii_lam) true = Some (g, r)
    /\ gaussian g "sii6716" = Some a /\ gaussian g "sii6731" = Some b
    /\ 0 <= amplitude a /\ 0 <= amplitude b /\ 0.8 <= stddev a.
Proof.
  destruct (is_some
    (fit_sii_lines.fit_one_component
       (num := rational_numerics) (opt := recovering all_no_broad all_with_broad)
       sii_lam (ones sii_lam) (ones sii_lam) true)) as [[g r] H].
  { vm_compute. exact I. }
  destruct (proj1 (doublet_bounds_respected _ _ _ _) g r H)
    as (a & b & Ha & Hb & H1 & H2 & H3).
  exists g, r, a, b. repeat split; assumption.
Defined.

Lemma flags_record_each_test_witness :
  exists c r,
    candidates (num := rational_numerics) (opt := recovering hb1_no_broad hb1_with_broad)
               (mkEntry Hb Free One) hb_lam hb1_flam (ones hb_lam) sii_narrow 60 true
    = Some c
    /\ fit_entry (num := rational_numerics)
                 (opt := recovering hb1_no_broad hb1_with_broad)
                 (mkEntry Hb Free One) hb_lam hb1_flam (ones hb_lam) sii_narrow 60 true
       = Some r
    /\ Sorted Z.le (flag_bits r).
Proof.
  destruct (is_some
              (candidates (num := rational_numerics)
                          (opt := recovering hb1_no_broad hb1_with_broad)
                          (mkEntry Hb Free One) hb_lam hb1_flam (ones hb_lam)
                          sii_narrow 60 true)) as [c Hc].
  { vm_compute. exact I. }
  destruct (flags_record_each_test _ _ _ _ _ _ _ _ Hc)
    as (sn & sb & r & _ & _ & Hr & _ & _ & _ & _ & _ & _ & Hs).
  exists c, r. repeat split; assumption.
Defined.

Lemma dof_counts_free_parameters_witness :
  exists c0 r,
    fitted (num := rational_numerics) (opt := recovering hb2_no_broad hb2_with_broad)
           (mkEntry Hb Fixed Two) hb_lam hb2_flam (ones hb_lam) sii_outflow 60 true
    = Some c0
    /\ fit_entry (num := rational_numerics)
                 (opt := recovering hb2_no_broad hb2_with_broad)
                 (mkEntry Hb Fixed Two) hb_lam hb2_flam (ones hb_lam) sii_outflow 60 true
       = Some r
    /\ (n_dof r = 8%Z \/ n_dof r = 5%Z).
Proof.
  destruct (is_some
              (fitted (num := rational_numerics)
                      (opt := recovering hb2_no_broad hb2_with_broad)
                      (mkEntry Hb Fixed Two) hb_lam hb2_flam (ones hb_lam)
                      sii_outflow 60 true)) as [c0 Hc0].
  { vm_compute. exact I. }
  destruct (dof_counts_free_parameters _ _ _ _ _ _ _ _ Hc0)
    as (_ & _ & _ & r & Hr & [(_ & Hd & _) | (_ & Hd & _)]);
    exists c0, r; (split; [exact Hc0|]); (split; [exact Hr|]);
    [left | right]; exact Hd.
Defined.

Lemma nii_ties_hold_witness :
  exists c n1 n2,
    fitted (num := rational_numerics) (opt := recovering ha_no_broad ha_with_broad)
           (mkEntry Ha Fixed One) ha_lam ha_flam (ones ha_lam) sii_outflow 60 true
    = Some c
    /\ gaussian (gfit_broad c) "nii6548" = Some n1
    /\ gaussian (gfit_broad c) "nii6583" = Some n2
    /\ amplitude n2 == 2.96 * amplitude n1
    /\ mean n2 - mean n1 == 35.425.
Proof.
  destruct (is_some
              (fitted (num := rational_numerics)
                      (opt := recovering ha_no_broad ha_with_broad)
                      (mkEntry Ha Fixed One) ha_lam ha_flam (ones ha_lam)
                      sii_outflow 60 true)) as [c Hc].
  { vm_compute. exact I. }
  destruct (nii_ties_hold Fixed One _ _ _ sii_outflow _ _ c
              (mkGaussPars 5 6718 1.2) (gfit_broad c) Hc eq_refl (or_intror eq_refl))
    as ((n1 & n2 & H1 & H2 & Ha & Hm & _) & _).
  exists c, n1, n2. repeat split; assumption.
Defined.

Lemma fixed_widths_follow_sii_witness :
  exists c n,
    fitted (num := rational_numerics) (opt := recovering hb1_no_broad hb1_with_broad)
           (mkEntry Hb Fixed One) hb_lam hb1_flam (ones hb_lam) sii_narrow 60 true
    = Some c
    /\ gaussian (gfit_broad c) "hb_n" = Some n
    /\ stddev n * 6718 == mean n * 0.8.
Proof.
  destruct (is_some
              (fitted (num := rational_numerics)
                      (opt := recovering hb1_no_broad hb1_with_broad)
                      (mkEntry Hb Fixed One) hb_lam hb1_flam (ones hb_lam)
                      sii_narrow 60 true)) as [c Hc].
  { vm_compute. exact I. }
  destruct (fixed_widths_follow_sii Hb One _ _ _ sii_narrow _ _ c
              (mkGaussPars 5 6718 0.8) (gfit_broad c) Hc eq_refl (or_intror eq_refl))
    as ((n & Hn & Hw) & _).
  exists c, n. split; [exact Hc|]. split; [exact Hn|].
  apply Hw. discriminate.
Defined.

Lemma free_width_within_template_witness :
  exists c n,
    fitted (num := rational_numerics) (opt := recovering hb1_no_broad hb1_with_broad)
           (mkEntry Hb Free One) hb_lam hb1_flam (ones hb_lam) sii_narrow 60 true
    = Some c
    /\ gaussian (gfit_broad c) "hb_n" = Some n
    /\ stddev n
       <= mfit.velspace_to_lamspace
            (mfit.lamspace_to_velspace 0.8 6718
             + (60 / 100) * mfit.lamspace_to_velspace 0.8 6718) 4862.683.
Proof.
  destruct (is_some
              (fitted (num := rational_numerics)
                      (opt := recovering hb1_no_broad hb1_with_broad)
                      (mkEntry Hb Free One) hb_lam hb1_flam (ones hb_lam)
                      sii_narrow 60 true)) as [c Hc].
  { vm_compute. exact I. }
  destruct (free_width_within_template Hb One _ _ _ sii_narrow _ _ c
              (mkGaussPars 5 6718 0.8) (gfit_broad c) Hc eq_refl (or_intror eq_refl))
    as (n & Hn & Hmax & _).
  exists c, n. repeat split; assumption.
Defined.

Lemma NoDup_by_nodup (l : list string) : nodup string_dec l = l -> NoDup l.
Proof. intros <-. apply NoDup_nodup. Qed.

(** The keys of the 18 expected components do not collide. *)
Lemma expected_keys_distinct :
  NoDup (flat_map entry_keys
                  (emfit.hb_models ++ emfit.oiii_models ++ emfit.nii_ha_models
                   ++ emfit.sii_models)).
Proof. apply NoDup_by_nodup. vm_compute. reflexivity. Qed.

Lemma get_parameters_entries_witness :
  exists params,
    emp.get_parameters (num := rational_numerics) hb1_with_broad emfit.hb_models
    = Some params
    /\ dict.getitem params "hb_out_flux" = Some 0
    /\ dict.getitem params "hb_b_std" = Some 3.
Proof.
  destruct (is_some
              (emp.get_parameters (num := rational_numerics) hb1_with_broad
                                  emfit.hb_models)) as [params H].
  { vm_compute. exact I. }
  assert (Hn : (1 < n_submodels hb1_with_broad)%Z) by (vm_compute; reflexivity).
  assert (Hd : NoDup (flat_map entry_keys emfit.hb_models)).
  { apply NoDup_by_nodup. vm_compute. reflexivity. }
  pose proof (get_parameters_entries (num := rational_numerics)
                hb1_with_broad emfit.hb_models params "hb_out" Hn Hd H
                (or_intror (or_introl eq_refl))) as Hout.
  pose proof (get_parameters_entries (num := rational_numerics)
                hb1_with_broad emfit.hb_models params "hb_b" Hn Hd H
                (or_intror (or_intror (or_introl eq_refl)))) as Hb.
  exists params. split; [exact H|].
  split.
  - exact (f_equal (fun l => nth 4 l None) Hout).
  - exact (f_equal (fun l => nth 2 l None) Hb).
Defined.

Lemma iteration_table_columns_witness :
  exists fits rchi2s t_params,
    emfit.fit_spectra_iteration
      (num := rational_numerics) (opt := recovering all_no_broad all_with_broad)
      (su := spectrum_source small_lam small_flam (ones small_lam))
      (fb := selectors (num := rational_numerics)
                       (opt := recovering all_no_broad all_with_broad) Free)
      small_lam small_flam (ones small_lam) (Some 3%Z) (Some 3%Z) true
    = Some (fits, rchi2s, t_params)
    /\ dict.keys t_params = iteration_columns.
Proof.
  destruct (is_some
    (emfit.fit_spectra_iteration
       (num := rational_numerics) (opt := recovering all_no_broad all_with_broad)
       (su := spectrum_source small_lam small_flam (ones small_lam))
       (fb := selectors (num := rational_numerics)
                        (opt := recovering all_no_broad all_with_broad) Free)
       small_lam small_flam (ones small_lam) (Some 3%Z) (Some 3%Z) true))
    as [[[fits rchi2s] t_params] H].
  { vm_compute. exact I. }
  exists fits, rchi2s, t_params. split; [exact H|].
  exact (proj1 (iteration_table_columns _ _ _ _ _ _ _ _ _ H)).
Defined.

Lemma no_continuum_entries_zero_witness :
  exists fits rchi2s t_params,
    emfit.fit_spectra_iteration
      (num := rational_numerics) (opt := recovering all_no_broad all_with_broad)
      (su := spectrum_source full_lam full_flam (ones full_lam))
      (fb := selectors (num := rational_numerics)
                       (opt := recovering all_no_broad all_with_broad) Free)
      full_lam full_flam (ones full_lam) (Some 5%Z) (Some 3%Z) false
    = Some (fits, rchi2s, t_params)
    /\ dict.getitem t_params "hb_continuum" = Some 0.
Proof.
  destruct (is_some
    (emfit.fit_spectra_iteration
       (num := rational_numerics) (opt := recovering all_no_broad all_with_broad)
       (su := spectrum_source full_lam full_flam (ones full_lam))
       (fb := selectors (num := rational_numerics)
                        (opt := recovering all_no_broad all_with_broad) Free)
       full_lam full_flam (ones full_lam) (Some 5%Z) (Some 3%Z) false))
    as [[[fits rchi2s] t_params] H].
  { vm_compute. exact I. }
  exists fits, rchi2s, t_params. split; [exact H|].
  exact (proj1 (no_continuum_entries_zero _ _ _ _ _ _ _ _ H)).
Defined.

Lemma architecture_out_of_range_fails_witness :
  emfit.fit_spectra_iteration
    (num := rational_numerics) (opt := recovering all_no_broad all_with_broad)
    (su := spectrum_source small_lam small_flam (ones small_lam))
    (fb := selectors (num := rational_numerics)
                     (opt := recovering all_no_broad all_with_broad) Free)
    small_lam small_flam (ones small_lam) (Some 6%Z) (Some 3%Z) true = None.
Proof.
  apply (architecture_out_of_range_fails _ _ _ (Some 6%Z) (Some 3%Z) true 6%Z).
  - simpl. lia.
  - left. reflexivity.
Defined.

